(** * IMQS migrator: a shallow embedding of [main.go] and its verification

    The migrator applies an ordered list of [.sql] files to a PostgreSQL
    database and records each applied file in the table [schema_migrations].
    This development embeds the functions of [main.go] that form the
    reconciliation engine

      [makeConStr], [parseDBConStr], [connectOrCreate], [bootstrap],
      [getMigrationsInDB], [runLegacyMigrations], [maxLegacyMigrationVersion],
      [legacyMigrationVersion], [switchoverFromAlbion],
      [migrationNameFromFile], [runMigration], [runMigrations]

    together with the callers that collect the files, [upgrade],
    [upgradeCmd] and [upgradeAll], and the name check [validDBNameRegex] of
    the service, and proves properties of them.

    Modelling decisions.
    - Go strings are [string]s of bytes.  Go [int] values are [Z]; every
      integer the program computes stays inside 32 bits, so no wrap-around
      can occur, and the one place where a 64 bit bound matters (scanning a
      column into an [int]) checks it.
    - A Go function returning [error] becomes a function into [Error + A].
      A run-time panic (slicing a file name shorter than four bytes) is the
      error [PanicSliceBounds].
    - The database server, the file system and standard output are explicit
      state.  A transaction is a working copy of the database taken at
      [Begin]; [Commit] installs it and [Rollback] drops it.  The connection
      is healthy: a statement fails only for a reason visible in the state
      (missing or existing relation, duplicate key, NULL scanned into an
      int, a script that the server rejects, a table that it refuses to
      drop).
    - What PostgreSQL does with the text of a migration file, whether it
      lets the bookkeeping table be dropped, what it does on
      [CREATE DATABASE], and the Unicode tables behind [strings.ToLower] are
      not part of the repository; they are the fields of [Environment].
    - Lines sent to the IMQS logger are not recorded; what [fmt.Printf]
      writes is.
    - The directory [upgrade] walks is a tree of paths as [filepath.Walk]
      sees it; the answer of the config service to [getDBConnection] is a
      function of the database name.  The HTTP handlers of [serviceCmd] are
      not modelled. *)

From Stdlib Require Import ZArith Ascii String List Lia DecimalString.
From stdpp Require Import base option list gmap strings.

Local Open Scope string_scope.
Local Open Scope Z_scope.

(** ** The parts of the Go standard library that the program calls *)

Module Go.

(** [strings.Split(s, sep)] for a one-byte separator: one more part than
    there are separators, so the empty string splits into one empty part. *)
Fixpoint Split (sep : ascii) (s : string) : list string :=
  match s with
  | EmptyString => [EmptyString]
  | String c s' =>
      if Ascii.eqb c sep then EmptyString :: Split sep s'
      else match Split sep s' with
           | p :: ps => String c p :: ps
           | [] => [String c EmptyString]
           end
  end.

(** [strings.Join(parts, sep)], the inverse used to state losslessness. *)
Fixpoint Join (sep : ascii) (parts : list string) : string :=
  match parts with
  | [] => EmptyString
  | [p] => p
  | p :: ps => p ++ String sep (Join sep ps)
  end.

(** [strings.Index(s, substr)]: byte offset of the first occurrence, -1
    when there is none. *)
Fixpoint Index (s substr : string) : Z :=
  if String.prefix substr s then 0
  else match s with
       | EmptyString => -1
       | String _ s' => let i := Index s' substr in if i <? 0 then -1 else i + 1
       end.

Definition HasSuffix (s suffix : string) : bool :=
  let n := String.length s in
  let k := String.length suffix in
  (k <=? n)%nat && String.eqb (String.substring (n - k) k s) suffix.

(** [s[:len(s)-4]]; the slice expression panics when [len(s) < 4]. *)
Definition dropLast4 (s : string) : option string :=
  let n := String.length s in
  if (n <? 4)%nat then None else Some (String.substring 0 (n - 4) s).

Definition isSeparator (c : ascii) : bool := Ascii.eqb c "/".

Fixpoint hasSeparator (s : string) : bool :=
  match s with
  | EmptyString => false
  | String c s' => isSeparator c || hasSeparator s'
  end.

(** First loop of [filepath.Base]: strip trailing separators. *)
Fixpoint stripTrailingSeparators (s : string) : string :=
  match s with
  | EmptyString => EmptyString
  | String c s' =>
      let t := stripTrailingSeparators s' in
      if isSeparator c && String.eqb t EmptyString then EmptyString
      else String c t
  end.

(** Second loop of [filepath.Base]: what follows the last separator. *)
Fixpoint lastElement (s : string) : string :=
  match s with
  | EmptyString => EmptyString
  | String c s' =>
      if hasSeparator s' then lastElement s'
      else if isSeparator c then s' else s
  end.

(** [filepath.Base] on a system whose separator is [/] and that has no
    volume names (the program is built with GOOS=linux). *)
Definition Base (path : string) : string :=
  if String.eqb path EmptyString then "."
  else
    let p := lastElement (stripTrailingSeparators path) in
    if String.eqb p EmptyString then "/" else p.

Definition isUpper (c : ascii) : bool :=
  let n := nat_of_ascii c in (65 <=? n)%nat && (n <=? 90)%nat.

Definition lowerByte (c : ascii) : ascii :=
  if isUpper c then ascii_of_nat (nat_of_ascii c + 32) else c.

Fixpoint isASCII (s : string) : bool :=
  match s with
  | EmptyString => true
  | String c s' => (nat_of_ascii c <? 128)%nat && isASCII s'
  end.

Fixpoint mapBytes (f : ascii -> ascii) (s : string) : string :=
  match s with
  | EmptyString => EmptyString
  | String c s' => String (f c) (mapBytes f s')
  end.

(** [strings.ToLower]: byte-wise on ASCII-only strings (the fast path of
    the library), by the Unicode tables otherwise. *)
Definition ToLower (unicodeToLower : string -> string) (s : string) : string :=
  if isASCII s then mapBytes lowerByte s else unicodeToLower s.

Definition isDigit (c : ascii) : bool :=
  let n := nat_of_ascii c in (48 <=? n)%nat && (n <=? 57)%nat.

Definition digit (c : ascii) : option Z :=
  if isDigit c then Some (Z.of_nat (nat_of_ascii c) - 48) else None.

Fixpoint digits (acc : Z) (s : string) : option Z :=
  match s with
  | EmptyString => Some acc
  | String c s' =>
      match digit c with
      | Some d => digits (10 * acc + d) s'
      | None => None
      end
  end.

(** An optional sign followed by one or more decimal digits: the integer
    input of the server. *)
Definition decimal (s : string) : option Z :=
  match s with
  | EmptyString => None
  | String c s' =>
      let '(neg, body) :=
        if Ascii.eqb c "+" then (false, s')
        else if Ascii.eqb c "-" then (true, s')
        else (false, s) in
      match body with
      | EmptyString => None
      | _ => match digits 0 body with
             | Some n => Some (if neg then - n else n)
             | None => None
             end
      end
  end.

(** What [strconv] reports beside the number. *)
Inductive NumError := ErrSyntax | ErrRange.

(** The loop of [strconv.ParseUint(s, 10, bitSize)] over the bytes of
    [s], with [n] the number read so far.  A byte that is no digit is a
    syntax error, returned with 0.  A digit that takes the number above
    [maxVal] is a range error, returned with [maxVal] at once, whatever
    follows it.  (The two tests of the library, [n >= cutoff] and
    [n1 < n || n1 > maxVal], are together the test [maxVal < 10 * n + d]
    on numbers that do not wrap.) *)
Fixpoint parseUintFrom (maxVal n : Z) (s : string) : Z * option NumError :=
  match s with
  | EmptyString => (n, None)
  | String c s' =>
      match digit c with
      | None => (0, Some ErrSyntax)
      | Some d =>
          if maxVal <? 10 * n + d then (maxVal, Some ErrRange)
          else parseUintFrom maxVal (10 * n + d) s'
      end
  end.

(** [strconv.ParseUint(s, 10, bitSize)]. *)
Definition ParseUint (s : string) (bitSize : Z) : Z * option NumError :=
  match s with
  | EmptyString => (0, Some ErrSyntax)
  | _ => parseUintFrom (2 ^ bitSize - 1) 0 s
  end.

(** [strconv.ParseInt(s, 10, bitSize)]: the value and whether an error
    is returned with it.  The sign is picked off and the rest goes to
    [ParseUint]; a syntax error comes with 0, a range error with the
    nearest bound. *)
Definition ParseInt (s : string) (bitSize : Z) : Z * bool :=
  match s with
  | EmptyString => (0, true)
  | String c s' =>
      let '(neg, body) :=
        if Ascii.eqb c "+" then (false, s')
        else if Ascii.eqb c "-" then (true, s')
        else (false, s) in
      match ParseUint body bitSize with
      | (_, Some ErrSyntax) => (0, true)
      | (un, _) =>
          let cutoff := 2 ^ (bitSize - 1) in
          if negb neg && (cutoff <=? un) then (cutoff - 1, true)
          else if neg && (cutoff <? un) then (- cutoff, true)
          else (if neg then - un else un, false)
      end
  end.

(** The [%v] verb applied to an integer. *)
Definition FormatInt (n : Z) : string := NilZero.string_of_int (Z.to_int n).

End Go.

(** ** Errors *)

(** What the database driver can answer. *)
Inductive DriverError :=
| ErrNoRows                       (* sql.ErrNoRows *)
| NullIntoInt                     (* Scan: converting NULL to int is unsupported *)
| IntOutOfRange (v : Z)           (* Scan: value out of range *)
| UndefinedTable                  (* relation "schema_migrations" does not exist *)
| DuplicateTable                  (* relation "schema_migrations" already exists *)
| UniqueViolation (v : string)    (* duplicate key value violates unique constraint *)
| InvalidInteger (v : string)     (* invalid input syntax for integer *)
| ScriptRejected (msg : string)   (* the server's answer to a rejected migration script *)
| DropRefused (msg : string)      (* the server's answer to a refused DROP TABLE *)
| NoSuchDatabase (name : string)  (* database "name" does not exist *)
| UnknownDriver (name : string).  (* sql: unknown driver "name" (forgotten import?) *)

(** The errors the program returns; each constructor stands for one
    [fmt.Errorf] call (or for a driver error passed on unchanged). *)
Inductive Error :=
| InvalidConStr (nparts : nat)
| UnsupportedDriver (driver : string)
| ConnectRootFailed (root con : string) (e : DriverError)
| CreateDatabaseFailed (con : string) (e : DriverError)
| ConnectNewFailed (con : string) (e : DriverError)
| VerTypeReadFailed (e : DriverError)
| MaxVersionReadFailed (e : DriverError)
| VersionMismatch (maxAvailable maxDB : Z)
| ReadFileFailed (sqlFile : string)
| Driver (e : DriverError)
| PanicSliceBounds.

Definition driverMessage (e : DriverError) : string :=
  match e with
  | ErrNoRows => "sql: no rows in result set"
  | NullIntoInt =>
      "sql: Scan error on column index 0: converting NULL to int is unsupported"
  | IntOutOfRange v =>
      "sql: Scan error on column index 0: converting driver.Value type int64 ("
        ++ Go.FormatInt v ++ ") to a int: value out of range"
  | UndefinedTable => "pq: relation schema_migrations does not exist"
  | DuplicateTable => "pq: relation schema_migrations already exists"
  | UniqueViolation _ =>
      "pq: duplicate key value violates unique constraint schema_migrations_pkey"
  | InvalidInteger v => "pq: invalid input syntax for integer: " ++ v
  | ScriptRejected msg => msg
  | DropRefused msg => msg
  | NoSuchDatabase name => "pq: database " ++ name ++ " does not exist"
  | UnknownDriver name =>
      (* the verb is [%q]; a name of plain letters is put between quotes *)
      "sql: unknown driver " ++ String "034" name ++ String "034" " (forgotten import?)"
  end.

(** The text of each error, as the format strings of [main.go] build it. *)
Definition message (e : Error) : string :=
  match e with
  | InvalidConStr n =>
      "Invalid db connection string. Expected 6 colon-separated parts, but only got "
        ++ Go.FormatInt (Z.of_nat n) ++ " parts"
  | UnsupportedDriver d =>
      "Postgres is the only supported database (not " ++ d ++ ")"
  | ConnectRootFailed root con e =>
      "Failed to connect to database '" ++ root ++ "', in order to create database "
        ++ con ++ ": " ++ driverMessage e
  | CreateDatabaseFailed con e =>
      "Failed to create database " ++ con ++ ": " ++ driverMessage e
  | ConnectNewFailed con e =>
      "Failed to connect to newly created database '" ++ con ++ "': "
        ++ driverMessage e
  | VerTypeReadFailed e =>
      "Unable to read datatype of schema_migrations.version field: "
        ++ driverMessage e
  | MaxVersionReadFailed e =>
      "Unable to read max legacy version: " ++ driverMessage e
  | VersionMismatch maxAvailable maxDB =>
      "Unable to upgrade migration system. Expected database to be at migration "
        ++ Go.FormatInt maxAvailable ++ ", but it is at " ++ Go.FormatInt maxDB
  | ReadFileFailed sqlFile =>
      "Error reading migration file " ++ sqlFile ++ ": open " ++ sqlFile
        ++ ": no such file or directory"
  | Driver e => driverMessage e
  | PanicSliceBounds => "panic: runtime error: slice bounds out of range"
  end.

(** ** Connection descriptors *)

Definition metaTableCreateStatement : string :=
  "CREATE TABLE schema_migrations (version VARCHAR PRIMARY KEY);".

Record dbCon := mkDbCon {
  driver : string;
  host : string;
  port : string;
  dbname : string;
  user : string;
  password : string;
  sslmode : string
}.

(** The zero value [dbCon{}]. *)
Definition zeroCon : dbCon := mkDbCon "" "" "" "" "" "" "".

Definition makeConStr (c : dbCon) : string :=
  let s := "host=" ++ host c ++ " dbname=" ++ dbname c ++ " user=" ++ user c in
  let s :=
    if negb (String.eqb (port c) "0") && negb (String.eqb (port c) "")
    then s ++ " port=" ++ port c else s in
  let s :=
    if negb (String.eqb (password c) "")
    then s ++ " password=" ++ password c else s in
  if negb (String.eqb (sslmode c) "")
  then s ++ " sslmode=" ++ sslmode c
  else s ++ " sslmode=disable".

(** [c.string()] *)
Definition conString (c : dbCon) : string := host c ++ ":" ++ dbname c.

(** Go returns a descriptor and an error side by side; [None] is [nil]. *)
Definition parseDBConStr (dbStr : string) : dbCon * option Error :=
  let parts := Go.Split ":" dbStr in
  if negb (length parts =? 6)%nat then (zeroCon, Some (InvalidConStr (length parts)))
  else
    let c := {| driver := nth 0 parts "";
                host := nth 1 parts "";
                port := nth 2 parts "";
                dbname := nth 3 parts "";
                user := nth 4 parts "";
                password := nth 5 parts "";
                sslmode := "" |} in
    if negb (String.eqb (driver c) "postgres")
    then (c, Some (UnsupportedDriver (driver c)))
    else (c, None).

(** ** Migration file names *)

Section FileNames.

(** The Unicode case tables of the Go library. *)
Variable unicodeToLower : string -> string.

(** [None] is the panic of [s[:len(s)-4]] on a base name shorter than
    four bytes. *)
Definition legacyMigrationVersion (sqlfile : string) : option (Z * bool) :=
  match Go.dropLast4 (Go.Base sqlfile) with
  | None => None
  | Some s =>
      let parts := Go.Split "-" s in
      if negb (length parts =? 2)%nat
         || negb (String.eqb (nth 0 parts "") "0000")
         || (String.length (nth 1 parts "") =? 0)%nat
      then Some (0, false)
      else Some (fst (Go.ParseInt (nth 1 parts "") 32), true)
  end.

(** The loop of [maxLegacyMigrationVersion], with [m] its running maximum. *)
Fixpoint maxLegacyMigrationVersionFrom (m : Z) (sqlFiles : list string) : option Z :=
  match sqlFiles with
  | [] => Some m
  | file :: rest =>
      match legacyMigrationVersion file with
      | None => None
      | Some (v, isLegacy) =>
          maxLegacyMigrationVersionFrom
            (if isLegacy && (m <? v) then v else m) rest
      end
  end.

Definition maxLegacyMigrationVersion (sqlFiles : list string) : option Z :=
  maxLegacyMigrationVersionFrom 0 sqlFiles.

Definition migrationNameFromFile (filename : string) : option string :=
  match Go.dropLast4 (Go.Base filename) with
  | None => None
  | Some name => Some (Go.ToLower unicodeToLower name)
  end.

End FileNames.

(** ** The database *)

(** The table [schema_migrations]: absent, Albion's (an integer column, no
    key), or this system's (a VARCHAR primary key).  Rows are kept in
    insertion order. *)
Inductive MetaTable :=
| Absent
| Legacy (rows : list Z)
| Current (rows : list string).

(** One database: the bookkeeping table and everything else in it. *)
Record Database (D : Type) := mkDatabase { meta : MetaTable; data : D }.
Arguments mkDatabase {D} _ _.
Arguments meta {D} _.
Arguments data {D} _.

Definition setMeta {D} (t : MetaTable) (d : Database D) : Database D :=
  mkDatabase t (data d).

(** What lies outside the repository: the effect of a migration script on a
    database (an error text or the database after it), whether the server
    refuses the statement that drops the bookkeeping table of a database
    and creates it anew (it does when other objects depend on the table,
    or when the user may not drop it) and with what text, the effect of
    [CREATE DATABASE name] on the cluster, and [strings.ToLower] beyond
    ASCII. *)
Class Environment := {
  Data : Type;
  execScript : string -> Database Data -> string + Database Data;
  dropRefused : Database Data -> option string;
  createDatabase :
    string -> gmap string (Database Data) -> DriverError + gmap string (Database Data);
  unicodeToLower : string -> string
}.

(** The statements the program sends to one database. *)
Inductive Stmt :=
| CreateMetaTable                (* metaTableCreateStatement *)
| DropAndCreateMetaTable         (* "DROP TABLE schema_migrations; " + metaTableCreateStatement *)
| InsertVersion (version : string)
| Script (sql : string).         (* the text of a migration file *)

(** The SQL text and the arguments of each statement. *)
Definition stmtText (s : Stmt) : string * list string :=
  match s with
  | CreateMetaTable => (metaTableCreateStatement, [])
  | DropAndCreateMetaTable =>
      ("DROP TABLE schema_migrations; " ++ metaTableCreateStatement, [])
  | InsertVersion v => ("INSERT INTO schema_migrations (version) VALUES ($1)", [v])
  | Script sql => (sql, [])
  end.

Inductive QueryKind :=
| VerType       (* SELECT data_type FROM information_schema.columns WHERE ... *)
| MaxVersion    (* SELECT max(version) FROM schema_migrations *)
| Versions.     (* SELECT version FROM schema_migrations *)

(** [QueryRow(VerType).Scan(&vertype)] *)
Definition queryVerType (t : MetaTable) : DriverError + string :=
  match t with
  | Absent => inl ErrNoRows
  | Legacy _ => inr "integer"
  | Current _ => inr "character varying"
  end.

Definition inInt64 (v : Z) : bool := (- 2 ^ 63 <=? v) && (v <? 2 ^ 63).

(** [QueryRow(MaxVersion).Scan(&maxDB)] with [maxDB] an [int]: the maximum
    of an empty table is NULL, which does not scan into an int.  On a
    string column the answer depends on the collation; [bootstrap] asks
    only when the column type has no "char" in it, and the model answers
    with a scan error there. *)
Definition queryMaxVersion (t : MetaTable) : DriverError + Z :=
  match t with
  | Absent => inl UndefinedTable
  | Legacy [] => inl NullIntoInt
  | Legacy (r :: rows) =>
      let m := fold_left Z.max rows r in
      if inInt64 m then inr m else inl (IntOutOfRange m)
  | Current [] => inl NullIntoInt
  | Current (r :: _) => inl (InvalidInteger r)
  end.

(** [Query(Versions)], each row scanned into a string. *)
Definition queryVersions (t : MetaTable) : DriverError + list string :=
  match t with
  | Absent => inl UndefinedTable
  | Legacy rows => inr (map Go.FormatInt rows)
  | Current rows => inr rows
  end.

Section Model.

Context `{Env : Environment}.

Definition pgExec (s : Stmt) (d : Database Data) : DriverError + Database Data :=
  match s with
  | CreateMetaTable =>
      match meta d with
      | Absent => inr (setMeta (Current []) d)
      | _ => inl DuplicateTable
      end
  | DropAndCreateMetaTable =>
      match meta d with
      | Absent => inl UndefinedTable
      | _ =>
          match dropRefused d with
          | Some msg => inl (DropRefused msg)
          | None => inr (setMeta (Current []) d)
          end
      end
  | InsertVersion v =>
      match meta d with
      | Absent => inl UndefinedTable
      | Legacy rows =>
          match Go.decimal v with
          | Some z => inr (setMeta (Legacy (rows ++ [z])) d)
          | None => inl (InvalidInteger v)
          end
      | Current rows =>
          if bool_decide (v ∈ rows) then inl (UniqueViolation v)
          else inr (setMeta (Current (rows ++ [v])) d)
      end
  | Script sql =>
      match execScript sql d with
      | inl msg => inl (ScriptRejected msg)
      | inr d' => inr d'
      end
  end.

(** *** State and effects *)

Inductive Event :=
| EvOpen (conStr : string)          (* sql.Open("postgres", conStr) *)
| EvProbe                           (* db.Exec("SELECT 1") *)
| EvCreateDatabase (name : string)  (* db.Exec("CREATE DATABASE " + name) *)
| EvClose                           (* db.Close() *)
| EvQuery (q : QueryKind)
| EvExec (s : Stmt)                 (* db.Exec, outside a transaction *)
| EvBegin
| EvTxExec (s : Stmt)
| EvCommit
| EvRollback
| EvReadFile (path : string)        (* ioutil.ReadFile *)
| EvPrint (text : string).          (* fmt.Printf *)

(** What a connection to one database sees: that database, the file
    system (path to content) and the events so far, oldest first. *)
Record World := mkWorld {
  db : Database Data;
  fs : gmap string string;
  out : list Event
}.

Definition M (A : Type) : Type := World -> World * (Error + A).

Definition ret {A} (a : A) : M A := fun w => (w, inr a).
Definition fail {A} (e : Error) : M A := fun w => (w, inl e).
Definition bind {A B} (m : M A) (k : A -> M B) : M B :=
  fun w => match m w with
           | (w', inl e) => (w', inl e)
           | (w', inr a) => k a w'
           end.

Notation "'let*' x ':=' m 'in' k" := (bind m (fun x => k))
  (at level 10, x name, m at level 100, k at level 200).

Definition emit (e : Event) : M unit :=
  fun w => (mkWorld (db w) (fs w) (out w ++ [e]), inr tt).

(** A Go expression that may panic. *)
Definition orPanic {A} (o : option A) : M A :=
  match o with
  | Some a => ret a
  | None => fail PanicSliceBounds
  end.

(** [for _, x := range l { s = body(s, x) }], left on the first error. *)
Fixpoint foldM {A S} (body : S -> A -> M S) (l : list A) (s : S) : M S :=
  match l with
  | [] => ret s
  | x :: l' => let* s' := body s x in foldM body l' s'
  end.

Definition forEach {A} (body : A -> M unit) (l : list A) : M unit :=
  foldM (fun _ x => body x) l tt.

Definition Printf (text : string) : M unit := emit (EvPrint text).

Definition ReadFile (path : string) : M string :=
  let* _ := emit (EvReadFile path) in
  fun w => match fs w !! path with
           | Some content => (w, inr content)
           | None => (w, inl (ReadFileFailed path))
           end.

(** [db.Exec(stmt)] in autocommit mode. *)
Definition Exec (s : Stmt) : M unit :=
  let* _ := emit (EvExec s) in
  fun w => match pgExec s (db w) with
           | inl e => (w, inl (Driver e))
           | inr d => (mkWorld d (fs w) (out w), inr tt)
           end.

(** [db.Begin()]: the transaction is a working copy of the database. *)
Definition Begin : M (Database Data) :=
  let* _ := emit EvBegin in fun w => (w, inr (db w)).

(** [tx.Exec(stmt)] followed, when it fails, by [tx.Rollback()]. *)
Definition TxExec (s : Stmt) (tx : Database Data) : M (Database Data) :=
  let* _ := emit (EvTxExec s) in
  match pgExec s tx with
  | inl e => let* _ := emit EvRollback in fail (Driver e)
  | inr tx' => ret tx'
  end.

Definition Commit (tx : Database Data) : M unit :=
  let* _ := emit EvCommit in
  fun w => (mkWorld tx (fs w) (out w), inr tt).

Definition QueryRow {A} (q : QueryKind) (answer : MetaTable -> DriverError + A)
  : World -> World * (DriverError + A) :=
  fun w => (mkWorld (db w) (fs w) (out w ++ [EvQuery q]), answer (meta (db w))).

(** *** The engine *)

Definition getMigrationsInDB : M (gmap string bool) :=
  fun w =>
    match QueryRow Versions queryVersions w with
    | (w', inl e) => (w', inl (Driver e))
    | (w', inr rows) =>
        (w', inr (fold_left (fun versions version => <[version := true]> versions)
                            rows ∅))
    end.

(** [existing[migname]]: a missing key reads as [false]. *)
Definition mapIndex (existing : gmap string bool) (migname : string) : bool :=
  default false (existing !! migname).

Definition runMigration (sqlFile : string) : M unit :=
  let* sql := ReadFile sqlFile in
  let* tx := Begin in
  let* migname := orPanic (migrationNameFromFile unicodeToLower sqlFile) in
  let* _ := Printf ("Running migration " ++ migname ++ String "010" "") in
  let* tx := TxExec (Script sql) tx in
  let* tx := TxExec (InsertVersion migname) tx in
  Commit tx.

Definition runLegacyMigrations (sqlFiles : list string) : M unit :=
  forEach (fun file =>
             let* r := orPanic (legacyMigrationVersion file) in
             if snd r then runMigration file else ret tt)
          sqlFiles.

Definition switchoverFromAlbion (sqlFiles : list string) : M unit :=
  let* maxDB :=
    (fun w => match QueryRow MaxVersion queryMaxVersion w with
              | (w', inl e) => (w', inl (MaxVersionReadFailed e))
              | (w', inr v) => (w', inr v)
              end) in
  let* maxAvailable := orPanic (maxLegacyMigrationVersion sqlFiles) in
  if negb (maxDB =? maxAvailable) then fail (VersionMismatch maxAvailable maxDB)
  else
    let* tx := Begin in
    let* tx := TxExec DropAndCreateMetaTable tx in
    let* tx :=
      foldM (fun tx file =>
               let* r := orPanic (legacyMigrationVersion file) in
               if snd r then
                 let* migname := orPanic (migrationNameFromFile unicodeToLower file) in
                 TxExec (InsertVersion migname) tx
               else ret tx)
            sqlFiles tx in
    Commit tx.

Definition bootstrap (dbName : string) (sqlFiles : list string) : M unit :=
  fun w =>
    match QueryRow VerType queryVerType w with
    | (w', inl ErrNoRows) =>
        (let* _ := Exec CreateMetaTable in runLegacyMigrations sqlFiles) w'
    | (w', inl e) => (w', inl (VerTypeReadFailed e))
    | (w', inr vertype) =>
        if negb (Go.Index vertype "char" =? -1) then (w', inr tt)
        else
          (let* _ := Printf ("Switching " ++ dbName
                               ++ " over from Albion migration system"
                               ++ String "010" "") in
           switchoverFromAlbion sqlFiles) w'
    end.

(** The body of [runMigrations] from the call of [bootstrap] on: what
    happens on an open connection. *)
Definition runMigrationsOn (dbName : string) (sqlFiles : list string) : M unit :=
  let* _ := bootstrap dbName sqlFiles in
  let* existing := getMigrationsInDB in
  let* nrun :=
    foldM (fun nrun file =>
             let* migname := orPanic (migrationNameFromFile unicodeToLower file) in
             if negb (mapIndex existing migname) then
               let* _ := runMigration file in ret (S nrun)
             else ret nrun)
          sqlFiles 0%nat in
  if (nrun =? 0)%nat then Printf ("Database is up to date" ++ String "010" "")
  else ret tt.

(** *** The server *)

Record System := mkSystem {
  cluster : gmap string (Database Data);
  files : gmap string string;
  output : list Event
}.

Definition note (evs : list Event) (sys : System) : System :=
  mkSystem (cluster sys) (files sys) (output sys ++ evs).

(** The drivers [database/sql] knows: [main.go] imports [lib/pq] alone,
    which registers itself under this name. *)
Definition registered (driverName : string) : bool :=
  String.eqb driverName "postgres".

(** [sql.Open]: an error for a driver that is not registered; otherwise
    it only keeps the connection string, and the probe (or any later
    statement) is what reaches the server. *)
Definition sqlOpen (driverName conStr : string) (sys : System)
  : System * option DriverError :=
  if registered driverName then (note [EvOpen conStr] sys, None)
  else (sys, Some (UnknownDriver driverName)).

(** [connectOrCreate]; the handle returned is the name of the database. *)
Definition connectOrCreate (con : dbCon) (sys : System) : System * (Error + string) :=
  let create (sys : System) : System * (Error + string) :=
    let root := mkDbCon (driver con) (host con) (port con) "postgres"
                        (user con) (password con) (sslmode con) in
    match sqlOpen (driver root) (makeConStr root) sys with
    | (sys, Some e) =>
        (sys, inl (ConnectRootFailed (conString root) (conString con) e))
    | (sys, None) =>
        let sys := note [EvCreateDatabase (dbname con)] sys in
        match createDatabase (dbname con) (cluster sys) with
        | inl e => (note [EvClose] sys, inl (CreateDatabaseFailed (conString con) e))
        | inr cl =>
            let sys := mkSystem cl (files sys) (output sys ++ [EvClose]) in
            match sqlOpen (driver con) (makeConStr con) sys with
            | (sys, Some e) => (sys, inl (ConnectNewFailed (conString con) e))
            | (sys, None) => (sys, inr (dbname con))
            end
        end
    end in
  match sqlOpen (driver con) (makeConStr con) sys with
  | (sys, None) =>
      let sys := note [EvProbe] sys in
      match cluster sys !! dbname con with
      | Some _ => (sys, inr (dbname con))
      | None => create sys
      end
  | (sys, Some _) => create sys
  end.

Definition runMigrations (dbStr : string) (sqlFiles : list string) (sys : System)
  : System * option Error :=
  match parseDBConStr dbStr with
  | (_, Some err) => (sys, Some err)
  | (con, None) =>
      match connectOrCreate con sys with
      | (sys1, inl err) => (sys1, Some err)
      | (sys1, inr name) =>
          match cluster sys1 !! name with
          | None =>
              (note [EvQuery VerType; EvClose] sys1,
               Some (VerTypeReadFailed (NoSuchDatabase name)))
          | Some d =>
              let '(w, r) :=
                runMigrationsOn (dbname con) sqlFiles
                                (mkWorld d (files sys1) (output sys1)) in
              (mkSystem (<[name := db w]> (cluster sys1)) (fs w) (out w ++ [EvClose]),
               match r with inl err => Some err | inr _ => None end)
          end
      end
  end.

End Model.

(** ** A test server

    Every script is accepted and recorded in the order of execution, except
    one that starts with the misspelt keyword [SELEC]; the bookkeeping
    table cannot be dropped once the script [dependentView] has put a view
    on it; the cluster creates a database when its maintenance database
    [postgres] exists. *)

Definition dependentView : string :=
  "CREATE VIEW applied AS SELECT version FROM schema_migrations".

Definition testDropRefused (d : Database (list string)) : option string :=
  if bool_decide (dependentView ∈ data d)
  then Some "pq: cannot drop table schema_migrations because other objects depend on it"
  else None.

Definition testScript (sql : string) (d : Database (list string))
  : string + Database (list string) :=
  if String.prefix "SELEC " sql then inl "pq: syntax error at or near SELEC"
  else inr (mkDatabase (meta d) (data d ++ [sql])%list).

Definition testCreateDatabase (name : string) (cl : gmap string (Database (list string)))
  : DriverError + gmap string (Database (list string)) :=
  match cl !! "postgres" with
  | None => inl (NoSuchDatabase "postgres")
  | Some _ => inr (<[name := mkDatabase Absent []]> cl)
  end.

Definition testEnv : Environment :=
  {| Data := list string;
     execScript := testScript;
     dropRefused := testDropRefused;
     createDatabase := testCreateDatabase;
     unicodeToLower := fun s => s |}.

(** A server that accepts every script and records it. *)
Definition acceptingEnv : Environment :=
  {| Data := list string;
     execScript := fun sql d => inr (mkDatabase (meta d) (data d ++ [sql])%list);
     dropRefused := fun _ => None;
     createDatabase := testCreateDatabase;
     unicodeToLower := fun s => s |}.

(** ** Vocabulary of the specification

    The definitions below are not translations of code: they say what the
    statements about the code talk about. *)

(** [c] occurs in [s]. *)
Fixpoint hasByte (c : ascii) (s : string) : bool :=
  match s with
  | EmptyString => false
  | String c' s' => Ascii.eqb c' c || hasByte c s'
  end.

Fixpoint allDigits (s : string) : bool :=
  match s with
  | EmptyString => true
  | String c s' => Go.isDigit c && allDigits s'
  end.

(** The integer a string of decimal digits denotes, most significant
    digit first. *)
Fixpoint decimalValue (acc : Z) (s : string) : Z :=
  match s with
  | EmptyString => acc
  | String c s' => decimalValue (10 * acc + (Z.of_nat (nat_of_ascii c) - 48)) s'
  end.

(** The digits a string starts with. *)
Fixpoint leadingDigits (s : string) : string :=
  match s with
  | EmptyString => EmptyString
  | String c s' => if Go.isDigit c then String c (leadingDigits s') else EmptyString
  end.

(** A string without the plus sign it may start with. *)
Definition unsigned (s : string) : string :=
  match s with
  | String c s' => if Ascii.eqb c "+" then s' else s
  | EmptyString => s
  end.

(** The legacy grammar as the specification words it: [0000-NNNN.sql]
    with NNNN one to four decimal digits. *)
Definition SpecLegacyName (base : string) : Prop :=
  exists nnnn : string,
    base = "0000-" ++ nnnn ++ ".sql"
    /\ (1 <= String.length nnnn <= 4)%nat
    /\ allDigits nnnn = true.

(** The legacy grammar as the code has it: [0000-X.sql] with X not empty
    and free of dashes. *)
Definition CodeLegacyStem (stem : string) : Prop :=
  exists x : string,
    stem = "0000-" ++ x /\ x <> "" /\ hasByte "-" x = false.

(** A connection string carries the option [key=...]. *)
Definition hasOption (key conStr : string) : bool :=
  negb (Go.Index conStr (" " ++ key ++ "=") =? -1).

Section Vocabulary.

Context `{Env : Environment}.

(** No migration script alters the bookkeeping table. *)
Definition ScriptsKeepMeta : Prop :=
  forall sql d d', execScript sql d = inr d' -> meta d' = meta d.

(** The server accepts every script. *)
Definition ScriptsAccepted : Prop :=
  forall sql d, exists d', execScript sql d = inr d'.

Definition isSqlPath (file : string) : bool := Go.HasSuffix file ".sql".

Definition isLegacyFile (file : string) : bool :=
  match legacyMigrationVersion file with
  | Some (_, isLegacy) => isLegacy
  | None => false
  end.

(** The migration name of a file; the empty string stands in where the
    code would panic. *)
Definition nameOf (file : string) : string :=
  default "" (migrationNameFromFile unicodeToLower file).

(** The versions of the legacy files of a list. *)
Definition legacyVersions (sqlFiles : list string) : list Z :=
  omap (fun file => match legacyMigrationVersion file with
                    | Some (v, true) => Some v
                    | _ => None
                    end) sqlFiles.

(** The files of a list whose name is not among [rows]. *)
Definition pending (rows : list string) (sqlFiles : list string) : list string :=
  filter (fun file => nameOf file ∉ rows) sqlFiles.

Definition addEvents (evs : list Event) (w : World) : World :=
  mkWorld (db w) (fs w) (out w ++ evs).

Definition newline : string := String "010" "".

(** The events of one migration that commits. *)
Definition appliedEvents (files : gmap string string) (file : string) : list Event :=
  [ EvReadFile file; EvBegin;
    EvPrint ("Running migration " ++ nameOf file ++ newline);
    EvTxExec (Script (default "" (files !! file)));
    EvTxExec (InsertVersion (nameOf file));
    EvCommit ].

(** The names the switchover records: those of the legacy files. *)
Definition legacyNames (sqlFiles : list string) : list string :=
  map nameOf (filter (fun file => isLegacyFile file = true) sqlFiles).

(** The files a fresh database receives after the legacy ones. *)
Definition standardFiles (sqlFiles : list string) : list string :=
  filter (fun file => isLegacyFile file <> true) sqlFiles.

Definition insertEvents (names : list string) : list Event :=
  map (fun n => EvTxExec (InsertVersion n)) names.

Definition upToDate : Event := EvPrint ("Database is up to date" ++ newline).

(** The part of [runMigrationsOn] that follows [bootstrap]. *)
Definition applyMissing (sqlFiles : list string) : M unit :=
  bind getMigrationsInDB (fun existing =>
  bind (foldM (fun nrun file =>
                 bind (orPanic (migrationNameFromFile unicodeToLower file))
                      (fun migname =>
                         if negb (mapIndex existing migname)
                         then bind (runMigration file) (fun _ => ret (S nrun))
                         else ret nrun))
              sqlFiles 0%nat) (fun nrun =>
  if (nrun =? 0)%nat then Printf ("Database is up to date" ++ newline)
  else ret tt)).

(** An event of the engine proper, as opposed to one of connecting. *)
Definition isEngineEvent (e : Event) : Prop :=
  match e with
  | EvOpen _ | EvProbe | EvCreateDatabase _ | EvClose => False
  | _ => True
  end.

(** [m] leaves the files alone and adds only events that satisfy [P]. *)
Definition Emits (P : Event -> Prop) {A} (m : M A) : Prop :=
  forall w : World,
    fs (fst (m w)) = fs w
    /\ exists evs, out (fst (m w)) = (out w ++ evs)%list /\ Forall P evs.

Definition isOpen (e : Event) : Prop :=
  match e with EvOpen _ => True | _ => False end.

(** An event that changes nothing on the server. *)
Definition isRead (e : Event) : Prop :=
  match e with
  | EvQuery _ | EvReadFile _ | EvPrint _ => True
  | _ => False
  end.

(** An event of the bookkeeping itself: no script runs, no file is read. *)
Definition isBookkeeping (e : Event) : Prop :=
  match e with
  | EvTxExec (Script _) | EvExec (Script _) | EvReadFile _ => False
  | _ => True
  end.

End Vocabulary.

(** ** Test fixtures *)

Definition testDb (t : MetaTable) (executed : list string) : Database (@Data testEnv) :=
  @mkDatabase (list string) t executed.

Definition testWorld (t : MetaTable) (content : list (string * string)) : @World testEnv :=
  mkWorld (testDb t []) (list_to_map content) [].

Definition acceptingDb (t : MetaTable) (executed : list string)
  : Database (@Data acceptingEnv) :=
  @mkDatabase (list string) t executed.

Definition acceptingWorld (t : MetaTable) (content : list (string * string))
  : @World acceptingEnv :=
  mkWorld (acceptingDb t []) (list_to_map content) [].

(** The three files of the README, with one statement each. *)
Definition readmeFiles : list string :=
  ["m/0000-0000.sql"; "m/0000-0001.sql"; "m/2018-01-15-a.sql"].

Definition readmeContent : list (string * string) :=
  [("m/0000-0000.sql", "CREATE TABLE a ()");
   ("m/0000-0001.sql", "CREATE TABLE b ()");
   ("m/2018-01-15-a.sql", "CREATE TABLE c ()")].

(** Three pending migrations, the second of which is rejected, and the
    same files after the second has been repaired. *)
Definition threeFiles : list string :=
  ["m/2018-01-15-a.sql"; "m/2018-02-01-b.sql"; "m/2018-03-01-c.sql"].

Definition brokenContent : list (string * string) :=
  [("m/2018-01-15-a.sql", "CREATE TABLE a ()");
   ("m/2018-02-01-b.sql", "SELEC 1");
   ("m/2018-03-01-c.sql", "CREATE TABLE c ()")].

Definition repairedContent : list (string * string) :=
  [("m/2018-01-15-a.sql", "CREATE TABLE a ()");
   ("m/2018-02-01-b.sql", "SELECT 1");
   ("m/2018-03-01-c.sql", "CREATE TABLE c ()")].

(** A file that is not legacy sorted between two that are. *)
Definition interleavedFiles : list string :=
  ["m/0000-0001.sql"; "m/0000-0001a-fix.sql"; "m/0000-0002.sql"].

Definition interleavedContent : list (string * string) :=
  [("m/0000-0001.sql", "CREATE TABLE a ()");
   ("m/0000-0001a-fix.sql", "ALTER TABLE a ADD x int");
   ("m/0000-0002.sql", "ALTER TABLE a DROP x")].





(** ** Collecting the files: [filepath.Walk], [upgrade], [upgradeCmd] *)

Module Filepath.

(** [filepath.Ext]: the suffix of the last element of the path that starts
    at its last dot; empty when that element has no dot. *)
Fixpoint Ext (path : string) : string :=
  match path with
  | EmptyString => EmptyString
  | String c rest =>
      if negb (String.eqb (Ext rest) EmptyString) then Ext rest
      else if Go.hasSeparator rest then EmptyString
      else if Ascii.eqb c "." then path else EmptyString
  end.

(** What [Lstat] and [readDirNames] show of a readable file tree: a file,
    or a directory with its entries in the order [readDirNames] returns
    them (sorted by name), each with the path [Join] gives it. *)
#[warnings="-register-all"]
Inductive Node :=
| File
| Dir (entries : list (string * Node)).

Definition IsDir (info : Node) : bool :=
  match info with
  | Dir _ => true
  | File => false
  end.

(** What a [WalkFunc] returns: [nil], [filepath.SkipDir] or another error. *)
Inductive Verdict (E : Type) :=
| Continue
| SkipDir
| Stop (err : E).
Arguments Continue {E}.
Arguments SkipDir {E}.
Arguments Stop {E} _.

Section Walking.

Context {S E : Type}.

(** The callback: the path, [info.IsDir()], whether its [err] argument is
    set, and the variables the closure captures. *)
Variable walkFn : string -> bool -> bool -> S -> S * Verdict E.

(** The unexported [walk]: the callback on the node, then on the entries
    of a directory unless the callback said otherwise; [SkipDir] from a
    directory entry skips that entry only. *)
Fixpoint walk (path : string) (info : Node) (s : S) {struct info} : S * Verdict E :=
  match info with
  | File => walkFn path false false s
  | Dir entries =>
      match walkFn path true false s with
      | (s1, Continue) =>
          (fix range (names : list (string * Node)) (s : S) {struct names}
             : S * Verdict E :=
             match names with
             | [] => (s, Continue)
             | (filename, fileInfo) :: rest =>
                 match walk filename fileInfo s with
                 | (s2, Continue) => range rest s2
                 | (s2, SkipDir) =>
                     if IsDir fileInfo then range rest s2 else (s2, SkipDir)
                 | (s2, Stop err) => (s2, Stop err)
                 end
             end) entries s1
      | r => r
      end
  end.

(** [filepath.Walk]; [None] is a root that [Lstat] does not find. *)
Definition Walk (root : string) (info : option Node) (s : S) : S * option E :=
  let '(s', v) :=
    match info with
    | None => walkFn root false true s
    | Some n => walk root n s
    end in
  (s', match v with Stop err => Some err | _ => None end).

End Walking.

End Filepath.

(** The errors of [upgrade] and [upgradeCmd]. *)
Inductive UpgradeError :=
| ArgCount (given : nat)
| ScanFailed (sqlDir : string) (cause : string)
| NoSqlFiles (sqlDir : string)
| MigrationsFailed (dbname : string) (err : Error).

Definition upgradeMessage (e : UpgradeError) : string :=
  match e with
  | ArgCount n =>
      "upgrade expected 3 arguments, but " ++ Go.FormatInt (Z.of_nat n) ++ " given"
  | ScanFailed sqlDir cause => "Error scanning " ++ sqlDir ++ ": " ++ cause
  | NoSqlFiles sqlDir => "No SQL files found in " ++ sqlDir
  | MigrationsFailed dbname err => dbname ++ ": " ++ message err
  end.

(** The function literal that [upgrade] hands to [filepath.Walk]; the
    captured variable is [sqlFiles]. *)
Definition collectSql (sqlDir : string)
  : string -> bool -> bool -> list string -> list string * Filepath.Verdict string :=
  fun path isDir failed sqlFiles =>
    if failed then
      (sqlFiles,
       Filepath.Stop ("Error scanning SQL files: lstat " ++ path
                        ++ ": no such file or directory"))
    else
      let sqlFiles :=
        if String.eqb (Filepath.Ext path) ".sql" then (sqlFiles ++ [path])%list
        else sqlFiles in
      if isDir && negb (String.eqb path sqlDir) then (sqlFiles, Filepath.SkipDir)
      else (sqlFiles, Filepath.Continue).

(** [validDBNameRegex], the expression [^[_\-a-zA-Z0-9]+$] that the
    service applies to the database name of an [/upgrade/] request. *)
Definition nameClass (c : ascii) : bool :=
  let n := nat_of_ascii c in
  Ascii.eqb c "_" || Ascii.eqb c "-"
  || ((97 <=? n)%nat && (n <=? 122)%nat)
  || ((65 <=? n)%nat && (n <=? 90)%nat)
  || ((48 <=? n)%nat && (n <=? 57)%nat).

Fixpoint allBytes (f : ascii -> bool) (s : string) : bool :=
  match s with
  | EmptyString => true
  | String c s' => f c && allBytes f s'
  end.

Definition validDBName (s : string) : bool :=
  negb (String.eqb s EmptyString) && allBytes nameClass s.

Section Upgrade.

Context `{Env : Environment}.

(** [upgrade(logfile, db, sqlDir)] on the tree found at [sqlDir]. *)
Definition upgrade (db sqlDir : string) (tree : option Filepath.Node) (sys : System)
  : System * option UpgradeError :=
  match Filepath.Walk (collectSql sqlDir) sqlDir tree [] with
  | (_, Some cause) => (sys, Some (ScanFailed sqlDir cause))
  | (sqlFiles, None) =>
      if (length sqlFiles =? 0)%nat then (sys, Some (NoSqlFiles sqlDir))
      else
        match runMigrations db sqlFiles sys with
        | (sys', Some err) =>
            (sys', Some (MigrationsFailed (dbname (fst (parseDBConStr db))) err))
        | (sys', None) => (sys', None)
        end
  end.

(** [upgradeCmd(args)]: log file, connection string, directory. *)
Definition upgradeCmd (args : list string) (tree : option Filepath.Node) (sys : System)
  : System * option UpgradeError :=
  if negb (length args =? 3)%nat then (sys, Some (ArgCount (length args)))
  else upgrade (nth 1 args "") (nth 2 args "") tree sys.

End Upgrade.

(** ** All databases: [upgradeAll] *)

Definition migrationsRoot : string := "/dbschema/migrations".

(** What [upgradeAll] returns: the error of [ioutil.ReadDir], of
    [getDBConnection] or of [upgrade]. *)
Inductive AllError :=
| ReadDirFailed (cause : string)
| ConfigFailed (cause : string)
| UpgradeFailed (e : UpgradeError).

Section UpgradeAll.

Context `{Env : Environment}.

(** [getDBConnection] asks the config service over HTTP; here it is the
    answer of that service for a name: the connection string, or the
    error of the request. *)
Variable getDBConnection : string -> string + string.

(** [filepath.Join(migrationsRoot, f.Name())] for a name that [ReadDir]
    returns: such a name has no separator and is neither [.] nor [..], so
    that [Clean] changes nothing. *)
Definition migrationsDirOf (name : string) : string :=
  migrationsRoot ++ "/" ++ name.

(** The loop of [upgradeAll] over the entries of the root, each the name
    [f.Name()] with what the tree holds there. *)
Fixpoint upgradeEach (entries : list (string * Filepath.Node)) (sys : System)
  : System * option AllError :=
  match entries with
  | [] => (sys, None)
  | (name, info) :: rest =>
      if Filepath.IsDir info then
        match getDBConnection name with
        | inl cause => (sys, Some (ConfigFailed cause))
        | inr conn =>
            match upgrade conn (migrationsDirOf name) (Some info) sys with
            | (sys', Some e) => (sys', Some (UpgradeFailed e))
            | (sys', None) => upgradeEach rest sys'
            end
        end
      else upgradeEach rest sys
  end.

(** [upgradeAll(logfile)]; [root] is what [ioutil.ReadDir(migrationsRoot)]
    returns. *)
Definition upgradeAll (root : string + list (string * Filepath.Node)) (sys : System)
  : System * option AllError :=
  match root with
  | inl cause => (sys, Some (ReadDirFailed cause))
  | inr entries => upgradeEach entries sys
  end.

End UpgradeAll.

(** The number of occurrences of a byte. *)
Fixpoint countByte (c : ascii) (s : string) : nat :=
  match s with
  | EmptyString => 0
  | String c' s' => (if Ascii.eqb c' c then 1 else 0) + countByte c s'
  end.

(** The discipline of transactions, read off a sequence of events:
    [Begin] only outside a transaction; statements of a transaction,
    [Commit] and [Rollback] only inside one; queries and autocommit
    statements only outside, and no autocommit statement but the creation
    of the table; no event of connecting; and no transaction left open at
    the end.  [inTx] tells whether a transaction is open at the start. *)
Fixpoint bracketed (inTx : bool) (evs : list Event) : bool :=
  match evs with
  | [] => negb inTx
  | e :: rest =>
      match e with
      | EvBegin => negb inTx && bracketed true rest
      | EvTxExec _ => inTx && bracketed true rest
      | EvCommit | EvRollback => inTx && bracketed false rest
      | EvExec CreateMetaTable | EvQuery _ => negb inTx && bracketed false rest
      | EvReadFile _ | EvPrint _ => bracketed inTx rest
      | _ => false
      end
  end.

Section Discipline.

Context `{Env : Environment}.

(** [m] adds a sequence of events that keeps the discipline. *)
Definition Balanced {A} (m : M A) : Prop :=
  forall w : World, exists evs,
    out (fst (m w)) = (out w ++ evs)%list /\ bracketed false evs = true.

End Discipline.

(** * Proofs *)

#[local] Arguments String.append !_ _ / : simpl nomatch.
#[local] Arguments String.length !_ / : simpl nomatch.
#[local] Arguments Go.isDigit : simpl never.
#[local] Arguments Go.ParseInt : simpl never.

(** ** Strings *)

Section StringFacts.

Implicit Types (s t a b : string) (c sep : ascii).

Lemma length_append a b :
  String.length (a ++ b) = (String.length a + String.length b)%nat.
Proof. induction a as [|c a IH]; simpl; [reflexivity | now rewrite IH]. Qed.

Lemma append_nil_r a : a ++ "" = a.
Proof. induction a as [|c a IH]; simpl; [reflexivity | now rewrite IH]. Qed.

Lemma append_assoc a b t : (a ++ b) ++ t = a ++ (b ++ t).
Proof. induction a as [|c a IH]; simpl; [reflexivity | now rewrite IH]. Qed.

Lemma substring_prefix a b :
  String.substring 0 (String.length a) (a ++ b) = a.
Proof.
  induction a as [|c a IH]; simpl.
  - now destruct b.
  - now rewrite IH.
Qed.

Lemma substring_skip a b n :
  String.substring (String.length a) n (a ++ b) = String.substring 0 n b.
Proof. induction a as [|c a IH]; simpl; [reflexivity | exact IH]. Qed.

Lemma substring_all b : String.substring 0 (String.length b) b = b.
Proof. induction b as [|c b IH]; simpl; [reflexivity | now rewrite IH]. Qed.

Lemma dropLast4_sql stem : Go.dropLast4 (stem ++ ".sql") = Some stem.
Proof.
  unfold Go.dropLast4. rewrite length_append. simpl String.length.
  destruct (Nat.ltb_spec (String.length stem + 4) 4) as [H|H]; [lia|].
  replace (String.length stem + 4 - 4)%nat with (String.length stem) by lia.
  now rewrite substring_prefix.
Qed.

Lemma HasSuffix_append a b : Go.HasSuffix (a ++ b) b = true.
Proof.
  unfold Go.HasSuffix. rewrite length_append.
  apply andb_true_intro; split.
  - apply Nat.leb_le. lia.
  - replace (String.length a + String.length b - String.length b)%nat
      with (String.length a) by lia.
    rewrite substring_skip, substring_all. apply String.eqb_refl.
Qed.

Lemma substring_split n s :
  (n <= String.length s)%nat ->
  s = String.substring 0 n s ++ String.substring n (String.length s - n) s.
Proof.
  revert s. induction n as [|n IH]; intros s Hn.
  - simpl. rewrite Nat.sub_0_r, substring_all. now destruct s.
  - destruct s as [|c s]; simpl in *; [lia|].
    f_equal. apply IH. lia.
Qed.

Lemma HasSuffix_inv s b :
  Go.HasSuffix s b = true -> exists a, s = a ++ b.
Proof.
  unfold Go.HasSuffix. intros H.
  apply andb_prop in H as [Hle Heq].
  apply Nat.leb_le in Hle. apply String.eqb_eq in Heq.
  exists (String.substring 0 (String.length s - String.length b) s).
  pose proof (substring_split (String.length s - String.length b) s) as H.
  replace (String.length s - (String.length s - String.length b))%nat
    with (String.length b) in H by lia.
  rewrite Heq in H. apply H. lia.
Qed.

(** *** Split and Join *)

Lemma Split_nonempty sep s : Go.Split sep s <> [].
Proof.
  destruct s as [|c s]; simpl; [discriminate|].
  destruct (Ascii.eqb c sep); [discriminate|].
  destruct (Go.Split sep s); discriminate.
Qed.

Lemma Join_Split sep s : Go.Join sep (Go.Split sep s) = s.
Proof.
  induction s as [|c s IH]; simpl; [reflexivity|].
  destruct (Ascii.eqb_spec c sep) as [->|Hne].
  - pose proof (Split_nonempty sep s) as Hn.
    destruct (Go.Split sep s) as [|p ps] eqn:E; [contradiction|].
    simpl in *. now rewrite IH.
  - pose proof (Split_nonempty sep s) as Hn.
    destruct (Go.Split sep s) as [|p ps] eqn:E; [contradiction|].
    simpl in *. destruct ps; simpl in *; now rewrite <- IH.
Qed.

Lemma Split_parts sep s : Forall (fun p => hasByte sep p = false) (Go.Split sep s).
Proof.
  induction s as [|c s IH]; simpl.
  - repeat constructor.
  - destruct (Ascii.eqb_spec c sep) as [->|Hne].
    + constructor; [reflexivity | exact IH].
    + destruct (Go.Split sep s) as [|p ps]; [repeat constructor; simpl|].
      * apply orb_false_intro; [now apply Ascii.eqb_neq | reflexivity].
      * inversion IH; subst. constructor; [|assumption].
        simpl. apply orb_false_intro; [now apply Ascii.eqb_neq | assumption].
Qed.

Lemma Split_free sep s : hasByte sep s = false -> Go.Split sep s = [s].
Proof.
  induction s as [|c s IH]; simpl; [reflexivity|].
  intros H. apply orb_false_elim in H as [Hc Hs].
  rewrite Hc, (IH Hs). reflexivity.
Qed.

Lemma Split_cons sep a b :
  hasByte sep a = false ->
  Go.Split sep (a ++ String sep b) = a :: Go.Split sep b.
Proof.
  induction a as [|c a IH]; simpl; intros H.
  - now rewrite Ascii.eqb_refl.
  - apply orb_false_elim in H as [Hc Ha].
    rewrite Hc, (IH Ha). reflexivity.
Qed.

(** *** Lower case *)

Lemma nat_ascii_small (n : nat) : (n < 256)%nat -> nat_of_ascii (ascii_of_nat n) = n.
Proof. apply nat_ascii_embedding. Qed.

Lemma lowerByte_fixed (c : ascii) :
  Go.isUpper (Go.lowerByte c) = false /\ Go.lowerByte (Go.lowerByte c) = Go.lowerByte c.
Proof.
  unfold Go.lowerByte.
  destruct (Go.isUpper c) eqn:E; [|now rewrite E].
  assert (Go.isUpper (ascii_of_nat (nat_of_ascii c + 32)) = false) as H.
  { unfold Go.isUpper in *. apply andb_prop in E as [Hlo Hhi].
    apply Nat.leb_le in Hlo, Hhi. rewrite nat_ascii_small by lia.
    apply andb_false_intro2. apply Nat.leb_gt. lia. }
  now rewrite H.
Qed.

Lemma mapBytes_lower_fixed (s : string) :
  allBytes (fun c => negb (Go.isUpper c)) (Go.mapBytes Go.lowerByte s) = true
  /\ Go.mapBytes Go.lowerByte (Go.mapBytes Go.lowerByte s) = Go.mapBytes Go.lowerByte s
  /\ String.length (Go.mapBytes Go.lowerByte s) = String.length s.
Proof.
  induction s as [|c s (IH1 & IH2 & IH3)]; [repeat split|].
  cbn [Go.mapBytes allBytes String.length].
  destruct (lowerByte_fixed c) as [H1 H2].
  now rewrite H1, H2, IH1, IH2, IH3.
Qed.

Lemma isASCII_lower (s : string) :
  Go.isASCII s = true -> Go.isASCII (Go.mapBytes Go.lowerByte s) = true.
Proof.
  induction s as [|c s IH]; [reflexivity|]. cbn [Go.isASCII Go.mapBytes].
  intros H. apply andb_prop in H as [Hc Hs]. rewrite (IH Hs), andb_true_r.
  unfold Go.lowerByte. destruct (Go.isUpper c) eqn:E; [|exact Hc].
  unfold Go.isUpper in E. apply andb_prop in E as [Hlo Hhi].
  apply Nat.leb_le in Hlo, Hhi. rewrite nat_ascii_small by lia.
  apply Nat.ltb_lt. lia.
Qed.

End StringFacts.

(** ** File names *)

Section FileNameFacts.

Implicit Types (s t a b q stem : string) (c : ascii).

Lemma append_not_nil a b : b <> "" -> String.eqb (a ++ b) "" = false.
Proof.
  intros Hb. apply String.eqb_neq. intros H.
  destruct a; simpl in H; [contradiction | discriminate].
Qed.

Lemma strip_append a b :
  b <> "" -> Go.stripTrailingSeparators b = b ->
  Go.stripTrailingSeparators (a ++ b) = a ++ b.
Proof.
  intros Hb Hs. induction a as [|c a IH]; simpl; [exact Hs|].
  rewrite IH, (append_not_nil a b Hb), andb_false_r. reflexivity.
Qed.

Lemma lastElement_free b : Go.hasSeparator b = false -> Go.lastElement b = b.
Proof.
  destruct b as [|c b]; simpl; [reflexivity|].
  intros H. apply orb_false_elim in H as [Hc Hb]. now rewrite Hb, Hc.
Qed.

Lemma lastElement_append a b :
  Go.hasSeparator b = false -> exists r, Go.lastElement (a ++ b) = r ++ b.
Proof.
  intros Hb. induction a as [|c a [r IH]]; simpl.
  - exists "". now apply lastElement_free.
  - destruct (Go.hasSeparator (a ++ b)); [now exists r|].
    destruct (Go.isSeparator c); [now exists a | now exists (String c a)].
Qed.

(** The base name of a path that ends in [.sql] ends in [.sql]. *)
Lemma Base_sql q : exists stem, Go.Base (q ++ ".sql") = stem ++ ".sql".
Proof.
  unfold Go.Base.
  rewrite (append_not_nil q ".sql") by discriminate.
  rewrite strip_append by (reflexivity || discriminate).
  destruct (lastElement_append q ".sql" eq_refl) as [r Hr].
  exists r. rewrite Hr, (append_not_nil r ".sql") by discriminate. reflexivity.
Qed.

Lemma legacyMigrationVersion_stem file stem :
  Go.Base file = stem ++ ".sql" ->
  legacyMigrationVersion file =
    let parts := Go.Split "-" stem in
    if negb (length parts =? 2)%nat
       || negb (String.eqb (nth 0 parts "") "0000")
       || (String.length (nth 1 parts "") =? 0)%nat
    then Some (0, false)
    else Some (fst (Go.ParseInt (nth 1 parts "") 32), true).
Proof.
  intros H. unfold legacyMigrationVersion. now rewrite H, dropLast4_sql.
Qed.

Lemma legacy_stem_iff stem :
  (let parts := Go.Split "-" stem in
   negb (length parts =? 2)%nat
   || negb (String.eqb (nth 0 parts "") "0000")
   || (String.length (nth 1 parts "") =? 0)%nat) = false
  <-> CodeLegacyStem stem.
Proof.
  cbv zeta. split.
  - intros H.
    apply orb_false_elim in H as [H H3]. apply orb_false_elim in H as [H1 H2].
    apply negb_false_iff, Nat.eqb_eq in H1.
    apply negb_false_iff, String.eqb_eq in H2.
    apply Nat.eqb_neq in H3.
    pose proof (Join_Split "-" stem) as HJ.
    pose proof (Split_parts "-" stem) as HP.
    destruct (Go.Split "-" stem) as [|p0 [|p1 [|p2 ps]]]; try discriminate.
    simpl in H2, H3, HJ. subst p0.
    exists p1. repeat split.
    + now rewrite <- HJ.
    + intros ->. now apply H3.
    + inversion HP as [|? ? _ HP']; subst. now inversion HP'.
  - intros (x & -> & Hx & Hfree).
    change ("0000-" ++ x) with ("0000" ++ String "-" x).
    rewrite Split_cons by reflexivity. rewrite (Split_free _ _ Hfree).
    simpl. destruct x; [contradiction | reflexivity].
Qed.

(** *** Decimal numerals *)

Lemma isDigit_range c :
  Go.isDigit c = true -> (48 <= nat_of_ascii c <= 57)%nat.
Proof.
  unfold Go.isDigit. intros H. apply andb_prop in H as [Hlo Hhi].
  apply Nat.leb_le in Hlo, Hhi. lia.
Qed.

Lemma digits_value acc s :
  allDigits s = true -> Go.digits acc s = Some (decimalValue acc s).
Proof.
  revert acc. induction s as [|c s IH]; simpl; intros acc H; [reflexivity|].
  apply andb_prop in H as [Hc Hs].
  unfold Go.digit. rewrite Hc. now apply IH.
Qed.

Lemma decimalValue_bounds acc s :
  allDigits s = true -> 0 <= acc ->
  0 <= decimalValue acc s < (acc + 1) * 10 ^ Z.of_nat (String.length s).
Proof.
  revert acc. induction s as [|c s IH]; intros acc H Hacc.
  - simpl. lia.
  - simpl in H. apply andb_prop in H as [Hc Hs].
    apply isDigit_range in Hc.
    change (decimalValue acc (String c s))
      with (decimalValue (10 * acc + (Z.of_nat (nat_of_ascii c) - 48)) s).
    change (String.length (String c s)) with (S (String.length s)).
    rewrite Nat2Z.inj_succ, Z.pow_succ_r by lia.
    specialize (IH (10 * acc + (Z.of_nat (nat_of_ascii c) - 48)) Hs).
    assert (0 < 10 ^ Z.of_nat (String.length s)) by (apply Z.pow_pos_nonneg; lia).
    nia.
Qed.

Lemma decimal_digits s :
  s <> "" -> allDigits s = true -> Go.decimal s = Some (decimalValue 0 s).
Proof.
  intros Hne H. destruct s as [|c s]; [contradiction|].
  pose proof (digits_value 0 _ H) as Hd.
  unfold Go.decimal.
  simpl in H. apply andb_prop in H as [Hc _].
  apply isDigit_range in Hc.
  destruct (Ascii.eqb_spec c "+") as [->|_]; [vm_compute in Hc; lia|].
  destruct (Ascii.eqb_spec c "-") as [->|_]; [vm_compute in Hc; lia|].
  now rewrite Hd.
Qed.

Lemma decimalValue_ge acc s :
  allDigits s = true -> 0 <= acc -> acc <= decimalValue acc s.
Proof.
  revert acc. induction s as [|c s IH]; intros acc H Hacc.
  - simpl. lia.
  - simpl in H. apply andb_prop in H as [Hc Hs].
    apply isDigit_range in Hc.
    change (decimalValue acc (String c s))
      with (decimalValue (10 * acc + (Z.of_nat (nat_of_ascii c) - 48)) s).
    specialize (IH (10 * acc + (Z.of_nat (nat_of_ascii c) - 48)) Hs). lia.
Qed.

Lemma leadingDigits_allDigits s : allDigits (leadingDigits s) = true.
Proof.
  induction s as [|c s IH]; [reflexivity|]. cbn [leadingDigits].
  destruct (Go.isDigit c) eqn:E; [|reflexivity]. cbn [allDigits]. now rewrite E.
Qed.

Lemma leadingDigits_all s : allDigits s = true <-> leadingDigits s = s.
Proof.
  split.
  - induction s as [|c s IH]; [reflexivity|]. cbn [allDigits leadingDigits].
    intros H. apply andb_prop in H as [-> Hs]. now rewrite (IH Hs).
  - intros <-. apply leadingDigits_allDigits.
Qed.

(** What the loop of [ParseUint] returns, read off the digits the string
    starts with. *)
Lemma parseUintFrom_spec (maxVal n : Z) (s : string) :
  0 <= n <= maxVal ->
  Go.parseUintFrom maxVal n s
  = if maxVal <? decimalValue n (leadingDigits s) then (maxVal, Some Go.ErrRange)
    else if String.eqb (leadingDigits s) s then (decimalValue n s, None)
         else (0, Some Go.ErrSyntax).
Proof.
  revert n. induction s as [|c s IH]; intros n Hn.
  - cbn. destruct (Z.ltb_spec maxVal n); [lia | reflexivity].
  - cbn [Go.parseUintFrom leadingDigits]. unfold Go.digit.
    destruct (Go.isDigit c) eqn:Hc.
    + set (d := Z.of_nat (nat_of_ascii c) - 48).
      assert (0 <= d <= 9) as Hd by (apply isDigit_range in Hc; subst d; lia).
      change (decimalValue n (String c (leadingDigits s)))
        with (decimalValue (10 * n + d) (leadingDigits s)).
      change (decimalValue n (String c s)) with (decimalValue (10 * n + d) s).
      pose proof (decimalValue_ge (10 * n + d) _ (leadingDigits_allDigits s)
                    ltac:(lia)) as Hge.
      destruct (Z.ltb_spec maxVal (10 * n + d)) as [Hover|Hfit].
      * destruct (Z.ltb_spec maxVal (decimalValue (10 * n + d) (leadingDigits s)));
          [reflexivity | lia].
      * rewrite (IH (10 * n + d)) by lia.
        cbn [String.eqb]. now rewrite Ascii.eqb_refl.
    + cbn [decimalValue]. destruct (Z.ltb_spec maxVal n); [lia|].
      reflexivity.
Qed.

(** [ParseInt] on a string without a minus sign: the bound when the
    digits the string starts with go beyond 32 bits, wherever they stop;
    otherwise the number when the string is a numeral, capped at the
    bound, and 0 when it is not. *)
Lemma ParseInt32_unsigned (s : string) :
  s <> "" -> hasByte "-" s = false ->
  fst (Go.ParseInt s 32)
  = if 4294967295 <? decimalValue 0 (leadingDigits (unsigned s)) then 2147483647
    else if String.eqb (leadingDigits (unsigned s)) (unsigned s)
            && negb (String.eqb (unsigned s) "")
         then Z.min (decimalValue 0 (unsigned s)) 2147483647
         else 0.
Proof.
  intros Hne Hfree. destruct s as [|c s]; [contradiction|].
  cbn [hasByte] in Hfree. apply orb_false_elim in Hfree as [Hc _].
  unfold Go.ParseInt, unsigned. rewrite Hc.
  set (body := if Ascii.eqb c "+" then s else String c s).
  replace (if Ascii.eqb c "+" then (false, s) else (false, String c s))
    with (false, body) by (subst body; now destruct (Ascii.eqb c "+")).
  cbv iota beta. cbn [negb andb].
  unfold Go.ParseUint.
  change (2 ^ 32 - 1) with 4294967295. change (2 ^ (32 - 1)) with 2147483648.
  destruct body as [|b body'] eqn:Hb; [reflexivity|].
  rewrite parseUintFrom_spec by lia.
  destruct (Z.ltb_spec 4294967295 (decimalValue 0 (leadingDigits (String b body'))));
    [reflexivity|].
  destruct (String.eqb (leadingDigits (String b body')) (String b body')) eqn:Hall;
    [|reflexivity].
  cbn [andb String.eqb negb fst].
  apply String.eqb_eq, leadingDigits_all in Hall.
  pose proof (decimalValue_ge 0 _ Hall ltac:(lia)).
  destruct (Z.leb_spec 2147483648 (decimalValue 0 (String b body')));
    cbn [fst]; lia.
Qed.

Lemma ParseInt32_range (s : string) :
  hasByte "-" s = false -> 0 <= fst (Go.ParseInt s 32) <= 2147483647.
Proof.
  intros Hfree.
  destruct (String.eqb_spec s "") as [->|Hne]; [unfold Go.ParseInt; cbn [fst]; lia|].
  rewrite (ParseInt32_unsigned s Hne Hfree).
  destruct (_ <? _); [lia|].
  destruct (_ && _) eqn:E; [|lia].
  apply andb_prop in E as [Hall _].
  apply String.eqb_eq, leadingDigits_all in Hall.
  pose proof (decimalValue_ge 0 _ Hall ltac:(lia)). lia.
Qed.

Lemma ParseInt_digits s :
  allDigits s = true -> (1 <= String.length s <= 9)%nat ->
  Go.ParseInt s 32 = (decimalValue 0 s, false).
Proof.
  intros H Hlen.
  destruct s as [|c s]; [simpl in Hlen; lia|].
  pose proof (decimalValue_bounds 0 _ H ltac:(lia)) as [Hlo Hhi].
  assert (10 ^ Z.of_nat (String.length (String c s)) <= 10 ^ 9)
    by (apply Z.pow_le_mono_r; lia).
  change (10 ^ 9) with 1000000000 in *.
  pose proof H as Hc. simpl in Hc. apply andb_prop in Hc as [Hc _].
  apply isDigit_range in Hc.
  unfold Go.ParseInt.
  destruct (Ascii.eqb_spec c "+") as [->|_]; [vm_compute in Hc; lia|].
  destruct (Ascii.eqb_spec c "-") as [->|_]; [vm_compute in Hc; lia|].
  unfold Go.ParseUint.
  change (2 ^ 32 - 1) with 4294967295. change (2 ^ (32 - 1)) with 2147483648.
  rewrite parseUintFrom_spec by lia.
  rewrite (proj1 (leadingDigits_all _) H), String.eqb_refl.
  destruct (Z.ltb_spec 4294967295 (decimalValue 0 (String c s))); [lia|].
  cbn [negb andb].
  destruct (Z.leb_spec 2147483648 (decimalValue 0 (String c s))); [lia|].
  reflexivity.
Qed.

Lemma allDigits_free s : allDigits s = true -> hasByte "-" s = false.
Proof.
  induction s as [|c s IH]; simpl; [reflexivity|].
  intros H. apply andb_prop in H as [Hc Hs].
  apply isDigit_range in Hc.
  rewrite (IH Hs), orb_false_r.
  apply Ascii.eqb_neq. intros ->. vm_compute in Hc. lia.
Qed.

End FileNameFacts.

(** ** Names and descriptors *)

Section NameClaims.

Context `{Env : Environment}.

Lemma append_cancel_r (a b t : string) : a ++ t = b ++ t -> a = b.
Proof.
  revert b. induction a as [|c a IH]; intros [|c' b] H; simpl in H.
  - reflexivity.
  - apply (f_equal String.length) in H. simpl in H.
    rewrite length_append in H. lia.
  - apply (f_equal String.length) in H. simpl in H.
    rewrite length_append in H. lia.
  - injection H as -> H. f_equal. now apply IH.
Qed.

Lemma isLegacyFile_stem (file stem : string) :
  Go.Base file = stem ++ ".sql" ->
  (isLegacyFile file = true <-> CodeLegacyStem stem).
Proof.
  intros HB. unfold isLegacyFile.
  rewrite (legacyMigrationVersion_stem file stem HB).
  rewrite <- legacy_stem_iff. cbv zeta.
  destruct (negb _ || negb _ || _); simpl; split; congruence.
Qed.

Lemma legacy_version_digits (file nnnn : string) :
  Go.Base file = ("0000-" ++ nnnn) ++ ".sql" ->
  allDigits nnnn = true -> (1 <= String.length nnnn <= 9)%nat ->
  legacyMigrationVersion file = Some (decimalValue 0 nnnn, true).
Proof.
  intros HB Hd Hlen.
  rewrite (legacyMigrationVersion_stem file _ HB). cbv zeta.
  change ("0000-" ++ nnnn) with ("0000" ++ String "-" nnnn).
  rewrite Split_cons by reflexivity.
  rewrite (Split_free _ _ (allDigits_free _ Hd)).
  simpl. destruct nnnn as [|c n]; [simpl in Hlen; lia|].
  simpl. now rewrite (ParseInt_digits _ Hd Hlen).
Qed.

(** C6, amended.  For every path ending in [.sql]: the base name is a
    stem followed by [.sql]; the migration name is the lowercased stem,
    for legacy and standard files alike; the file is classified as legacy
    exactly when the stem is [0000-X] with X not empty and free of dashes
    (digits are not required and their number is not bounded); when X is
    one to nine decimal digits the legacy version is the integer they
    denote; and every base name of the form [0000-NNNN.sql], NNNN one to
    four digits, is classified as legacy. *)
Theorem legacy_classification (q : string) :
  exists stem : string,
    Go.Base (q ++ ".sql") = stem ++ ".sql"
    /\ migrationNameFromFile unicodeToLower (q ++ ".sql")
       = Some (Go.ToLower unicodeToLower stem)
    /\ (isLegacyFile (q ++ ".sql") = true <-> CodeLegacyStem stem)
    /\ (forall nnnn : string,
           stem = "0000-" ++ nnnn -> allDigits nnnn = true ->
           (1 <= String.length nnnn <= 9)%nat ->
           legacyMigrationVersion (q ++ ".sql") = Some (decimalValue 0 nnnn, true))
    /\ (SpecLegacyName (stem ++ ".sql") -> isLegacyFile (q ++ ".sql") = true).
Proof.
  destruct (Base_sql q) as [stem HB]. exists stem.
  split; [exact HB|]. split; [|split; [|split]].
  - unfold migrationNameFromFile. now rewrite HB, dropLast4_sql.
  - now apply isLegacyFile_stem.
  - intros nnnn -> Hd Hlen. now apply legacy_version_digits.
  - intros (nnnn & Heq & Hlen & Hd).
    change ("0000-" ++ nnnn ++ ".sql") with (("0000-" ++ nnnn) ++ ".sql") in Heq.
    apply append_cancel_r in Heq. subst stem.
    unfold isLegacyFile.
    rewrite (legacy_version_digits _ nnnn HB Hd) by lia. reflexivity.
Qed.

(** C6 as stated fails: [0000-abc.sql] is classified as legacy although
    its base name is not [0000-NNNN.sql] with NNNN one to four digits. *)
Lemma legacy_grammar_counterexample :
  legacyMigrationVersion "m/0000-abc.sql" = Some (0, true)
  /\ ~ SpecLegacyName (Go.Base "m/0000-abc.sql").
Proof.
  split; [reflexivity|].
  intros (nnnn & Heq & Hlen & Hd).
  change (Go.Base "m/0000-abc.sql") with ("0000-" ++ "abc" ++ ".sql") in Heq.
  assert ("abc" ++ ".sql" = nnnn ++ ".sql") as Heq' by (simpl in *; congruence).
  apply append_cancel_r in Heq'. subst nnnn. discriminate Hd.
Qed.

(** C7, amended.  A descriptor parsed without error gives back the input
    when its six fields are joined with colons, its driver is [postgres],
    and its connection string is [host], [dbname] and [user], then the
    port unless the port field is empty or ["0"], then the password
    unless the password field is empty, then [sslmode=disable]. *)
Theorem parse_roundtrip (dbStr : string) (c : dbCon) :
  parseDBConStr dbStr = (c, None) ->
  Go.Join ":" [driver c; host c; port c; dbname c; user c; password c] = dbStr
  /\ driver c = "postgres"
  /\ makeConStr c =
       "host=" ++ host c ++ " dbname=" ++ dbname c ++ " user=" ++ user c
       ++ (if String.eqb (port c) "" || String.eqb (port c) "0"
           then "" else " port=" ++ port c)
       ++ (if String.eqb (password c) "" then "" else " password=" ++ password c)
       ++ " sslmode=disable".
Proof.
  unfold parseDBConStr.
  pose proof (Join_Split ":" dbStr) as HJ.
  destruct (Go.Split ":" dbStr) as [|p0 [|p1 [|p2 [|p3 [|p4 [|p5 [|p6 ps]]]]]]];
    try discriminate.
  cbn [length Nat.eqb negb nth driver].
  destruct (String.eqb_spec p0 "postgres") as [->|]; [|discriminate].
  cbn [negb]. intros [= <-]. cbn [driver host port dbname user password].
  split; [exact HJ|]. split; [reflexivity|].
  unfold makeConStr. cbn [driver host port dbname user password sslmode].
  destruct (String.eqb p2 "0"), (String.eqb p2 ""), (String.eqb p5 "");
    cbn [negb andb orb String.eqb];
    rewrite ?append_assoc, ?append_nil_r; reflexivity.
Qed.

Lemma parse_roundtrip_witness :
  makeConStr (fst (parseDBConStr "postgres:db.local:5432:main:imqs:secret"))
  = "host=db.local dbname=main user=imqs port=5432 password=secret sslmode=disable".
Proof.
  destruct (parse_roundtrip "postgres:db.local:5432:main:imqs:secret" _ eq_refl)
    as (_ & _ & H).
  exact H.
Defined.

(** C7 as stated fails in both readings: with port ["0"] the port field
    is not empty and yet the port option is left out; with password
    ["0"] the password is "zero" and yet the password option is there. *)
Lemma port_zero_counterexample :
  exists c : dbCon,
    parseDBConStr "postgres:localhost:0:legacydb:unit_test_user:0" = (c, None)
    /\ port c <> "" /\ hasOption "port" (makeConStr c) = false
    /\ password c = "0" /\ hasOption "password" (makeConStr c) = true.
Proof.
  eexists. split; [reflexivity|]. repeat split. discriminate.
Qed.

End NameClaims.

(** ** One migration and loops of migrations *)

Section EngineFacts.

Context `{Env : Environment}.

Implicit Types (w : World) (file : string) (files : list string)
         (rows : list string).

Lemma addEvents_nil w : addEvents [] w = w.
Proof. destruct w. unfold addEvents. simpl. now rewrite app_nil_r. Qed.

Lemma addEvents_app evs1 evs2 w :
  addEvents evs2 (addEvents evs1 w) = addEvents (evs1 ++ evs2) w.
Proof. unfold addEvents. simpl. now rewrite app_assoc. Qed.

Ltac world := cbn [db fs out]; rewrite <- ?app_assoc; cbn [app].

(** One migration, case by case. *)
Lemma runMigration_cases file w :
  runMigration file w =
    match fs w !! file with
    | None => (addEvents [EvReadFile file] w, inl (ReadFileFailed file))
    | Some sql =>
        match migrationNameFromFile unicodeToLower file with
        | None => (addEvents [EvReadFile file; EvBegin] w, inl PanicSliceBounds)
        | Some migname =>
            let started :=
              [EvReadFile file; EvBegin;
               EvPrint ("Running migration " ++ migname ++ newline);
               EvTxExec (Script sql)] in
            match pgExec (Script sql) (db w) with
            | inl e => (addEvents (started ++ [EvRollback]) w, inl (Driver e))
            | inr tx =>
                match pgExec (InsertVersion migname) tx with
                | inl e =>
                    (addEvents
                       (started ++ [EvTxExec (InsertVersion migname); EvRollback]) w,
                     inl (Driver e))
                | inr tx' =>
                    (mkWorld tx' (fs w)
                       (out w ++ started ++ [EvTxExec (InsertVersion migname); EvCommit]),
                     inr tt)
                end
            end
        end
    end.
Proof.
  unfold runMigration, ReadFile, Begin, Printf, TxExec, Commit, bind, emit,
    orPanic, ret, fail, addEvents, newline.
  world.
  destruct (fs w !! file) as [sql|]; [|reflexivity].
  destruct (migrationNameFromFile unicodeToLower file) as [migname|];
    world; [|reflexivity].
  destruct (pgExec (Script sql) (db w)) as [e|tx]; world; [reflexivity|].
  destruct (pgExec (InsertVersion migname) tx) as [e|tx']; world; reflexivity.
Qed.

Lemma pgExec_insert_current (n : string) (d : Database Data) rows :
  meta d = Current rows ->
  pgExec (InsertVersion n) d =
    if bool_decide (n ∈ rows) then inl (UniqueViolation n)
    else inr (setMeta (Current (rows ++ [n])) d).
Proof. intros H. unfold pgExec. now rewrite H. Qed.

Lemma pgExec_script_meta (sql : string) (d d' : Database Data) :
  ScriptsKeepMeta -> pgExec (Script sql) d = inr d' -> meta d' = meta d.
Proof.
  intros HK. unfold pgExec. destruct (execScript sql d) as [msg|d''] eqn:E;
    [discriminate|].
  intros [= <-]. now apply (HK sql).
Qed.

(** A migration that fails leaves the database as it was. *)
Lemma runMigration_failed file w w' (e : Error) :
  runMigration file w = (w', inl e) -> db w' = db w /\ fs w' = fs w.
Proof.
  rewrite runMigration_cases.
  destruct (fs w !! file) as [sql|]; [|now intros [= <- _]].
  destruct (migrationNameFromFile unicodeToLower file) as [n|];
    [|now intros [= <- _]].
  cbv zeta.
  destruct (pgExec (Script sql) (db w)) as [e1|tx]; [now intros [= <- _]|].
  destruct (pgExec (InsertVersion n) tx) as [e2|tx']; [now intros [= <- _]|].
  discriminate.
Qed.

(** A migration that commits has run its script and recorded its name. *)
Lemma runMigration_committed file w w' (u : unit) :
  runMigration file w = (w', inr u) ->
  exists sql tx,
    fs w !! file = Some sql
    /\ migrationNameFromFile unicodeToLower file = Some (nameOf file)
    /\ pgExec (Script sql) (db w) = inr tx
    /\ pgExec (InsertVersion (nameOf file)) tx = inr (db w')
    /\ fs w' = fs w
    /\ out w' = (out w ++ appliedEvents (fs w) file)%list.
Proof.
  rewrite runMigration_cases. unfold appliedEvents, nameOf.
  destruct (fs w !! file) as [sql|]; [|discriminate].
  destruct (migrationNameFromFile unicodeToLower file) as [n|]; [|discriminate].
  cbv zeta.
  destruct (pgExec (Script sql) (db w)) as [e1|tx] eqn:E1; [discriminate|].
  destruct (pgExec (InsertVersion n) tx) as [e2|tx'] eqn:E2; [discriminate|].
  intros [= <-]. exists sql, tx. cbn [db fs out].
  repeat split; first [exact E1 | exact E2 | reflexivity].
Qed.

Lemma runMigration_committed_meta file w w' (u : unit) rows :
  ScriptsKeepMeta ->
  meta (db w) = Current rows ->
  runMigration file w = (w', inr u) ->
  (nameOf file ∉ rows) /\ meta (db w') = Current (rows ++ [nameOf file]).
Proof.
  intros HK Hm Hrun.
  apply runMigration_committed in Hrun as (sql & tx & _ & _ & Hs & Hi & _).
  apply (pgExec_script_meta _ _ _ HK) in Hs. rewrite Hm in Hs.
  rewrite (pgExec_insert_current _ _ _ Hs) in Hi.
  destruct (bool_decide_reflect (nameOf file ∈ rows)) as [|Hnot]; [discriminate|].
  injection Hi as <-. now split.
Qed.

(** *** Loops *)

Lemma forEach_nil {A} (body : A -> M unit) w : forEach body [] w = (w, inr tt).
Proof. reflexivity. Qed.

Lemma forEach_cons {A} (body : A -> M unit) (x : A) (l : list A) w :
  forEach body (x :: l) w =
    match body x w with
    | (w', inl e) => (w', inl e)
    | (w', inr _) => forEach body l w'
    end.
Proof.
  unfold forEach. cbn [foldM]. unfold bind.
  destruct (body x w) as [w' [e|[]]]; reflexivity.
Qed.

Lemma forEach_app {A} (body : A -> M unit) (l1 l2 : list A) w :
  forEach body (l1 ++ l2) w =
    match forEach body l1 w with
    | (w', inl e) => (w', inl e)
    | (w', inr _) => forEach body l2 w'
    end.
Proof.
  revert w. induction l1 as [|x l1 IH]; intros w; [reflexivity|].
  cbn [app]. rewrite !forEach_cons.
  destruct (body x w) as [w' [e|[]]]; [reflexivity | apply IH].
Qed.

(** A loop that fails has completed a prefix and failed on the next
    element. *)
Lemma forEach_failed {A} (body : A -> M unit) (l : list A) w w' (e : Error) :
  forEach body l w = (w', inl e) ->
  exists l1 x l2 w1,
    l = (l1 ++ x :: l2)%list
    /\ forEach body l1 w = (w1, inr tt)
    /\ body x w1 = (w', inl e).
Proof.
  revert w. induction l as [|x l IH]; intros w; [discriminate|].
  rewrite forEach_cons.
  destruct (body x w) as [w1 [e1|[]]] eqn:E.
  - intros [= <- <-]. now exists [], x, l, w.
  - intros H. apply IH in H as (l1 & y & l2 & w2 & -> & H1 & H2).
    exists (x :: l1), y, l2, w2. repeat split; [|exact H2].
    now rewrite forEach_cons, E.
Qed.

(** Migrations that all commit extend the table by their names, in
    order, and the output by their events. *)
Lemma forEach_runMigration_committed files w w' (u : unit) rows :
  ScriptsKeepMeta ->
  meta (db w) = Current rows ->
  forEach runMigration files w = (w', inr u) ->
  meta (db w') = Current (rows ++ map nameOf files)
  /\ NoDup (map nameOf files)
  /\ (forall file, file ∈ files -> nameOf file ∉ rows)
  /\ fs w' = fs w
  /\ out w' = (out w ++ flat_map (appliedEvents (fs w)) files)%list.
Proof.
  intros HK. revert w rows.
  induction files as [|file files IH]; intros w rows Hm.
  - intros [= <-]. cbn. rewrite !app_nil_r.
    repeat split; [assumption | constructor | ].
    intros file H. now apply elem_of_nil in H.
  - rewrite forEach_cons.
    destruct (runMigration file w) as [w1 [e|[]]] eqn:E; [discriminate|].
    intros Hrest.
    destruct (runMigration_committed_meta _ _ _ _ _ HK Hm E) as [Hnot Hm1].
    apply runMigration_committed in E as (_ & _ & _ & _ & _ & _ & Hfs & Hout).
    destruct (IH _ _ Hm1 Hrest) as (Hm' & Hnd & Hfresh & Hfs' & Hout').
    cbn [map flat_map]. repeat split.
    + rewrite Hm'. now rewrite <- app_assoc.
    + constructor; [|exact Hnd].
      intros Hin. apply list_elem_of_fmap in Hin as (g & Hg & Hin).
      apply (Hfresh g Hin). rewrite <- Hg. apply elem_of_app. right.
      now apply list_elem_of_singleton.
    + intros g Hg. apply elem_of_cons in Hg as [->|Hg]; [exact Hnot|].
      intros Hin. apply (Hfresh g Hg). apply elem_of_app. now left.
    + congruence.
    + rewrite Hout', Hout, Hfs. now rewrite <- app_assoc.
Qed.

End EngineFacts.

(** ** Bootstrap and the main loop *)

Section RunFacts.

Context `{Env : Environment}.

Implicit Types (w : World) (file : string) (files : list string)
         (rows : list string).

Ltac world := cbn [db fs out]; rewrite <- ?app_assoc; cbn [app].

Lemma sqlPath_stem file :
  isSqlPath file = true -> exists stem, Go.Base file = stem ++ ".sql".
Proof.
  intros H. apply HasSuffix_inv in H as [q ->]. apply Base_sql.
Qed.

Lemma sqlPath_name file :
  isSqlPath file = true ->
  migrationNameFromFile unicodeToLower file = Some (nameOf file).
Proof.
  intros H. apply sqlPath_stem in H as [stem HB].
  unfold nameOf, migrationNameFromFile. now rewrite HB, dropLast4_sql.
Qed.

Lemma sqlPath_legacy file :
  isSqlPath file = true ->
  exists v, legacyMigrationVersion file = Some (v, isLegacyFile file).
Proof.
  intros H. apply sqlPath_stem in H as [stem HB].
  unfold isLegacyFile. rewrite (legacyMigrationVersion_stem _ _ HB). cbv zeta.
  destruct (negb _ || negb _ || _); eexists; reflexivity.
Qed.

Lemma bootstrap_current (dbName : string) files w rows :
  meta (db w) = Current rows ->
  bootstrap dbName files w = (addEvents [EvQuery VerType] w, inr tt).
Proof. intros H. unfold bootstrap, QueryRow. now rewrite H. Qed.

Lemma bootstrap_legacy (dbName : string) files w (rows : list Z) :
  meta (db w) = Legacy rows ->
  bootstrap dbName files w =
    switchoverFromAlbion files
      (addEvents [EvQuery VerType;
                  EvPrint ("Switching " ++ dbName
                             ++ " over from Albion migration system" ++ newline)] w).
Proof.
  intros H. unfold bootstrap, QueryRow. rewrite H.
  cbn [queryVerType]. unfold bind, Printf, emit, addEvents. world. reflexivity.
Qed.

Lemma bootstrap_fresh (dbName : string) files w :
  meta (db w) = Absent ->
  bootstrap dbName files w =
    runLegacyMigrations files
      (mkWorld (setMeta (Current []) (db w)) (fs w)
               (out w ++ [EvQuery VerType; EvExec CreateMetaTable])).
Proof.
  intros H. unfold bootstrap, QueryRow. rewrite H.
  cbn [queryVerType]. unfold bind, Exec, emit, pgExec. unfold bind. world.
  rewrite H. reflexivity.
Qed.

(** The legacy replay is a loop of migrations over the legacy files. *)
Lemma runLegacyMigrations_filter files w :
  Forall (fun file => isSqlPath file = true) files ->
  runLegacyMigrations files w =
    forEach runMigration (filter (fun file => isLegacyFile file = true) files) w.
Proof.
  intros HF. revert w. induction HF as [|file files Hf HF IH]; intros w;
    [reflexivity|].
  unfold runLegacyMigrations in *. rewrite forEach_cons.
  destruct (sqlPath_legacy _ Hf) as [v Hv].
  unfold bind at 1. rewrite Hv. cbn [orPanic ret snd].
  rewrite filter_cons.
  destruct (isLegacyFile file) eqn:E.
  - rewrite decide_True by reflexivity. rewrite forEach_cons.
    destruct (runMigration file w) as [w' [e|[]]]; [reflexivity | apply IH].
  - rewrite decide_False by discriminate. apply IH.
Qed.

(** *** The set of applied names *)

Lemma mapIndex_fold rows (m0 : gmap string bool) (n : string) :
  mapIndex (fold_left (fun versions version => <[version := true]> versions) rows m0) n
  = bool_decide (n ∈ rows) || mapIndex m0 n.
Proof.
  revert m0. induction rows as [|r rows IH]; intros m0; cbn [fold_left].
  - reflexivity.
  - rewrite IH. unfold mapIndex.
    destruct (decide (r = n)) as [->|Hne].
    + rewrite lookup_insert_eq. cbn.
      rewrite (bool_decide_eq_true_2 (n ∈ n :: rows))
        by (apply elem_of_cons; now left).
      now rewrite orb_true_r.
    + rewrite lookup_insert_ne by exact Hne.
      f_equal. apply bool_decide_ext. rewrite elem_of_cons.
      split; [tauto | intros [?|?]; [congruence | assumption]].
Qed.

Lemma getMigrationsInDB_current w rows :
  meta (db w) = Current rows ->
  exists existing : gmap string bool,
    getMigrationsInDB w = (addEvents [EvQuery Versions] w, inr existing)
    /\ forall n, mapIndex existing n = bool_decide (n ∈ rows).
Proof.
  intros H. unfold getMigrationsInDB, QueryRow. rewrite H. cbn [queryVersions].
  eexists. split; [reflexivity|].
  intros n. rewrite mapIndex_fold. unfold mapIndex.
  rewrite lookup_empty. cbn. apply orb_false_r.
Qed.

(** The main loop applies the pending files, in order, and counts them. *)
Lemma mainLoop_pending (existing : gmap string bool) rows files (k : nat) w :
  (forall n, mapIndex existing n = bool_decide (n ∈ rows)) ->
  Forall (fun file => isSqlPath file = true) files ->
  foldM (fun nrun file =>
           bind (orPanic (migrationNameFromFile unicodeToLower file))
                (fun migname =>
                   if negb (mapIndex existing migname)
                   then bind (runMigration file) (fun _ => ret (S nrun))
                   else ret nrun))
        files k w
  = match forEach runMigration (pending rows files) w with
    | (w', inl e) => (w', inl e)
    | (w', inr _) => (w', inr (k + length (pending rows files))%nat)
    end.
Proof.
  intros Hex HF. revert k w.
  induction HF as [|file files Hf HF IH]; intros k w.
  - cbn. unfold ret. now rewrite Nat.add_0_r.
  - cbn [foldM]. unfold bind at 1. unfold bind at 1.
    rewrite (sqlPath_name _ Hf). cbn [orPanic ret].
    rewrite Hex. unfold pending in *. rewrite filter_cons.
    destruct (decide (nameOf file ∉ rows)) as [Hnot|Hin].
    + rewrite bool_decide_eq_false_2 by exact Hnot. cbn [negb].
      rewrite forEach_cons. unfold bind at 1.
      destruct (runMigration file w) as [w' [e|[]]]; [reflexivity|].
      unfold ret. rewrite IH.
      destruct (forEach runMigration _ w') as [w'' [e|[]]]; [reflexivity|].
      cbn [length]. do 2 f_equal. lia.
    + rewrite bool_decide_eq_true_2 by (destruct (decide (nameOf file ∈ rows)); tauto).
      cbn [negb]. unfold ret. apply IH.
Qed.

Lemma runMigrationsOn_bootstrap (dbName : string) files :
  runMigrationsOn dbName files
  = bind (bootstrap dbName files) (fun _ => applyMissing files).
Proof. reflexivity. Qed.

(** On a table of this system, what follows [bootstrap] is a loop of
    migrations over the pending files, and one line when there is none. *)
Lemma applyMissing_current files w rows :
  meta (db w) = Current rows ->
  Forall (fun file => isSqlPath file = true) files ->
  applyMissing files w =
    match forEach runMigration (pending rows files)
                  (addEvents [EvQuery Versions] w) with
    | (w', inl e) => (w', inl e)
    | (w', inr _) =>
        match pending rows files with
        | [] => (addEvents [upToDate] w', inr tt)
        | _ => (w', inr tt)
        end
    end.
Proof.
  intros Hm HF. unfold applyMissing.
  destruct (getMigrationsInDB_current w rows Hm) as (existing & Hq & Hex).
  unfold bind at 1. rewrite Hq. unfold bind at 1.
  rewrite (mainLoop_pending existing rows files 0 _ Hex HF).
  destruct (forEach runMigration _ _) as [w' [e|[]]]; [reflexivity|].
  destruct (pending rows files); reflexivity.
Qed.

End RunFacts.

(** ** The switchover *)

Section Switchover.

Context `{Env : Environment}.

Implicit Types (w : World) (file : string) (files : list string).

Ltac world := cbn [db fs out]; rewrite <- ?app_assoc; cbn [app].

Lemma maxLegacy_running (files : list string) (m r : Z) :
  maxLegacyMigrationVersionFrom m files = Some r ->
  r = fold_left Z.max (legacyVersions files) m.
Proof.
  revert m. induction files as [|file files IH]; intros m; cbn.
  - now intros [= <-].
  - destruct (legacyMigrationVersion file) as [[v isLegacy]|]; [|discriminate].
    intros H. apply IH in H. rewrite H.
    destruct isLegacy; cbn; [|reflexivity].
    f_equal. destruct (Z.ltb_spec m v); lia.
Qed.

Lemma maxLegacy_total (files : list string) (m : Z) :
  Forall (fun file => isSqlPath file = true) files ->
  exists r, maxLegacyMigrationVersionFrom m files = Some r.
Proof.
  intros HF. revert m. induction HF as [|file files Hf HF IH]; intros m; cbn.
  - now exists m.
  - destruct (sqlPath_legacy _ Hf) as [v ->]. apply IH.
Qed.

Lemma fold_left_max (rows : list Z) (r : Z) :
  fold_left Z.max rows r ∈ r :: rows
  /\ Forall (fun v => v <= fold_left Z.max rows r) (r :: rows).
Proof.
  revert r. induction rows as [|x rows IH]; intros r; cbn.
  - split; [apply elem_of_cons; now left | repeat constructor; lia].
  - destruct (IH (Z.max r x)) as [Hin Hall].
    inversion Hall as [|? ? Hm Hrest]; subst. split.
    + apply elem_of_cons in Hin as [Heq|Hin].
      * rewrite Heq. destruct (Z.max_spec r x) as [[_ ->]|[_ ->]].
        -- apply elem_of_cons. right. apply elem_of_cons. now left.
        -- apply elem_of_cons. now left.
      * apply elem_of_cons. right. apply elem_of_cons. now right.
    + constructor; [lia|]. constructor; [lia | exact Hrest].
Qed.

(** [max(version)] is the largest row. *)
Lemma queryMaxVersion_legacy (rows : list Z) (m : Z) :
  queryMaxVersion (Legacy rows) = inr m ->
  m ∈ rows /\ Forall (fun v => v <= m) rows.
Proof.
  destruct rows as [|r rows]; cbn; [discriminate|].
  destruct (inInt64 _); [|discriminate]. intros [= <-]. apply fold_left_max.
Qed.

(** C1.  On a legacy table whose largest version differs from the largest
    legacy version among the files (the maximum of their versions and 0),
    the switchover returns the mismatch error, whose text shows both
    numbers; the only event is the query, and database and files are as
    before. *)
Theorem switchover_version_mismatch w files (rows : list Z) (maxDB maxAvailable : Z) :
  meta (db w) = Legacy rows ->
  queryMaxVersion (Legacy rows) = inr maxDB ->
  maxLegacyMigrationVersion files = Some maxAvailable ->
  maxDB <> maxAvailable ->
  switchoverFromAlbion files w
    = (mkWorld (db w) (fs w) (out w ++ [EvQuery MaxVersion]),
       inl (VersionMismatch maxAvailable maxDB))
  /\ message (VersionMismatch maxAvailable maxDB)
     = "Unable to upgrade migration system. Expected database to be at migration "
         ++ Go.FormatInt maxAvailable ++ ", but it is at " ++ Go.FormatInt maxDB
  /\ maxAvailable = fold_left Z.max (legacyVersions files) 0
  /\ (maxDB ∈ rows /\ Forall (fun v => v <= maxDB) rows).
Proof.
  intros Hm Hq Hmax Hne. split; [|split; [reflexivity|split]].
  - unfold switchoverFromAlbion, QueryRow. unfold bind at 1.
    rewrite Hm, Hq. unfold bind at 1. rewrite Hmax. cbn [orPanic ret].
    destruct (Z.eqb_spec maxDB maxAvailable) as [|_]; [contradiction|].
    reflexivity.
  - now apply maxLegacy_running.
  - now apply queryMaxVersion_legacy.
Qed.

(** The loop of the switchover inserts the names of the legacy files. *)
Lemma switchoverLoop_names files (tx : Database Data) w :
  Forall (fun file => isSqlPath file = true) files ->
  foldM (fun tx file =>
           bind (orPanic (legacyMigrationVersion file))
                (fun r =>
                   if snd r
                   then bind (orPanic (migrationNameFromFile unicodeToLower file))
                             (fun migname => TxExec (InsertVersion migname) tx)
                   else ret tx))
        files tx w
  = foldM (fun tx n => TxExec (InsertVersion n) tx) (legacyNames files) tx w.
Proof.
  intros HF. revert tx w. induction HF as [|file files Hf HF IH]; intros tx w;
    [reflexivity|].
  cbn [foldM]. unfold legacyNames in *. rewrite filter_cons.
  destruct (sqlPath_legacy _ Hf) as [v Hv].
  unfold bind at 1. unfold bind at 1. rewrite Hv. cbn [orPanic ret snd].
  destruct (isLegacyFile file).
  - rewrite decide_True by reflexivity. cbn [map foldM].
    unfold bind at 1. rewrite (sqlPath_name _ Hf). cbn [orPanic ret].
    unfold bind at 3.
    destruct (TxExec (InsertVersion (nameOf file)) tx w) as [w' [e|tx']];
      [reflexivity | apply IH].
  - rewrite decide_False by discriminate. apply IH.
Qed.

Lemma TxExec_insert (n : string) (tx : Database Data) (seen : list string) w :
  meta tx = Current seen ->
  TxExec (InsertVersion n) tx w =
    if bool_decide (n ∈ seen)
    then (addEvents [EvTxExec (InsertVersion n); EvRollback] w,
          inl (Driver (UniqueViolation n)))
    else (addEvents [EvTxExec (InsertVersion n)] w,
          inr (setMeta (Current (seen ++ [n])) tx)).
Proof.
  intros H. unfold TxExec. rewrite (pgExec_insert_current _ _ _ H).
  unfold bind, emit, fail, ret, addEvents.
  destruct (bool_decide (n ∈ seen)); world; reflexivity.
Qed.

Lemma insertLoop_ok (names seen : list string) (tx : Database Data) w :
  meta tx = Current seen ->
  NoDup names -> Forall (fun n => n ∉ seen) names ->
  foldM (fun tx n => TxExec (InsertVersion n) tx) names tx w
  = (addEvents (insertEvents names) w, inr (setMeta (Current (seen ++ names)) tx)).
Proof.
  revert seen tx w. induction names as [|n names IH]; intros seen tx w Hm Hnd Hfresh.
  - cbn. unfold ret. rewrite addEvents_nil, app_nil_r.
    destruct tx as [t d]. cbn in Hm. subst t. reflexivity.
  - apply NoDup_cons in Hnd as [Hn Hnd]. inversion Hfresh as [|? ? Hs Hrest]; subst.
    cbn [foldM]. unfold bind. rewrite (TxExec_insert _ _ _ _ Hm).
    rewrite bool_decide_eq_false_2 by exact Hs.
    rewrite (IH (seen ++ [n])%list); [| reflexivity | exact Hnd |].
    + rewrite addEvents_app. unfold setMeta. cbn [data insertEvents map app].
      now rewrite <- app_assoc.
    + apply Forall_forall. intros m Hin Hm'.
      apply elem_of_app in Hm' as [Hm'|Hm'].
      * rewrite Forall_forall in Hrest. now apply (Hrest m).
      * apply list_elem_of_singleton in Hm'. subst m. contradiction.
Qed.

Lemma insertLoop_clash (names seen : list string) (tx : Database Data) w :
  meta tx = Current seen ->
  ~ (NoDup names /\ Forall (fun n => n ∉ seen) names) ->
  exists pre n post,
    names = (pre ++ n :: post)%list
    /\ n ∈ (seen ++ pre)%list
    /\ foldM (fun tx n => TxExec (InsertVersion n) tx) names tx w
       = (addEvents (insertEvents (pre ++ [n]) ++ [EvRollback]) w,
          inl (Driver (UniqueViolation n))).
Proof.
  revert seen tx w. induction names as [|n names IH]; intros seen tx w Hm Hbad.
  - exfalso. apply Hbad. split; constructor.
  - cbn [foldM]. unfold bind. rewrite (TxExec_insert _ _ _ _ Hm).
    destruct (decide (n ∈ seen)) as [Hin|Hnot].
    + rewrite bool_decide_eq_true_2 by exact Hin.
      exists [], n, names. rewrite app_nil_r.
      split; [reflexivity|]. split; [exact Hin | reflexivity].
    + rewrite bool_decide_eq_false_2 by exact Hnot.
      destruct (IH (seen ++ [n])%list (setMeta (Current (seen ++ [n])) tx)
                  (addEvents [EvTxExec (InsertVersion n)] w) eq_refl)
        as (pre & m & post & -> & Hin & Hrun).
      * intros [Hnd Hfresh]. apply Hbad. split.
        -- apply NoDup_cons. split; [|exact Hnd].
           intros Hin. rewrite Forall_forall in Hfresh.
           apply (Hfresh n Hin). apply elem_of_app. right.
           now apply list_elem_of_singleton.
        -- constructor; [exact Hnot|].
           apply Forall_forall. intros x Hx Hseen.
           rewrite Forall_forall in Hfresh. apply (Hfresh x Hx).
           apply elem_of_app. now left.
      * exists (n :: pre), m, post.
        split; [reflexivity|]. split.
        -- rewrite <- app_assoc in Hin. exact Hin.
        -- rewrite Hrun, addEvents_app. reflexivity.
Qed.

Lemma switchover_loop w files (rows : list Z) (m : Z) :
  Forall (fun file => isSqlPath file = true) files ->
  meta (db w) = Legacy rows ->
  queryMaxVersion (Legacy rows) = inr m ->
  maxLegacyMigrationVersion files = Some m ->
  switchoverFromAlbion files w
  = match dropRefused (db w) with
    | Some msg =>
        (addEvents [EvQuery MaxVersion; EvBegin;
                    EvTxExec DropAndCreateMetaTable; EvRollback] w,
         inl (Driver (DropRefused msg)))
    | None =>
        match foldM (fun tx n => TxExec (InsertVersion n) tx) (legacyNames files)
                    (setMeta (Current []) (db w))
                    (addEvents [EvQuery MaxVersion; EvBegin;
                                EvTxExec DropAndCreateMetaTable] w) with
        | (w', inl e) => (w', inl e)
        | (w', inr tx) => (mkWorld tx (fs w') (out w' ++ [EvCommit]), inr tt)
        end
    end.
Proof.
  intros HF Hm Hq Hmax.
  unfold switchoverFromAlbion, QueryRow. unfold bind at 1.
  rewrite Hm, Hq. unfold bind at 1. rewrite Hmax. cbn [orPanic ret].
  rewrite Z.eqb_refl. cbn [negb].
  unfold bind at 1. unfold Begin at 1. unfold bind at 1. unfold emit at 1.
  world. unfold bind at 1. unfold TxExec at 1. unfold pgExec at 1.
  rewrite Hm. destruct (dropRefused (db w)) as [msg|].
  - unfold bind, emit, fail, addEvents. world. reflexivity.
  - unfold bind at 1. unfold emit at 1. world. unfold ret at 1.
    unfold bind at 1. rewrite (switchoverLoop_names _ _ _ HF).
    unfold addEvents. world.
    destruct (foldM _ _ _ _) as [w' [e|tx]]; [reflexivity|].
    unfold Commit, bind, emit. world. reflexivity.
Qed.

Lemma insertEvents_bookkeeping (names : list string) :
  Forall isBookkeeping (insertEvents names).
Proof. induction names; constructor; [exact I | assumption]. Qed.

(** The name of a file with an ASCII stem is the stem in lower case. *)
Lemma nameOf_lowercase file (stem : string) :
  Go.Base file = stem ++ ".sql" ->
  Go.isASCII stem = true ->
  nameOf file = Go.mapBytes Go.lowerByte stem
  /\ allBytes (fun c => negb (Go.isUpper c)) (nameOf file) = true.
Proof.
  intros HB HA.
  assert (nameOf file = Go.mapBytes Go.lowerByte stem) as ->.
  { unfold nameOf, migrationNameFromFile, Go.ToLower.
    now rewrite HB, dropLast4_sql, HA. }
  split; [reflexivity | apply mapBytes_lower_fixed].
Qed.

(** C2.  When the largest version in the legacy table equals the largest
    legacy version among the files, the switchover is one transaction:
    begin, drop and create the table, one insert per legacy file with its
    lowercased name, commit; the table then holds exactly those names, in
    the order of the files.  Each step of the transaction that fails ends
    it: when the server refuses to drop the table, and when two legacy
    files have the same name so that the second insert violates the key,
    the transaction is rolled back, the database is as before and the
    driver's error is returned.  Whenever an error is returned the last
    event is the rollback and the database is unchanged; whenever none is
    returned the last event is the commit.  In no case is a file read or a
    script executed, and nothing but the table changes.  The name recorded
    for a file with an ASCII stem is the stem in lower case, without any
    capital letter. *)
Theorem switchover_transaction w files (rows : list Z) (m : Z) :
  Forall (fun file => isSqlPath file = true) files ->
  meta (db w) = Legacy rows ->
  queryMaxVersion (Legacy rows) = inr m ->
  maxLegacyMigrationVersion files = Some m ->
  let header := [EvQuery MaxVersion; EvBegin; EvTxExec DropAndCreateMetaTable] in
  (forall msg : string,
      dropRefused (db w) = Some msg ->
      switchoverFromAlbion files w
      = (mkWorld (db w) (fs w) (out w ++ header ++ [EvRollback]),
         inl (Driver (DropRefused msg))))
  /\ (dropRefused (db w) = None ->
      NoDup (legacyNames files) ->
      switchoverFromAlbion files w
      = (mkWorld (mkDatabase (Current (legacyNames files)) (data (db w))) (fs w)
                 (out w ++ header ++ insertEvents (legacyNames files) ++ [EvCommit]),
         inr tt))
  /\ (dropRefused (db w) = None ->
      ~ NoDup (legacyNames files) ->
      exists pre n post,
        legacyNames files = (pre ++ n :: post)%list
        /\ n ∈ pre
        /\ switchoverFromAlbion files w
           = (mkWorld (db w) (fs w)
                      (out w ++ header ++ insertEvents (pre ++ [n]) ++ [EvRollback]),
              inl (Driver (UniqueViolation n))))
  /\ (forall w' r,
         switchoverFromAlbion files w = (w', r) ->
         exists evs,
           out w' = (out w ++ header ++ evs)%list
           /\ Forall isBookkeeping evs
           /\ data (db w') = data (db w)
           /\ fs w' = fs w
           /\ match r with
              | inl e =>
                  db w' = db w
                  /\ (exists de, e = Driver de)
                  /\ exists names, evs = (insertEvents names ++ [EvRollback])%list
              | inr _ =>
                  meta (db w') = Current (legacyNames files)
                  /\ evs = (insertEvents (legacyNames files) ++ [EvCommit])%list
              end)
  /\ Forall (fun file =>
               forall stem : string,
                 Go.Base file = stem ++ ".sql" ->
                 Go.isASCII stem = true ->
                 nameOf file = Go.mapBytes Go.lowerByte stem
                 /\ allBytes (fun c => negb (Go.isUpper c)) (nameOf file) = true)
            files.
Proof.
  intros HF Hm Hq Hmax header.
  pose proof (switchover_loop w files rows m HF Hm Hq Hmax) as Hrun.
  fold header in Hrun.
  assert (forall msg : string,
             dropRefused (db w) = Some msg ->
             switchoverFromAlbion files w
             = (mkWorld (db w) (fs w) (out w ++ header ++ [EvRollback]),
                inl (Driver (DropRefused msg)))) as Hdrop.
  { intros msg Hmsg. rewrite Hrun, Hmsg. reflexivity. }
  assert (dropRefused (db w) = None ->
          NoDup (legacyNames files) ->
          switchoverFromAlbion files w
          = (mkWorld (mkDatabase (Current (legacyNames files)) (data (db w))) (fs w)
                     (out w ++ header ++ insertEvents (legacyNames files) ++ [EvCommit]),
             inr tt)) as Hok.
  { intros Hnone Hnd. rewrite Hrun, Hnone.
    rewrite (insertLoop_ok (legacyNames files) [] (setMeta (Current []) (db w))
               (addEvents header w) eq_refl Hnd).
    - unfold addEvents, setMeta. world. reflexivity.
    - apply Forall_forall. intros n _ Hn. now apply elem_of_nil in Hn. }
  assert (dropRefused (db w) = None ->
          ~ NoDup (legacyNames files) ->
          exists pre n post,
            legacyNames files = (pre ++ n :: post)%list
            /\ n ∈ pre
            /\ switchoverFromAlbion files w
               = (mkWorld (db w) (fs w)
                          (out w ++ header ++ insertEvents (pre ++ [n]) ++ [EvRollback]),
                  inl (Driver (UniqueViolation n)))) as Hbad.
  { intros Hnone Hdup. rewrite Hrun, Hnone.
    destruct (insertLoop_clash (legacyNames files) [] (setMeta (Current []) (db w))
                (addEvents header w) eq_refl) as (pre & n & post & Heq & Hin & Hloop).
    - intros [Hnd _]. contradiction.
    - exists pre, n, post. split; [exact Heq|]. split; [exact Hin|].
      rewrite Hloop. unfold addEvents. world. reflexivity. }
  split; [exact Hdrop|]. split; [exact Hok|]. split; [exact Hbad|]. split.
  - intros w' r Hres.
    destruct (dropRefused (db w)) as [msg|] eqn:Hd.
    + rewrite (Hdrop msg eq_refl) in Hres. injection Hres as <- <-.
      exists [EvRollback]. cbn [db fs out data].
      split; [reflexivity|]. split; [repeat constructor|].
      split; [reflexivity|]. split; [reflexivity|].
      split; [reflexivity|]. split; [now eexists | now exists []].
    + destruct (decide (NoDup (legacyNames files))) as [Hnd|Hdup].
      * rewrite (Hok eq_refl Hnd) in Hres. injection Hres as <- <-.
        eexists. cbn [db fs out data meta].
        split; [reflexivity|]. split; [|repeat split].
        apply Forall_app. split; [apply insertEvents_bookkeeping | repeat constructor].
      * destruct (Hbad eq_refl Hdup) as (pre & n & post & _ & _ & Hfail).
        rewrite Hfail in Hres. injection Hres as <- <-.
        eexists. cbn [db fs out data].
        split; [reflexivity|]. split; [|split; [reflexivity|]].
        -- apply Forall_app.
           split; [apply insertEvents_bookkeeping | repeat constructor].
        -- split; [reflexivity|]. split; [reflexivity|].
           split; [now eexists | now eexists].
  - apply Forall_forall. intros file _ stem HB HA. now apply nameOf_lowercase.
Qed.

(** A switchover that succeeds leaves a table of this system. *)
Lemma switchover_current w w' files (rows : list Z) (u : unit) :
  Forall (fun file => isSqlPath file = true) files ->
  meta (db w) = Legacy rows ->
  switchoverFromAlbion files w = (w', inr u) ->
  meta (db w') = Current (legacyNames files) /\ fs w' = fs w.
Proof.
  intros HF Hm Hrun.
  destruct (queryMaxVersion (Legacy rows)) as [e|m] eqn:Hq.
  { revert Hrun. unfold switchoverFromAlbion, QueryRow. unfold bind at 1.
    rewrite Hm, Hq. discriminate. }
  destruct (maxLegacy_total files 0 HF) as [a Ha].
  destruct (Z.eqb_spec m a) as [<-|Hne].
  - rewrite (switchover_loop w files rows m HF Hm Hq Ha) in Hrun.
    destruct (dropRefused (db w)); [discriminate|].
    destruct (decide (NoDup (legacyNames files))) as [Hnd|Hdup].
    + rewrite (insertLoop_ok (legacyNames files) [] (setMeta (Current []) (db w))
                 _ eq_refl Hnd) in Hrun.
      * injection Hrun as <-. now split.
      * apply Forall_forall. intros n _ Hn. now apply elem_of_nil in Hn.
    + destruct (insertLoop_clash
                  (legacyNames files) [] (setMeta (Current []) (db w))
                  (addEvents [EvQuery MaxVersion; EvBegin;
                              EvTxExec DropAndCreateMetaTable] w) eq_refl)
        as (pre & n & post & _ & _ & Hloop).
      * intros [Hnd _]. contradiction.
      * rewrite Hloop in Hrun. discriminate.
  - revert Hrun. unfold switchoverFromAlbion, QueryRow. unfold bind at 1.
    rewrite Hm, Hq. unfold bind at 1.
    unfold maxLegacyMigrationVersion. rewrite Ha. cbn [orPanic ret].
    destruct (Z.eqb_spec m a) as [|_]; [contradiction | discriminate].
Qed.

End Switchover.

Lemma switchover_version_mismatch_witness :
  switchoverFromAlbion readmeFiles (testWorld (Legacy [0; 56]) readmeContent)
  = (mkWorld (testDb (Legacy [0; 56]) []) (list_to_map readmeContent)
             [EvQuery MaxVersion],
     inl (VersionMismatch 1 56)).
Proof.
  apply (switchover_version_mismatch
           (testWorld (Legacy [0; 56]) readmeContent) readmeFiles [0; 56] 56 1);
    [reflexivity | reflexivity | reflexivity | discriminate].
Defined.


Lemma switchover_transaction_witness :
  switchoverFromAlbion readmeFiles (testWorld (Legacy [0; 1]) readmeContent)
  = (mkWorld (testDb (Current ["0000-0000"; "0000-0001"]) [])
             (list_to_map readmeContent)
             [EvQuery MaxVersion; EvBegin; EvTxExec DropAndCreateMetaTable;
              EvTxExec (InsertVersion "0000-0000");
              EvTxExec (InsertVersion "0000-0001"); EvCommit],
     inr tt)
  /\ switchoverFromAlbion
       readmeFiles
       (mkWorld (testDb (Legacy [0; 1]) [dependentView]) (list_to_map readmeContent) [])
     = (mkWorld (testDb (Legacy [0; 1]) [dependentView]) (list_to_map readmeContent)
                [EvQuery MaxVersion; EvBegin; EvTxExec DropAndCreateMetaTable;
                 EvRollback],
        inl (Driver (DropRefused
                       "pq: cannot drop table schema_migrations because other objects depend on it"))).
Proof.
  split.
  - destruct (switchover_transaction
                (testWorld (Legacy [0; 1]) readmeContent) readmeFiles [0; 1] 1)
      as (_ & Hok & _).
    + repeat constructor.
    + reflexivity.
    + reflexivity.
    + reflexivity.
    + apply Hok; [reflexivity|].
      apply (bool_decide_unpack (NoDup _)). vm_compute. exact I.
  - destruct (switchover_transaction
                (mkWorld (testDb (Legacy [0; 1]) [dependentView])
                         (list_to_map readmeContent) [])
                readmeFiles [0; 1] 1)
      as (Hdrop & _).
    + repeat constructor.
    + reflexivity.
    + reflexivity.
    + reflexivity.
    + apply Hdrop. reflexivity.
Defined.

(** ** Runs on a table of this system *)

Section CurrentRuns.

Context `{Env : Environment}.

Implicit Types (w : World) (file : string) (files : list string)
         (rows : list string).

Ltac world := cbn [db fs out]; rewrite <- ?app_assoc; cbn [app].

Lemma filter_none {A} (P : A -> Prop) `{!forall x, Decision (P x)} (l : list A) :
  (forall x, x ∈ l -> ~ P x) -> filter P l = [].
Proof.
  induction l as [|x l IH]; intros HP; [reflexivity|].
  rewrite filter_cons_False by (apply HP, elem_of_cons; now left).
  apply IH. intros y Hy. apply HP, elem_of_cons. now right.
Qed.

Lemma filter_all {A} (P : A -> Prop) `{!forall x, Decision (P x)} (l : list A) :
  (forall x, x ∈ l -> P x) -> filter P l = l.
Proof.
  induction l as [|x l IH]; intros HP; [reflexivity|].
  rewrite filter_cons_True by (apply HP, elem_of_cons; now left).
  f_equal. apply IH. intros y Hy. apply HP, elem_of_cons. now right.
Qed.

Lemma NoDup_map_inj {A B} (f : A -> B) (l : list A) (x y : A) :
  NoDup (map f l) -> x ∈ l -> y ∈ l -> f x = f y -> x = y.
Proof.
  induction l as [|a l IH]; cbn [map]; intros Hnd Hx Hy Heq.
  - now apply elem_of_nil in Hx.
  - apply NoDup_cons in Hnd as [Ha Hnd].
    apply elem_of_cons in Hx as [->|Hx]; apply elem_of_cons in Hy as [->|Hy].
    + reflexivity.
    + exfalso. apply Ha. rewrite Heq. now apply (list_elem_of_fmap_2 f).
    + exfalso. apply Ha. rewrite <- Heq. now apply (list_elem_of_fmap_2 f).
    + now apply IH.
Qed.

Lemma NoDup_map_filter {A B} (f : A -> B) (P : A -> Prop)
      `{!forall x, Decision (P x)} (l : list A) :
  NoDup (map f l) -> NoDup (map f (filter P l)).
Proof.
  induction l as [|a l IH]; cbn [map]; intros Hnd; [constructor|].
  apply NoDup_cons in Hnd as [Ha Hnd]. rewrite filter_cons.
  destruct (decide (P a)); [|now apply IH].
  cbn [map]. apply NoDup_cons. split; [|now apply IH].
  intros Hin. apply Ha.
  apply list_elem_of_fmap in Hin as (x & -> & Hx).
  apply list_elem_of_filter in Hx as [_ Hx]. now apply (list_elem_of_fmap_2 f).
Qed.

(** Once a prefix of the pending files is recorded, the rest is what is
    pending. *)
Lemma pending_after rows files (pre rest : list string) :
  NoDup (map nameOf files) ->
  pending rows files = (pre ++ rest)%list ->
  pending (rows ++ map nameOf pre) files = rest.
Proof.
  intros Hnd Hp. unfold pending in *.
  rewrite (list_filter_iff _ (fun file => (nameOf file ∉ map nameOf pre)
                                          /\ (nameOf file ∉ rows))).
  2:{ intros file. rewrite elem_of_app. tauto. }
  rewrite <- (list_filter_filter (fun file => nameOf file ∉ map nameOf pre)
                                 (fun file => nameOf file ∉ rows)).
  rewrite Hp, filter_app.
  pose proof (NoDup_map_filter nameOf (fun file => nameOf file ∉ rows) files Hnd)
    as Hnd'.
  rewrite Hp, map_app in Hnd'. apply NoDup_app in Hnd' as (_ & Hdisj & _).
  rewrite filter_none, filter_all; [reflexivity| |].
  - intros x Hx Hin. apply (Hdisj (nameOf x) Hin). now apply (list_elem_of_fmap_2 nameOf).
  - intros x Hx Hnot. apply Hnot. now apply (list_elem_of_fmap_2 nameOf).
Qed.

Lemma runMigrationsOn_current (dbName : string) files w rows :
  meta (db w) = Current rows ->
  Forall (fun file => isSqlPath file = true) files ->
  runMigrationsOn dbName files w =
    match forEach runMigration (pending rows files)
                  (addEvents [EvQuery VerType; EvQuery Versions] w) with
    | (w', inl e) => (w', inl e)
    | (w', inr _) =>
        match pending rows files with
        | [] => (addEvents [upToDate] w', inr tt)
        | _ => (w', inr tt)
        end
    end.
Proof.
  intros Hm HF. rewrite runMigrationsOn_bootstrap. unfold bind.
  rewrite (bootstrap_current _ _ _ _ Hm).
  rewrite (applyMissing_current files (addEvents [EvQuery VerType] w) rows Hm HF).
  rewrite addEvents_app.
  reflexivity.
Qed.

(** The error of a migration whose file could be read is the driver's
    error for the script or for the insert, passed on unchanged. *)
Lemma runMigration_error_is_drivers file w w' (e : Error) (sql : string) :
  isSqlPath file = true ->
  fs w !! file = Some sql ->
  runMigration file w = (w', inl e) ->
  exists de : DriverError,
    e = Driver de
    /\ (pgExec (Script sql) (db w) = inl de
        \/ exists tx, pgExec (Script sql) (db w) = inr tx
                      /\ pgExec (InsertVersion (nameOf file)) tx = inl de).
Proof.
  intros Hf Hsql. rewrite runMigration_cases, Hsql, (sqlPath_name _ Hf). cbv zeta.
  destruct (pgExec (Script sql) (db w)) as [e1|tx] eqn:E1.
  - intros [= _ <-]. exists e1. split; [reflexivity | now left].
  - destruct (pgExec (InsertVersion (nameOf file)) tx) as [e2|tx'] eqn:E2;
      [|discriminate].
    intros [= _ <-]. exists e2. split; [reflexivity|]. right. now exists tx.
Qed.

(** C3, amended.  On a table of this system, let the pending files be
    [pre], then [file], then [post]; let the migrations of [pre] commit and
    the migration of [file] fail.  Then the run ends in the state in which
    that migration failed and returns its error: nothing of [post] is
    attempted; the database is the one the commits of [pre] produced, the
    failed transaction having left no trace in it, and its table holds the
    old rows followed by the names of [pre].  When the file could be read
    the error is the driver's error for the script or for the insert and
    its text is the driver's text: no file name is added to it.  A second
    run on that database, whatever the files then contain, applies [file]
    and [post], in that order, and nothing else, provided the migration
    names of the files are pairwise distinct. *)
Theorem failed_migration_stops_run
        (dbName : string) files w rows (pre post : list string) file w1 w2 (e : Error) :
  ScriptsKeepMeta ->
  Forall (fun file => isSqlPath file = true) files ->
  meta (db w) = Current rows ->
  pending rows files = (pre ++ file :: post)%list ->
  forEach runMigration pre (addEvents [EvQuery VerType; EvQuery Versions] w)
    = (w1, inr tt) ->
  runMigration file w1 = (w2, inl e) ->
  runMigrationsOn dbName files w = (w2, inl e)
  /\ db w2 = db w1
  /\ meta (db w1) = Current (rows ++ map nameOf pre)
  /\ (forall sql, fs w !! file = Some sql ->
      exists de : DriverError,
        e = Driver de /\ message e = driverMessage de
        /\ (pgExec (Script sql) (db w1) = inl de
            \/ exists tx, pgExec (Script sql) (db w1) = inr tx
                          /\ pgExec (InsertVersion (nameOf file)) tx = inl de))
  /\ (NoDup (map nameOf files) ->
      forall content' : gmap string string,
        runMigrationsOn dbName files (mkWorld (db w2) content' (out w2))
        = match forEach runMigration (file :: post)
                        (mkWorld (db w2) content'
                                 (out w2 ++ [EvQuery VerType; EvQuery Versions])) with
          | (w', inl e') => (w', inl e')
          | (w', inr _) => (w', inr tt)
          end).
Proof.
  intros HK HF Hm Hp Hpre Hfail.
  destruct (runMigration_failed _ _ _ _ Hfail) as [Hdb Hfs].
  destruct (forEach_runMigration_committed
              pre (addEvents [EvQuery VerType; EvQuery Versions] w) w1 tt rows HK Hm Hpre)
    as (Hm1 & _ & _ & Hfs1 & _).
  assert (file ∈ files) as Hin.
  { assert (file ∈ pending rows files) as H
        by (rewrite Hp; apply elem_of_app; right; apply elem_of_cons; now left).
    unfold pending in H. now apply list_elem_of_filter in H as [_ H]. }
  assert (isSqlPath file = true) as Hf
      by (rewrite Forall_forall in HF; now apply HF).
  split; [|split; [exact Hdb | split; [exact Hm1 | split]]].
  - rewrite (runMigrationsOn_current _ _ _ _ Hm HF), Hp, forEach_app, Hpre.
    rewrite forEach_cons, Hfail. reflexivity.
  - intros sql Hsql.
    assert (fs w1 !! file = Some sql) as Hsql1 by (rewrite Hfs1; exact Hsql).
    destruct (runMigration_error_is_drivers _ _ _ _ _ Hf Hsql1 Hfail)
      as (de & -> & Hde).
    exists de. split; [reflexivity|]. split; [reflexivity | exact Hde].
  - intros Hnd content'.
    assert (meta (db (mkWorld (db w2) content' (out w2)))
            = Current (rows ++ map nameOf pre)) as Hm2
        by (cbn [db]; rewrite Hdb; exact Hm1).
    rewrite (runMigrationsOn_current _ _ _ _ Hm2 HF).
    rewrite (pending_after rows files pre (file :: post) Hnd Hp).
    unfold addEvents. world. reflexivity.
Qed.

End CurrentRuns.

Lemma testEnv_keeps_meta : @ScriptsKeepMeta testEnv.
Proof.
  intros sql d d'. unfold execScript, testEnv, testScript.
  destruct (String.prefix "SELEC " sql); [discriminate|]. now intros [= <-].
Qed.

Lemma failed_migration_stops_run_witness :
  let w := testWorld (Current []) brokenContent in
  let w1 := fst (forEach runMigration ["m/2018-01-15-a.sql"]
                         (addEvents [EvQuery VerType; EvQuery Versions] w)) in
  let w2 := fst (runMigration "m/2018-02-01-b.sql" w1) in
  runMigrationsOn "main" threeFiles w
  = (w2, inl (Driver (ScriptRejected "pq: syntax error at or near SELEC"))).
Proof.
  intros w w1 w2.
  refine (proj1 (failed_migration_stops_run
                   "main" threeFiles w [] ["m/2018-01-15-a.sql"] ["m/2018-03-01-c.sql"]
                   "m/2018-02-01-b.sql" w1 w2
                   (Driver (ScriptRejected "pq: syntax error at or near SELEC"))
                   testEnv_keeps_meta _ _ _ _ _)).
  - repeat constructor.
  - reflexivity.
  - vm_compute. reflexivity.
  - vm_compute. reflexivity.
  - vm_compute. reflexivity.
Defined.

(** C3 as stated fails where it says that the error names the file: the
    second of three pending migrations is rejected, and the error of the
    run is the server's text, in which neither the path nor the migration
    name occurs. *)
Lemma apply_error_counterexample :
  exists (w' : @World testEnv) (e : Error),
    runMigrationsOn "main" threeFiles (testWorld (Current []) brokenContent)
    = (w', inl e)
    /\ meta (db w') = Current ["2018-01-15-a"]
    /\ message e = "pq: syntax error at or near SELEC"
    /\ Go.Index (message e) "2018-02-01-b" = -1.
Proof.
  eexists. eexists. split; [vm_compute; reflexivity|].
  split; [reflexivity|]. split; vm_compute; reflexivity.
Qed.

(** ** Whole runs *)

Section WholeRuns.

Context `{Env : Environment}.

Implicit Types (w : World) (file : string) (files : list string)
         (rows : list string).

Ltac world := cbn [db fs out]; rewrite <- ?app_assoc; cbn [app].

Lemma filter_ext_in {A} (P Q : A -> Prop)
      `{!forall x, Decision (P x), !forall x, Decision (Q x)} (l : list A) :
  (forall x, x ∈ l -> P x <-> Q x) -> filter P l = filter Q l.
Proof.
  induction l as [|x l IH]; intros HPQ; [reflexivity|].
  assert (P x <-> Q x) as Hx by (apply HPQ, elem_of_cons; now left).
  assert (filter P l = filter Q l) as Hl
      by (apply IH; intros y Hy; apply HPQ, elem_of_cons; now right).
  rewrite !filter_cons, Hl.
  destruct (decide (P x)), (decide (Q x)); tauto.
Qed.

Lemma pending_nil rows files :
  (forall file, file ∈ files -> nameOf file ∈ rows) -> pending rows files = [].
Proof.
  intros H. unfold pending. apply filter_none.
  intros file Hin Hnot. now apply Hnot, H.
Qed.

(** After the legacy files are recorded, the standard files are pending. *)
Lemma pending_legacy files :
  NoDup (map nameOf files) ->
  pending (map nameOf (filter (fun file => isLegacyFile file = true) files)) files
  = standardFiles files.
Proof.
  intros Hnd. unfold pending, standardFiles. apply filter_ext_in.
  intros x Hx. split.
  - intros Hnot Hleg. apply Hnot. apply (list_elem_of_fmap_2 nameOf).
    apply list_elem_of_filter. now split.
  - intros Hstd Hin. apply Hstd.
    apply list_elem_of_fmap in Hin as (g & Hname & Hg).
    apply list_elem_of_filter in Hg as [Hleg Hg].
    now rewrite (NoDup_map_inj nameOf files x g Hnd Hx Hg Hname).
Qed.

(** A successful bootstrap leaves a table of this system. *)
Lemma bootstrap_establishes_current (dbName : string) files w w1 (u : unit) :
  ScriptsKeepMeta ->
  Forall (fun file => isSqlPath file = true) files ->
  bootstrap dbName files w = (w1, inr u) ->
  exists rows1, meta (db w1) = Current rows1 /\ fs w1 = fs w.
Proof.
  intros HK HF. destruct (meta (db w)) as [|lrows|rows] eqn:Hm.
  - rewrite (bootstrap_fresh _ _ _ Hm), (runLegacyMigrations_filter _ _ HF).
    intros Hrun.
    pose proof (fun Hm0 => forEach_runMigration_committed _ _ _ _ [] HK Hm0 Hrun) as H.
    destruct (H eq_refl) as (Hm1 & _ & _ & Hfs & _).
    eexists. split; [exact Hm1 | exact Hfs].
  - rewrite (bootstrap_legacy _ _ _ _ Hm). intros Hrun.
    pose proof (fun Hm0 => switchover_current _ _ _ lrows _ HF Hm0 Hrun) as H.
    destruct (H Hm) as [Hm1 Hfs].
    eexists. split; [exact Hm1 | exact Hfs].
  - rewrite (bootstrap_current _ _ _ _ Hm). intros [= <-].
    exists rows. now split.
Qed.

(** After a successful run every file is recorded. *)
Lemma applyMissing_recorded files w w' (u : unit) rows :
  ScriptsKeepMeta ->
  Forall (fun file => isSqlPath file = true) files ->
  meta (db w) = Current rows ->
  applyMissing files w = (w', inr u) ->
  exists rows',
    meta (db w') = Current rows'
    /\ (forall file, file ∈ files -> nameOf file ∈ rows')
    /\ fs w' = fs w.
Proof.
  intros HK HF Hm. rewrite (applyMissing_current _ _ _ Hm HF).
  destruct (forEach runMigration _ _) as [w1 [e|[]]] eqn:Hloop; [discriminate|].
  pose proof (fun Hm0 => forEach_runMigration_committed _ _ _ _ rows HK Hm0 Hloop) as H.
  destruct (H Hm) as (Hm1 & _ & _ & Hfs & _). clear H.
  intros Hres.
  assert (db w' = db w1 /\ fs w' = fs w1) as [Hdb Hfs'].
  { destruct (pending rows files); injection Hres as <-; now split. }
  exists (rows ++ map nameOf (pending rows files))%list.
  rewrite Hdb, Hfs'. split; [exact Hm1|]. split; [|exact Hfs].
  intros file Hin. apply elem_of_app.
  destruct (decide (nameOf file ∈ rows)) as [|Hnot]; [now left|].
  right. apply (list_elem_of_fmap_2 nameOf). unfold pending.
  apply list_elem_of_filter. now split.
Qed.

(** C4.  When a run has succeeded, a second run on the database it left
    finds the table of this system, asks for the applied names, applies
    nothing, prints that the database is up to date and succeeds; database
    and files are untouched.  (Scripts are supposed not to alter the
    bookkeeping table, and paths to end in [.sql].) *)
Theorem second_run_is_up_to_date (dbName : string) files w w1 :
  ScriptsKeepMeta ->
  Forall (fun file => isSqlPath file = true) files ->
  runMigrationsOn dbName files w = (w1, inr tt) ->
  runMigrationsOn dbName files w1
  = (mkWorld (db w1) (fs w1)
             (out w1 ++ [EvQuery VerType; EvQuery Versions;
                         EvPrint ("Database is up to date" ++ newline)]),
     inr tt).
Proof.
  intros HK HF Hrest. rewrite runMigrationsOn_bootstrap in Hrest.
  unfold bind in Hrest.
  destruct (bootstrap dbName files w) as [w0 [e|[]]] eqn:Hboot; [discriminate|].
  destruct (bootstrap_establishes_current _ _ _ _ _ HK HF Hboot) as (rows0 & Hm0 & _).
  destruct (applyMissing_recorded _ _ _ _ _ HK HF Hm0 Hrest) as (rows1 & Hm1 & Hall & _).
  rewrite (runMigrationsOn_current _ _ _ _ Hm1 HF).
  rewrite (pending_nil _ _ Hall), forEach_nil, addEvents_app. reflexivity.
Qed.

(** *** Runs that succeed *)

Lemma runMigration_succeeds file w rows :
  ScriptsKeepMeta -> ScriptsAccepted ->
  isSqlPath file = true ->
  is_Some (fs w !! file) ->
  meta (db w) = Current rows ->
  nameOf file ∉ rows ->
  exists w', runMigration file w = (w', inr tt).
Proof.
  intros HK HA Hf [sql Hsql] Hm Hnot.
  rewrite runMigration_cases, Hsql, (sqlPath_name _ Hf). cbv zeta.
  destruct (HA sql (db w)) as [tx Htx].
  assert (pgExec (Script sql) (db w) = inr tx) as Hs
      by (unfold pgExec; now rewrite Htx).
  rewrite Hs.
  assert (meta tx = Current rows) as Hmtx
      by (rewrite (pgExec_script_meta _ _ _ HK Hs); exact Hm).
  rewrite (pgExec_insert_current _ _ _ Hmtx).
  rewrite bool_decide_eq_false_2 by exact Hnot. eexists. reflexivity.
Qed.

Lemma forEach_runMigration_succeeds files w rows :
  ScriptsKeepMeta -> ScriptsAccepted ->
  Forall (fun file => isSqlPath file = true) files ->
  Forall (fun file => is_Some (fs w !! file)) files ->
  meta (db w) = Current rows ->
  NoDup (map nameOf files) ->
  (forall file, file ∈ files -> nameOf file ∉ rows) ->
  exists w', forEach runMigration files w = (w', inr tt).
Proof.
  intros HK HA HF. revert w rows.
  induction HF as [|file files Hf HF IH]; intros w rows Hread Hm Hnd Hfresh.
  - eexists. reflexivity.
  - inversion Hread as [|? ? Hr Hread']; subst.
    cbn [map] in Hnd. apply NoDup_cons in Hnd as [Hn Hnd].
    assert (nameOf file ∉ rows) as Hnot
        by (apply Hfresh, elem_of_cons; now left).
    destruct (runMigration_succeeds file w rows HK HA Hf Hr Hm Hnot) as [w1 H1].
    destruct (runMigration_committed_meta _ _ _ _ _ HK Hm H1) as [_ Hm1].
    apply runMigration_committed in H1 as H1'.
    destruct H1' as (_ & _ & _ & _ & _ & _ & Hfs1 & _).
    destruct (IH w1 (rows ++ [nameOf file])%list) as [w' Hw']; [| exact Hm1 | exact Hnd | |].
    + now rewrite Hfs1.
    + intros g Hg Hin. apply elem_of_app in Hin as [Hin|Hin].
      * apply (Hfresh g); [apply elem_of_cons; now right | exact Hin].
      * apply list_elem_of_singleton in Hin. apply Hn. rewrite <- Hin.
        now apply (list_elem_of_fmap_2 nameOf).
    + exists w'. now rewrite forEach_cons, H1.
Qed.

(** C5, amended.  On a database without the table, with paths ending in
    [.sql] and pairwise distinct migration names: a run that succeeds has
    created the table, then applied the legacy files in the order of the
    list, each by the ordinary migration procedure, then asked for the
    applied names and applied the other files in the order of the list, and
    the table holds the names of all files, legacy ones first.  The run
    does succeed when every file can be read and the server accepts every
    script.  The files are executed in the order supplied exactly when no
    other file stands before a legacy file in the list; in general what is
    executed is a permutation of the list. *)
Theorem fresh_database_run (dbName : string) files w :
  ScriptsKeepMeta ->
  Forall (fun file => isSqlPath file = true) files ->
  NoDup (map nameOf files) ->
  meta (db w) = Absent ->
  let legacy := filter (fun file => isLegacyFile file = true) files in
  let standard := standardFiles files in
  (forall w' (u : unit),
      runMigrationsOn dbName files w = (w', inr u) ->
      meta (db w') = Current (map nameOf (legacy ++ standard))
      /\ fs w' = fs w
      /\ out w' = (out w ++ [EvQuery VerType; EvExec CreateMetaTable]
                     ++ flat_map (appliedEvents (fs w)) legacy
                     ++ [EvQuery Versions]
                     ++ flat_map (appliedEvents (fs w)) standard
                     ++ match standard with [] => [upToDate] | _ => [] end)%list)
  /\ (ScriptsAccepted ->
      Forall (fun file => is_Some (fs w !! file)) files ->
      exists w', runMigrationsOn dbName files w = (w', inr tt))
  /\ (legacy ++ standard)%list ≡ₚ files
  /\ (forall l1 l2 : list string,
         files = (l1 ++ l2)%list ->
         Forall (fun file => isLegacyFile file = true) l1 ->
         Forall (fun file => isLegacyFile file <> true) l2 ->
         (legacy ++ standard)%list = files).
Proof.
  intros HK HF Hnd Hm legacy standard.
  assert (standard = standardFiles files) as Hstd by reflexivity.
  assert (legacy = filter (fun file => isLegacyFile file = true) files) as Hleg
      by reflexivity.
  clearbody legacy standard.
  set (w0 := mkWorld (setMeta (Current []) (db w)) (fs w)
                     (out w ++ [EvQuery VerType; EvExec CreateMetaTable])).
  assert (pending (map nameOf legacy) files = standard) as Hpend
      by (rewrite Hleg, Hstd; now apply pending_legacy).
  assert (bootstrap dbName files w = forEach runMigration legacy w0) as Hboot.
  { rewrite (bootstrap_fresh _ _ _ Hm).
    now rewrite (runLegacyMigrations_filter _ _ HF), Hleg. }
  split; [|split; [|split]].
  - intros w' u. rewrite runMigrationsOn_bootstrap. unfold bind at 1.
    rewrite Hboot.
    destruct (forEach runMigration legacy w0) as [w1 [e|[]]] eqn:Hb; [discriminate|].
    pose proof (fun Hm0 => forEach_runMigration_committed _ _ _ _ [] HK Hm0 Hb) as H.
    destruct (H eq_refl) as (Hm1 & _ & _ & Hfs1 & Hout1). clear H.
    cbn [app] in Hm1.
    rewrite (applyMissing_current _ _ _ Hm1 HF), Hpend.
    destruct (forEach runMigration standard _) as [w2 [e|[]]] eqn:Hloop;
      [destruct standard; discriminate|].
    pose proof (fun Hm0 => forEach_runMigration_committed
                            _ _ _ _ (map nameOf legacy) HK Hm0 Hloop) as H.
    destruct (H Hm1) as (Hm2 & _ & _ & Hfs2 & Hout2). clear H.
    cbn [fs out addEvents] in Hfs2, Hout2.
    intros Hres.
    assert (db w' = db w2 /\ fs w' = fs w2
            /\ out w' = (out w2 ++ match standard with
                                   | [] => [upToDate] | _ => [] end)%list)
      as (Hdb & Hfs & Hout).
    { destruct standard; injection Hres as <-; cbn [db fs out addEvents];
        rewrite ?app_nil_r; repeat split. }
    rewrite Hdb, Hfs, Hout, Hm2, Hfs2, Hfs1, Hout2, Hout1, Hfs1.
    cbn [fs out w0]. rewrite map_app.
    split; [reflexivity|]. split; [reflexivity|].
    rewrite <- !app_assoc. reflexivity.
  - intros HA Hread.
    assert (Forall (fun file => isSqlPath file = true) legacy) as HFl
        by (rewrite Hleg; apply Forall_forall; intros f Hf%list_elem_of_filter;
            rewrite Forall_forall in HF; apply HF; tauto).
    assert (Forall (fun file => is_Some (fs w0 !! file)) legacy) as Hrl
        by (rewrite Hleg; apply Forall_forall; intros f Hf%list_elem_of_filter;
            rewrite Forall_forall in Hread; apply Hread; tauto).
    destruct (forEach_runMigration_succeeds legacy w0 [] HK HA HFl Hrl eq_refl)
      as [w1 H1].
    { rewrite Hleg. now apply NoDup_map_filter. }
    { intros f _ Hin. now apply elem_of_nil in Hin. }
    pose proof (fun Hm0 => forEach_runMigration_committed _ _ _ _ [] HK Hm0 H1) as H.
    destruct (H eq_refl) as (Hm1 & _ & _ & Hfs1 & _). clear H. cbn [app] in Hm1.
    assert (Forall (fun file => isSqlPath file = true) standard) as HFs
        by (rewrite Hstd; apply Forall_forall; intros f Hf%list_elem_of_filter;
            rewrite Forall_forall in HF; apply HF; tauto).
    assert (Forall (fun file => is_Some (fs (addEvents [EvQuery Versions] w1) !! file))
                   standard) as Hrs.
    { rewrite Hstd. apply Forall_forall. intros f Hf%list_elem_of_filter.
      cbn [fs addEvents]. rewrite Hfs1. cbn [fs w0].
      rewrite Forall_forall in Hread. apply Hread. tauto. }
    destruct (forEach_runMigration_succeeds
                standard (addEvents [EvQuery Versions] w1) (map nameOf legacy)
                HK HA HFs Hrs Hm1) as [w2 H2].
    { rewrite Hstd. now apply NoDup_map_filter. }
    { intros f Hf. rewrite <- Hpend in Hf.
      unfold pending in Hf. now apply list_elem_of_filter in Hf as [Hf _]. }
    rewrite runMigrationsOn_bootstrap. unfold bind at 1.
    rewrite Hboot, H1.
    rewrite (applyMissing_current _ _ _ Hm1 HF), Hpend, H2.
    destruct standard; eexists; reflexivity.
  - rewrite Hleg, Hstd.
    apply (filter_app_complement (fun file => isLegacyFile file = true)).
  - intros l1 l2 -> H1 H2. rewrite Hleg, Hstd. unfold standardFiles.
    rewrite !filter_app.
    rewrite (filter_all _ l1), (filter_none _ l2), (filter_none _ l1), (filter_all _ l2).
    + now rewrite app_nil_r.
    + intros x Hx. rewrite Forall_forall in H2. now apply H2.
    + intros x Hx Hx'. rewrite Forall_forall in H1. now apply Hx', H1.
    + intros x Hx Hx'. rewrite Forall_forall in H2. now apply (H2 x).
    + intros x Hx. rewrite Forall_forall in H1. now apply H1.
Qed.




End WholeRuns.

Lemma acceptingEnv_keeps_meta : @ScriptsKeepMeta acceptingEnv.
Proof. intros sql d d'. cbn. now intros [= <-]. Qed.

Lemma acceptingEnv_accepts : @ScriptsAccepted acceptingEnv.
Proof. intros sql d. eexists. reflexivity. Qed.

Lemma second_run_is_up_to_date_witness :
  let w1 := fst (runMigrationsOn "newdb" readmeFiles (testWorld Absent readmeContent)) in
  runMigrationsOn "newdb" readmeFiles w1
  = (mkWorld (db w1) (fs w1)
             (out w1 ++ [EvQuery VerType; EvQuery Versions;
                         EvPrint ("Database is up to date" ++ newline)]),
     inr tt).
Proof.
  intros w1.
  refine (second_run_is_up_to_date
            "newdb" readmeFiles (testWorld Absent readmeContent) w1
            testEnv_keeps_meta _ _).
  - repeat constructor.
  - vm_compute. reflexivity.
Defined.

Lemma fresh_database_run_witness :
  exists w' : @World acceptingEnv,
    runMigrationsOn "newdb" readmeFiles (acceptingWorld Absent readmeContent)
    = (w', inr tt)
    /\ meta (db w') = Current ["0000-0000"; "0000-0001"; "2018-01-15-a"].
Proof.
  destruct (fresh_database_run
              "newdb" readmeFiles (acceptingWorld Absent readmeContent)
              acceptingEnv_keeps_meta) as (Hstate & Hruns & _).
  - repeat constructor.
  - apply (bool_decide_unpack (NoDup _)). vm_compute. exact I.
  - reflexivity.
  - destruct (Hruns acceptingEnv_accepts) as [w' Hw'].
    + repeat constructor; eexists; vm_compute; reflexivity.
    + exists w'. split; [exact Hw'|].
      destruct (Hstate w' tt Hw') as (Hmeta & _). rewrite Hmeta.
      vm_compute. reflexivity.
Defined.

(** C5 as stated fails where it says that the files are executed in the
    order supplied: of three files in lexical order, the second not a
    legacy file, a fresh database receives the first, the third and then
    the second. *)
Lemma fresh_order_counterexample :
  exists w' : @World testEnv,
    runMigrationsOn "newdb" interleavedFiles (testWorld Absent interleavedContent)
    = (w', inr tt)
    /\ map isLegacyFile interleavedFiles = [true; false; true]
    /\ (String.ltb "0000-0001.sql" "0000-0001a-fix.sql"
        && String.ltb "0000-0001a-fix.sql" "0000-0002.sql" = true)
    /\ map snd interleavedContent
       = ["CREATE TABLE a ()"; "ALTER TABLE a ADD x int"; "ALTER TABLE a DROP x"]
    /\ data (db w')
       = ["CREATE TABLE a ()"; "ALTER TABLE a DROP x"; "ALTER TABLE a ADD x int"]
    /\ meta (db w') = Current ["0000-0001"; "0000-0002"; "0000-0001a-fix"].
Proof.
  eexists. split; [vm_compute; reflexivity|].
  repeat split; vm_compute; reflexivity.
Qed.



(** ** What a run emits, and connecting *)

Section Frames.

Context `{Env : Environment}.

Implicit Types (w : World) (file : string) (files : list string).

Lemma Emits_ret (P : Event -> Prop) {A} (a : A) : Emits P (ret a).
Proof. intros w. split; [reflexivity|]. exists []. now rewrite app_nil_r. Qed.

Lemma Emits_fail (P : Event -> Prop) {A} (e : Error) : Emits P (@fail _ A e).
Proof. intros w. split; [reflexivity|]. exists []. now rewrite app_nil_r. Qed.

Lemma Emits_emit (P : Event -> Prop) (e : Event) : P e -> Emits P (emit e).
Proof. intros He w. split; [reflexivity|]. exists [e]. split; [reflexivity|]. now constructor. Qed.

Lemma Emits_bind (P : Event -> Prop) {A B} (m : M A) (k : A -> M B) :
  Emits P m -> (forall a, Emits P (k a)) -> Emits P (bind m k).
Proof.
  intros Hm Hk w. unfold bind.
  destruct (Hm w) as (Hfs & evs & Hout & HP).
  destruct (m w) as [w1 [e|a]]; cbn [fst] in *.
  - split; [exact Hfs|]. now exists evs.
  - destruct (Hk a w1) as (Hfs' & evs' & Hout' & HP').
    split; [congruence|]. exists (evs ++ evs')%list.
    rewrite Hout', Hout, app_assoc. split; [reflexivity|].
    apply Forall_app. now split.
Qed.

Lemma Emits_orPanic (P : Event -> Prop) {A} (o : option A) : Emits P (orPanic o).
Proof. destruct o; [apply Emits_ret | apply Emits_fail]. Qed.

Lemma Emits_foldM (P : Event -> Prop) {A S} (body : S -> A -> M S) (l : list A) (s : S) :
  (forall s x, Emits P (body s x)) -> Emits P (foldM body l s).
Proof.
  intros Hb. revert s. induction l as [|x l IH]; intros s; cbn [foldM].
  - apply Emits_ret.
  - apply Emits_bind; [apply Hb | exact IH].
Qed.

(** A step that reads or writes the database, adding one event. *)
Lemma Emits_step (P : Event -> Prop) {A} (e : Event)
      (f : World -> Database Data * (Error + A)) :
  P e ->
  Emits P (fun w => (mkWorld (fst (f w)) (fs w) (out w ++ [e]), snd (f w))).
Proof.
  intros He w. split; [reflexivity|]. exists [e]. split; [reflexivity|].
  now constructor.
Qed.

Lemma Emits_ext (P : Event -> Prop) {A} (m m' : M A) :
  (forall w, m w = m' w) -> Emits P m' -> Emits P m.
Proof. intros H Hm w. rewrite H. apply Hm. Qed.

Lemma Emits_runMigration file : Emits isEngineEvent (runMigration file).
Proof.
  intros w. rewrite runMigration_cases.
  destruct (fs w !! file) as [sql|];
    [|split; [reflexivity|]; eexists; split; [reflexivity | repeat constructor]].
  destruct (migrationNameFromFile unicodeToLower file) as [n|];
    [|split; [reflexivity|]; eexists; split; [reflexivity | repeat constructor]].
  cbv zeta.
  destruct (pgExec (Script sql) (db w)) as [e|tx];
    [split; [reflexivity|]; eexists; split; [reflexivity | repeat constructor]|].
  destruct (pgExec (InsertVersion n) tx) as [e|tx'];
    split; try reflexivity; eexists; (split; [reflexivity | repeat constructor]).
Qed.

Lemma Emits_TxExec (s : Stmt) (tx : Database Data) : Emits isEngineEvent (TxExec s tx).
Proof.
  unfold TxExec. apply Emits_bind; [now apply Emits_emit|]. intros _.
  destruct (pgExec s tx).
  - apply Emits_bind; [now apply Emits_emit | intros _; apply Emits_fail].
  - apply Emits_ret.
Qed.

Lemma Emits_QueryRow {A B} (q : QueryKind) (answer : MetaTable -> DriverError + A)
      (k : DriverError + A -> Error + B) :
  Emits isEngineEvent
        (fun w => match QueryRow q answer w with (w', r) => (w', k r) end).
Proof.
  intros w. unfold QueryRow. split; [reflexivity|].
  exists [EvQuery q]. split; [reflexivity | now repeat constructor].
Qed.

Lemma Emits_runLegacyMigrations files : Emits isEngineEvent (runLegacyMigrations files).
Proof.
  unfold runLegacyMigrations, forEach. apply Emits_foldM. intros _ file.
  apply Emits_bind; [apply Emits_orPanic|]. intros r.
  destruct (snd r); [apply Emits_runMigration | apply Emits_ret].
Qed.

Lemma Emits_switchoverFromAlbion files :
  Emits isEngineEvent (switchoverFromAlbion files).
Proof.
  unfold switchoverFromAlbion. apply Emits_bind.
  { eapply Emits_ext; [|apply (Emits_QueryRow MaxVersion queryMaxVersion
                                 (fun r => match r with
                                           | inl e => inl (MaxVersionReadFailed e)
                                           | inr v => inr v
                                           end))].
    intros w. unfold QueryRow. now destruct (queryMaxVersion _). }
  intros maxDB. apply Emits_bind; [apply Emits_orPanic|]. intros maxAvailable.
  destruct (negb _); [apply Emits_fail|].
  apply Emits_bind.
  { unfold Begin. apply Emits_bind; [now apply Emits_emit|]. intros _ w.
    split; [reflexivity|]. exists []. now rewrite app_nil_r. }
  intros tx. apply Emits_bind; [apply Emits_TxExec|]. intros tx1.
  apply Emits_bind.
  { apply Emits_foldM. intros tx2 file.
    apply Emits_bind; [apply Emits_orPanic|]. intros r.
    destruct (snd r); [|apply Emits_ret].
    apply Emits_bind; [apply Emits_orPanic|]. intros n. apply Emits_TxExec. }
  intros tx3. unfold Commit. apply Emits_bind; [now apply Emits_emit|]. intros _ w.
  split; [reflexivity|]. exists []. now rewrite app_nil_r.
Qed.

Lemma Emits_bootstrap (dbName : string) files :
  Emits isEngineEvent (bootstrap dbName files).
Proof.
  intros w. unfold bootstrap, QueryRow.
  set (w1 := mkWorld (db w) (fs w) (out w ++ [EvQuery VerType])).
  assert (forall {A} (m : M A), Emits isEngineEvent m ->
            fs (fst (m w1)) = fs w
            /\ exists evs, out (fst (m w1)) = (out w ++ evs)%list
                           /\ Forall isEngineEvent evs) as Hstep.
  { intros A m Hm. destruct (Hm w1) as (Hfs & evs & Hout & HP).
    split; [exact Hfs|]. exists (EvQuery VerType :: evs).
    rewrite Hout. subst w1. cbn [out]. rewrite <- app_assoc.
    split; [reflexivity | now constructor]. }
  destruct (queryVerType (meta (db w))) as [e|vertype].
  - destruct e; try (apply (Hstep _ (fail (VerTypeReadFailed _))), Emits_fail).
    apply Hstep. apply Emits_bind; [|intros _; apply Emits_runLegacyMigrations].
    unfold Exec. apply Emits_bind; [now apply Emits_emit|]. intros _ w'.
    destruct (pgExec CreateMetaTable (db w')); cbn [fst fs out];
      (split; [reflexivity|]); exists []; now rewrite app_nil_r.
  - destruct (negb _).
    + apply (Hstep _ (ret tt)), Emits_ret.
    + apply Hstep. apply Emits_bind; [now apply Emits_emit|]. intros _.
      apply Emits_switchoverFromAlbion.
Qed.

Lemma Emits_applyMissing files : Emits isEngineEvent (applyMissing files).
Proof.
  unfold applyMissing. apply Emits_bind.
  { eapply Emits_ext; [|apply (Emits_QueryRow Versions queryVersions
                                 (fun r => match r with
                                           | inl e => inl (Driver e)
                                           | inr rows =>
                                               inr (fold_left
                                                      (fun versions version =>
                                                         <[version := true]> versions)
                                                      rows ∅)
                                           end))].
    intros w. unfold getMigrationsInDB, QueryRow. now destruct (queryVersions _). }
  intros existing. apply Emits_bind.
  { apply Emits_foldM. intros nrun file.
    apply Emits_bind; [apply Emits_orPanic|]. intros n.
    destruct (negb _); [|apply Emits_ret].
    apply Emits_bind; [apply Emits_runMigration | intros _; apply Emits_ret]. }
  intros nrun. destruct (nrun =? 0)%nat; [now apply Emits_emit | apply Emits_ret].
Qed.

(** The engine never touches the files and never opens or closes a
    connection. *)
Lemma Emits_runMigrationsOn (dbName : string) files :
  Emits isEngineEvent (runMigrationsOn dbName files).
Proof.
  rewrite runMigrationsOn_bootstrap.
  apply Emits_bind; [apply Emits_bootstrap | intros _; apply Emits_applyMissing].
Qed.

End Frames.

(** ** Parsing and connecting *)

Section Connecting.

Context `{Env : Environment}.

Lemma makeConStr_suffix (c : dbCon) :
  sslmode c = "" -> Go.HasSuffix (makeConStr c) " sslmode=disable" = true.
Proof.
  intros H. unfold makeConStr. rewrite H. cbn [String.eqb negb].
  apply HasSuffix_append.
Qed.

Lemma parse_sslmode (dbStr : string) : sslmode (fst (parseDBConStr dbStr)) = "".
Proof.
  unfold parseDBConStr.
  destruct (negb (length (Go.Split ":" dbStr) =? 6)%nat); [reflexivity|].
  cbv zeta. cbn [driver].
  destruct (negb (String.eqb _ "postgres")); reflexivity.
Qed.

(** C8.  Parsing returns an error exactly when the string does not split
    at colons into six parts or the first part is not [postgres]; the
    error tells which.  Without an error the six parts are, in order,
    driver, host, port, database name, user and password.  With an error
    [runMigrations] returns it and leaves the system as it was: no
    connection is opened, nothing is read and nothing is printed. *)
Theorem parse_failure_iff (dbStr : string) :
  let parts := Go.Split ":" dbStr in
  let c := fst (parseDBConStr dbStr) in
  let err := snd (parseDBConStr dbStr) in
  (err <> None <-> length parts <> 6%nat \/ nth 0 parts "" <> "postgres")
  /\ (length parts <> 6%nat -> err = Some (InvalidConStr (length parts)))
  /\ (length parts = 6%nat -> nth 0 parts "" <> "postgres" ->
      err = Some (UnsupportedDriver (nth 0 parts "")))
  /\ (err = None ->
      parts = [driver c; host c; port c; dbname c; user c; password c])
  /\ (forall e, err = Some e ->
      forall (files : list string) (sys : System),
        runMigrations dbStr files sys = (sys, Some e)).
Proof.
  cbv zeta. unfold runMigrations, parseDBConStr.
  destruct (Nat.eqb_spec (length (Go.Split ":" dbStr)) 6) as [Hlen|Hlen];
    cbn [negb fst snd].
  - cbn [driver].
    destruct (String.eqb_spec (nth 0 (Go.Split ":" dbStr) "") "postgres") as [Hd|Hd];
      cbn [negb fst snd].
    + split; [split; [congruence | intros [?|?]; contradiction]|].
      split; [intros; contradiction|]. split; [intros; contradiction|].
      split; [|discriminate].
      intros _.
      destruct (Go.Split ":" dbStr) as [|p0 [|p1 [|p2 [|p3 [|p4 [|p5 [|p6 ps]]]]]]];
        try discriminate Hlen.
      reflexivity.
    + split; [split; [intros _; now right | discriminate]|].
      split; [intros; contradiction|]. split; [reflexivity|].
      split; [discriminate|]. now intros e [= <-] files sys.
  - split; [split; [intros _; now left | discriminate]|].
    split; [reflexivity|]. split; [intros; contradiction|].
    split; [discriminate|]. now intros e [= <-] files sys.
Qed.

(** The outcomes of [connectOrCreate]. *)
Lemma connectOrCreate_cases (con : dbCon) (sys : System) :
  let root := mkDbCon (driver con) (host con) (port con) "postgres"
                      (user con) (password con) (sslmode con) in
  connectOrCreate con sys
  = if registered (driver con) then
      match cluster sys !! dbname con with
      | Some _ =>
          (mkSystem (cluster sys) (files sys)
                    (output sys ++ [EvOpen (makeConStr con); EvProbe]),
           inr (dbname con))
      | None =>
          match createDatabase (dbname con) (cluster sys) with
          | inl e =>
              (mkSystem (cluster sys) (files sys)
                        (output sys ++ [EvOpen (makeConStr con); EvProbe;
                                        EvOpen (makeConStr root);
                                        EvCreateDatabase (dbname con); EvClose]),
               inl (CreateDatabaseFailed (conString con) e))
          | inr cl =>
              (mkSystem cl (files sys)
                        (output sys ++ [EvOpen (makeConStr con); EvProbe;
                                        EvOpen (makeConStr root);
                                        EvCreateDatabase (dbname con); EvClose;
                                        EvOpen (makeConStr con)]),
               inr (dbname con))
          end
      end
    else (sys, inl (ConnectRootFailed (conString root) (conString con)
                                      (UnknownDriver (driver con)))).
Proof.
  cbv zeta. unfold connectOrCreate, sqlOpen, note. cbn [driver].
  destruct (registered (driver con)); [|reflexivity].
  cbn [cluster files output].
  destruct (cluster sys !! dbname con);
    [now rewrite <- app_assoc|].
  destruct (createDatabase (dbname con) (cluster sys));
    cbn [cluster files output]; rewrite <- !app_assoc; reflexivity.
Qed.

Lemma connectOrCreate_opens (con : dbCon) (sys : System) (conStr : string) :
  sslmode con = "" ->
  EvOpen conStr ∈ output (fst (connectOrCreate con sys)) ->
  EvOpen conStr ∈ output sys \/ Go.HasSuffix conStr " sslmode=disable" = true.
Proof.
  intros Hssl. rewrite connectOrCreate_cases. cbv zeta.
  assert (forall c' : dbCon, sslmode c' = "" ->
            EvOpen conStr = EvOpen (makeConStr c') ->
            Go.HasSuffix conStr " sslmode=disable" = true) as Hs.
  { intros c' Hc' [= ->]. now apply makeConStr_suffix. }
  pose proof (Hs (mkDbCon (driver con) (host con) (port con) "postgres"
                          (user con) (password con) (sslmode con)) Hssl) as Hroot.
  destruct (registered (driver con)); [|now left].
  destruct (cluster sys !! dbname con); cbn [fst output].
  - rewrite elem_of_app, !elem_of_cons, elem_of_nil.
    intros [H|[H|[H|[]]]]; [now left | right; now apply (Hs con) | discriminate].
  - destruct (createDatabase (dbname con) (cluster sys)); cbn [fst output];
      rewrite !elem_of_app, !elem_of_cons, !elem_of_nil.
    + intros [H|[H|[H|[H|[H|[H|[]]]]]]]; try discriminate;
        [now left | right; now apply (Hs con) | right; now apply Hroot].
    + intros [H|[H|[H|[H|[H|[H|[H|[]]]]]]]]; try discriminate;
        [now left | right; now apply (Hs con) | right; now apply Hroot
         | right; now apply (Hs con)].
Qed.

(** C10.  The descriptor the parser returns, with or without an error,
    has an empty [sslmode]; the connection string of a descriptor with an
    empty [sslmode] ends in [ sslmode=disable]; and every connection string
    that [runMigrations] opens, to the database or to the maintenance
    database, ends in [ sslmode=disable]. *)
Theorem sslmode_always_disabled (dbStr : string) (sqlFiles : list string) (sys : System) :
  sslmode (fst (parseDBConStr dbStr)) = ""
  /\ Go.HasSuffix (makeConStr (fst (parseDBConStr dbStr))) " sslmode=disable" = true
  /\ (forall c : dbCon,
         sslmode c = "" -> Go.HasSuffix (makeConStr c) " sslmode=disable" = true)
  /\ (forall conStr : string,
         EvOpen conStr ∈ output (fst (runMigrations dbStr sqlFiles sys)) ->
         EvOpen conStr ∈ output sys
         \/ Go.HasSuffix conStr " sslmode=disable" = true).
Proof.
  pose proof (parse_sslmode dbStr) as Hssl.
  split; [exact Hssl|]. split; [now apply makeConStr_suffix|].
  split; [exact makeConStr_suffix|].
  intros conStr. unfold runMigrations.
  destruct (parseDBConStr dbStr) as [con [err|]]; cbn [fst] in *; [now left|].
  pose proof (connectOrCreate_opens con sys conStr Hssl) as Hcon.
  destruct (connectOrCreate con sys) as [sys1 [err|name]]; cbn [fst] in *;
    [exact Hcon|].
  destruct (cluster sys1 !! name) as [d|]; cbn [fst output note].
  - destruct (Emits_runMigrationsOn (dbname con) sqlFiles
                (mkWorld d (files sys1) (output sys1)))
      as (_ & evs & Hout & Hev).
    destruct (runMigrationsOn _ _ _) as [w r]. cbn [fst output] in *.
    rewrite Hout. cbn [out]. rewrite !elem_of_app, elem_of_cons, elem_of_nil.
    intros [[H|H]|[H|[]]]; [now apply Hcon | | discriminate].
    rewrite Forall_forall in Hev. now apply Hev in H.
  - rewrite elem_of_app, !elem_of_cons, elem_of_nil.
    intros [H|[H|[H|[]]]]; [now apply Hcon | discriminate | discriminate].
Qed.

End Connecting.

(** * Further properties *)

Lemma pair_of_snd {A B} (x : A * B) (b : B) : snd x = b -> x = (fst x, b).
Proof. destruct x. cbn. congruence. Qed.

(** ** Connection strings *)

Section DescriptorFacts.

Lemma Split_Join (sep : ascii) (parts : list string) :
  parts <> [] ->
  Forall (fun p => hasByte sep p = false) parts ->
  Go.Split sep (Go.Join sep parts) = parts.
Proof.
  induction parts as [|p [|q ps] IH]; intros Hne HF; [contradiction| |].
  - inversion HF; subst. cbn [Go.Join]. now apply Split_free.
  - inversion HF as [|? ? Hp HF']; subst.
    change (Go.Join sep (p :: q :: ps))
      with (p ++ String sep (Go.Join sep (q :: ps))).
    rewrite (Split_cons _ _ _ Hp), IH; [reflexivity | discriminate | exact HF'].
Qed.

Lemma countByte_append (c : ascii) (a b : string) :
  countByte c (a ++ b) = (countByte c a + countByte c b)%nat.
Proof. induction a as [|x a IH]; cbn [countByte String.append]; [reflexivity | lia]. Qed.

Lemma Split_length (sep : ascii) (s : string) :
  length (Go.Split sep s) = S (countByte sep s).
Proof.
  induction s as [|c s IH]; [reflexivity|]. cbn [Go.Split countByte].
  destruct (Ascii.eqb c sep); cbn [length].
  - now rewrite IH.
  - destruct (Go.Split sep s) as [|p ps]; cbn [length] in *; lia.
Qed.

(** X1.  Parsing undoes formatting: six colon-free fields joined with
    colons parse into exactly those fields, with an empty [sslmode]; the
    error is [nil] for the driver [postgres] and [UnsupportedDriver]
    otherwise, and in both cases the descriptor is filled in. *)
Theorem parse_formatted (drv h p d u pw : string) :
  Forall (fun f => hasByte ":" f = false) [drv; h; p; d; u; pw] ->
  parseDBConStr (Go.Join ":" [drv; h; p; d; u; pw])
  = (mkDbCon drv h p d u pw "",
     if String.eqb drv "postgres" then None else Some (UnsupportedDriver drv)).
Proof.
  intros HF. unfold parseDBConStr.
  rewrite Split_Join; [| discriminate | exact HF].
  cbn [length Nat.eqb negb nth driver].
  destruct (String.eqb drv "postgres"); reflexivity.
Qed.

Lemma parse_formatted_witness :
  parseDBConStr (Go.Join ":" ["postgres"; "localhost"; "0"; "newdb"; "u"; "p"])
  = (mkDbCon "postgres" "localhost" "0" "newdb" "u" "p" "", None).
Proof.
  apply (parse_formatted "postgres" "localhost" "0" "newdb" "u" "p").
  repeat constructor.
Defined.

(** X2.  The parser counts colons and nothing else: a string with [k]
    colons has [k + 1] parts, so six fields of which one holds a colon are
    rejected as malformed, with the number of parts in the error; no
    escaping makes a colon part of a field. *)
Theorem colon_in_field_rejected (f0 f1 f2 f3 f4 f5 : string) :
  let extra :=
    (countByte ":" f0 + countByte ":" f1 + countByte ":" f2
     + countByte ":" f3 + countByte ":" f4 + countByte ":" f5)%nat in
  extra <> 0%nat ->
  parseDBConStr (Go.Join ":" [f0; f1; f2; f3; f4; f5])
  = (zeroCon, Some (InvalidConStr (6 + extra))).
Proof.
  intros extra Hextra. unfold parseDBConStr.
  assert (length (Go.Split ":" (Go.Join ":" [f0; f1; f2; f3; f4; f5]))
          = (6 + extra)%nat) as Hlen.
  { rewrite Split_length. cbn [Go.Join].
    repeat (rewrite countByte_append; cbn [countByte Ascii.eqb Bool.eqb]).
    subst extra. lia. }
  rewrite Hlen.
  destruct (Nat.eqb_spec (6 + extra) 6) as [Heq|_]; [lia | reflexivity].
Qed.

Lemma colon_in_field_rejected_witness :
  parseDBConStr "postgres:localhost:5432:main:imqs:se:cret"
  = (zeroCon, Some (InvalidConStr 7)).
Proof.
  apply (colon_in_field_rejected "postgres" "localhost" "5432" "main" "imqs" "se:cret").
  vm_compute. discriminate.
Defined.

End DescriptorFacts.

(** ** File names *)

Section NameFacts.

Context `{Env : Environment}.

Lemma dropLast4_None (s : string) :
  Go.dropLast4 s = None <-> (String.length s < 4)%nat.
Proof.
  unfold Go.dropLast4.
  destruct (Nat.ltb_spec (String.length s) 4); split; intros; try lia;
    try discriminate; reflexivity.
Qed.

Lemma digit_range (c : ascii) (d : Z) : Go.digit c = Some d -> 0 <= d <= 9.
Proof.
  unfold Go.digit. destruct (Go.isDigit c) eqn:E; [|discriminate].
  intros [= <-]. apply isDigit_range in E. lia.
Qed.

Lemma digits_nonneg (s : string) (acc n : Z) :
  0 <= acc -> Go.digits acc s = Some n -> 0 <= n.
Proof.
  revert acc. induction s as [|c s IH]; intros acc Hacc; cbn [Go.digits].
  - intros [= <-]. exact Hacc.
  - destruct (Go.digit c) as [d|] eqn:E; [|discriminate].
    apply digit_range in E. apply IH. lia.
Qed.

(** A numeral without a dash is not negative. *)
Lemma decimal_nonneg (s : string) (n : Z) :
  hasByte "-" s = false -> Go.decimal s = Some n -> 0 <= n.
Proof.
  destruct s as [|c s]; [discriminate|]. cbn [hasByte]. intros Hfree.
  apply orb_false_elim in Hfree as [Hc _].
  unfold Go.decimal. rewrite Hc.
  destruct (Ascii.eqb c "+").
  - destruct s as [|c' s']; [discriminate|].
    destruct (Go.digits 0 (String c' s')) as [m|] eqn:E; [|discriminate].
    intros [= <-]. now apply (digits_nonneg _ 0 m) in E.
  - destruct (Go.digits 0 (String c s)) as [m|] eqn:E; [|discriminate].
    intros [= <-]. now apply (digits_nonneg _ 0 m) in E.
Qed.

(** X4.  The version of a legacy file [0000-X.sql] is read from X
    without the plus sign it may start with: it is the number X denotes
    when X is a decimal numeral below 2^31, and the bound 2147483647 when
    the numeral is larger; when X is no numeral it is 0, unless the digits
    X starts with already go beyond 32 bits, in which case it is the bound
    again, whatever follows them.  The file is a legacy file in all
    cases. *)
Theorem legacy_version_value (file x : string) :
  Go.Base file = ("0000-" ++ x) ++ ".sql" ->
  x <> "" ->
  hasByte "-" x = false ->
  legacyMigrationVersion file
  = Some (if 4294967295 <? decimalValue 0 (leadingDigits (unsigned x))
          then 2147483647
          else if String.eqb (leadingDigits (unsigned x)) (unsigned x)
                  && negb (String.eqb (unsigned x) "")
               then Z.min (decimalValue 0 (unsigned x)) 2147483647
               else 0,
          true).
Proof.
  intros HB Hx Hfree.
  rewrite (legacyMigrationVersion_stem file _ HB). cbv zeta.
  change ("0000-" ++ x) with ("0000" ++ String "-" x).
  rewrite Split_cons by reflexivity. rewrite (Split_free _ _ Hfree).
  cbn [length Nat.eqb negb nth String.eqb Ascii.eqb Bool.eqb orb].
  destruct (String.length x =? 0)%nat eqn:Hlen.
  - destruct x; [contradiction | discriminate].
  - now rewrite (ParseInt32_unsigned _ Hx Hfree).
Qed.

Lemma legacy_version_value_witness :
  legacyMigrationVersion "m/0000-99999999999abc.sql" = Some (2147483647, true).
Proof.
  apply (legacy_version_value "m/0000-99999999999abc.sql" "99999999999abc");
    [reflexivity | discriminate | reflexivity].
Defined.

Lemma legacyMigrationVersion_range (file : string) (v : Z) (isLegacy : bool) :
  legacyMigrationVersion file = Some (v, isLegacy) ->
  0 <= v <= 2147483647 /\ (isLegacy = false -> v = 0).
Proof.
  unfold legacyMigrationVersion.
  destruct (Go.dropLast4 (Go.Base file)) as [s|]; [|discriminate]. cbv zeta.
  pose proof (Split_parts "-" s) as HP.
  destruct (negb _ || negb _ || _) eqn:E.
  - intros [= <- <-]. split; [lia | reflexivity].
  - intros [= <- <-]. split; [|discriminate].
    assert (hasByte "-" (nth 1 (Go.Split "-" s) "") = false) as Hfree.
    { destruct (Go.Split "-" s) as [|p0 [|p1 ps]]; try reflexivity.
      inversion HP as [|? ? _ HP']; subst. now inversion HP'. }
    now apply ParseInt32_range.
Qed.

Lemma legacyMigrationVersion_None (file : string) :
  legacyMigrationVersion file = None <-> (String.length (Go.Base file) < 4)%nat.
Proof.
  rewrite <- dropLast4_None. unfold legacyMigrationVersion.
  destruct (Go.dropLast4 (Go.Base file)); [|tauto]. cbv zeta.
  destruct (negb _ || negb _ || _); split; discriminate.
Qed.

(** X3.  [legacyMigrationVersion] and [migrationNameFromFile] panic on
    exactly the same files, those whose base name has fewer than four
    bytes; otherwise the version lies between 0 and 2147483647 and is 0
    for a file that is not a legacy file. *)
Theorem name_functions_domain (file : string) :
  (legacyMigrationVersion file = None <-> (String.length (Go.Base file) < 4)%nat)
  /\ (migrationNameFromFile unicodeToLower file = None
      <-> (String.length (Go.Base file) < 4)%nat)
  /\ (forall (v : Z) (isLegacy : bool),
         legacyMigrationVersion file = Some (v, isLegacy) ->
         0 <= v <= 2147483647 /\ (isLegacy = false -> v = 0)).
Proof.
  split; [apply legacyMigrationVersion_None|].
  split; [|apply legacyMigrationVersion_range].
  - rewrite <- dropLast4_None. unfold migrationNameFromFile.
    destruct (Go.dropLast4 (Go.Base file)); [split; discriminate | tauto].
Qed.

Lemma legacyVersions_range (files : list string) :
  Forall (fun v => 0 <= v <= 2147483647) (legacyVersions files).
Proof.
  apply Forall_forall. intros v Hv. unfold legacyVersions in Hv.
  apply list_elem_of_omap in Hv as (file & _ & Hf).
  destruct (legacyMigrationVersion file) as [[v' [|]]|] eqn:E; try discriminate.
  injection Hf as <-. now apply legacyMigrationVersion_range in E.
Qed.

(** X5.  [maxLegacyMigrationVersion] panics exactly when some base name
    has fewer than four bytes; otherwise its result bounds the version of
    every legacy file, is itself one of these versions or 0, is 0 when
    there is no legacy file, and lies between 0 and 2147483647. *)
Theorem maxLegacy_is_maximum (files : list string) :
  (maxLegacyMigrationVersion files = None
   <-> Exists (fun file => (String.length (Go.Base file) < 4)%nat) files)
  /\ (forall m : Z,
         maxLegacyMigrationVersion files = Some m ->
         Forall (fun v => v <= m) (legacyVersions files)
         /\ (m = 0 \/ m ∈ legacyVersions files)
         /\ (legacyVersions files = [] -> m = 0)
         /\ 0 <= m <= 2147483647).
Proof.
  split.
  - unfold maxLegacyMigrationVersion. generalize 0.
    induction files as [|file files IH]; intros m; cbn [maxLegacyMigrationVersionFrom].
    + split; [discriminate | intros H; inversion H].
    + destruct (legacyMigrationVersion file) as [[v b]|] eqn:E.
      * rewrite IH. split; [now right|].
        intros H. inversion H as [? ? Hs|]; subst; [|assumption].
        apply legacyMigrationVersion_None in Hs. congruence.
      * split; [|reflexivity]. intros _. left. now apply legacyMigrationVersion_None.
  - intros m Hm. apply maxLegacy_running in Hm.
    destruct (fold_left_max (legacyVersions files) 0) as [Hin Hall].
    rewrite <- Hm in Hin, Hall.
    apply Forall_cons in Hall as [H0 Hrest].
    split; [exact Hrest|]. split; [|split].
    + apply elem_of_cons in Hin as [?|?]; [now left | now right].
    + intros Hnil. rewrite Hnil in Hin. apply elem_of_cons in Hin as [?|Hin];
        [assumption | now apply elem_of_nil in Hin].
    + apply elem_of_cons in Hin as [->|Hin]; [lia|].
      pose proof (legacyVersions_range files) as HR.
      rewrite Forall_forall in HR. now apply HR.
Qed.

(** *** Directories and case *)

Lemma strip_free (b : string) :
  Go.hasSeparator b = false -> Go.stripTrailingSeparators b = b.
Proof.
  induction b as [|c b IH]; [reflexivity|]. cbn [Go.hasSeparator Go.stripTrailingSeparators].
  intros H. apply orb_false_elim in H as [Hc Hb]. now rewrite (IH Hb), Hc.
Qed.

Lemma hasSeparator_append (a b : string) :
  Go.hasSeparator (a ++ b) = Go.hasSeparator a || Go.hasSeparator b.
Proof.
  induction a as [|c a IH]; [reflexivity|]. cbn [String.append Go.hasSeparator].
  now rewrite IH, orb_assoc.
Qed.

Lemma lastElement_join (a b : string) :
  Go.hasSeparator b = false -> Go.lastElement (a ++ String "/" b) = b.
Proof.
  intros Hb. induction a as [|c a IH]; cbn [String.append Go.lastElement].
  - now rewrite Hb.
  - rewrite hasSeparator_append. cbn [Go.hasSeparator].
    change (Go.isSeparator "/") with true. rewrite orb_true_r. exact IH.
Qed.

Lemma Base_join (dir base : string) :
  base <> "" -> Go.hasSeparator base = false ->
  Go.Base (dir ++ String "/" base) = base /\ Go.Base base = base.
Proof.
  intros Hne Hfree. unfold Go.Base.
  assert (String.eqb base "" = false) as Hb by now apply String.eqb_neq.
  rewrite Hb, (strip_free _ Hfree), (lastElement_free _ Hfree), Hb.
  split; [|reflexivity].
  assert (String "/" base <> "") as Hne' by discriminate.
  rewrite (append_not_nil dir _ Hne').
  rewrite strip_append.
  - now rewrite (lastElement_join _ _ Hfree), Hb.
  - exact Hne'.
  - cbn [Go.stripTrailingSeparators]. rewrite (strip_free _ Hfree), Hb.
    now rewrite andb_false_r.
Qed.

(** X6.  Only the base name counts: a file has the same migration name
    and the same legacy version in whatever directory it lies, so two
    files of the same base name in two directories are one migration. *)
Theorem name_ignores_directory (dir base : string) :
  base <> "" ->
  Go.hasSeparator base = false ->
  migrationNameFromFile unicodeToLower (dir ++ String "/" base)
  = migrationNameFromFile unicodeToLower base
  /\ legacyMigrationVersion (dir ++ String "/" base) = legacyMigrationVersion base.
Proof.
  intros Hne Hfree. destruct (Base_join dir base Hne Hfree) as [H1 H2].
  unfold migrationNameFromFile, legacyMigrationVersion. now rewrite H1, H2.
Qed.


(** X7.  The migration name of a file whose stem is ASCII has no capital
    letter, is as long as the stem, and is its own lower-case form: names
    that differ in case only are one name. *)
Theorem name_is_lowercase (file stem : string) :
  Go.Base file = stem ++ ".sql" ->
  Go.isASCII stem = true ->
  exists n : string,
    migrationNameFromFile unicodeToLower file = Some n
    /\ allBytes (fun c => negb (Go.isUpper c)) n = true
    /\ String.length n = String.length stem
    /\ Go.ToLower unicodeToLower n = n
    /\ (forall file' stem' : string,
           Go.Base file' = stem' ++ ".sql" ->
           Go.isASCII stem' = true ->
           Go.mapBytes Go.lowerByte stem' = Go.mapBytes Go.lowerByte stem ->
           migrationNameFromFile unicodeToLower file' = Some n).
Proof.
  intros HB HA. exists (Go.mapBytes Go.lowerByte stem).
  destruct (mapBytes_lower_fixed stem) as (H1 & H2 & H3).
  split; [|split; [exact H1 | split; [exact H3 | split]]].
  - unfold migrationNameFromFile, Go.ToLower. now rewrite HB, dropLast4_sql, HA.
  - unfold Go.ToLower. now rewrite (isASCII_lower _ HA), H2.
  - intros file' stem' HB' HA' Heq.
    unfold migrationNameFromFile, Go.ToLower. now rewrite HB', dropLast4_sql, HA', Heq.
Qed.


End NameFacts.

Lemma name_ignores_directory_witness :
  migrationNameFromFile (@unicodeToLower testEnv) "a/b/2018-01-15-x.sql"
  = migrationNameFromFile (@unicodeToLower testEnv) "2018-01-15-x.sql".
Proof.
  apply (@name_ignores_directory testEnv "a/b" "2018-01-15-x.sql");
    [discriminate | reflexivity].
Defined.

Lemma name_is_lowercase_witness :
  exists n : string,
    migrationNameFromFile (@unicodeToLower testEnv) "m/2018-01-15-Add-Index.sql" = Some n
    /\ n = "2018-01-15-add-index".
Proof.
  destruct (@name_is_lowercase testEnv "m/2018-01-15-Add-Index.sql" "2018-01-15-Add-Index"
              eq_refl eq_refl) as (n & Hn & _).
  exists n. split; [exact Hn|].
  vm_compute in Hn. now injection Hn as <-.
Defined.

(** ** Connecting, and single steps of the engine *)

Section StepFacts.

Context `{Env : Environment}.

Implicit Types (w : World) (file : string) (files : list string).

Lemma connect_or_create_files (con : dbCon) (sys : System) :
  files (fst (connectOrCreate con sys)) = files sys
  /\ (forall h, snd (connectOrCreate con sys) = inr h -> h = dbname con).
Proof.
  rewrite connectOrCreate_cases. cbv zeta.
  destruct (registered (driver con)); cbn [fst snd files];
    [|split; [reflexivity | discriminate]].
  destruct (cluster sys !! dbname con); cbn [fst snd files].
  - split; [reflexivity | now intros h [= <-]].
  - destruct (createDatabase (dbname con) (cluster sys)); cbn [fst snd files].
    + split; [reflexivity | discriminate].
    + split; [reflexivity | now intros h [= <-]].
Qed.


(** X9.  Once connected, [runMigrations] closes the connection whether
    the engine fails or not: what it adds to the events of connecting are
    events of the engine followed by one [Close]; it never changes a file,
    and no database other than the one named is changed. *)
Theorem run_closes_connection
        (dbStr : string) (sqlFiles : list string) (sys sys1 : System)
        (con : dbCon) (name : string) :
  parseDBConStr dbStr = (con, None) ->
  connectOrCreate con sys = (sys1, inr name) ->
  exists evs : list Event,
    output (fst (runMigrations dbStr sqlFiles sys))
    = (output sys1 ++ evs ++ [EvClose])%list
    /\ Forall isEngineEvent evs
    /\ files (fst (runMigrations dbStr sqlFiles sys)) = files sys
    /\ (forall k : string,
           k <> name ->
           cluster (fst (runMigrations dbStr sqlFiles sys)) !! k = cluster sys1 !! k).
Proof.
  intros Hparse Hcon. unfold runMigrations. rewrite Hparse, Hcon.
  assert (files sys1 = files sys) as Hfiles.
  { pose proof (proj1 (connect_or_create_files con sys)) as H.
    now rewrite Hcon in H. }
  destruct (cluster sys1 !! name) as [d|]; cbn [fst].
  - destruct (Emits_runMigrationsOn (dbname con) sqlFiles
                (mkWorld d (files sys1) (output sys1))) as (Hfs & evs & Hout & Hev).
    destruct (runMigrationsOn _ _ _) as [w r]. cbn [fst fs out] in *.
    exists evs. cbn [output files cluster].
    split; [now rewrite Hout, app_assoc|]. split; [exact Hev|].
    split; [congruence|].
    intros k Hk. now rewrite lookup_insert_ne.
  - exists [EvQuery VerType]. cbn [note output files cluster].
    repeat split; [repeat constructor | exact Hfiles].
Qed.

(** X10.  One migration is all or nothing: when [runMigration] returns an
    error the database is the one it found, and when it returns [nil] the
    database is the one its script and then its insert produced.  A file
    that cannot be read fails before any transaction is begun, with an
    error that carries the path.  The files are never changed. *)
Theorem migration_is_atomic file w :
  fs (fst (runMigration file w)) = fs w
  /\ (forall e, snd (runMigration file w) = inl e ->
      db (fst (runMigration file w)) = db w)
  /\ (forall u, snd (runMigration file w) = inr u ->
      exists sql tx,
        fs w !! file = Some sql
        /\ pgExec (Script sql) (db w) = inr tx
        /\ pgExec (InsertVersion (nameOf file)) tx = inr (db (fst (runMigration file w))))
  /\ (fs w !! file = None ->
      runMigration file w
      = (mkWorld (db w) (fs w) (out w ++ [EvReadFile file]),
         inl (ReadFileFailed file)))
  /\ message (ReadFileFailed file)
     = "Error reading migration file " ++ file ++ ": open " ++ file
         ++ ": no such file or directory".
Proof.
  assert (fs w !! file = None ->
          runMigration file w
          = (mkWorld (db w) (fs w) (out w ++ [EvReadFile file]),
             inl (ReadFileFailed file))) as Hmissing.
  { intros Hnone. rewrite runMigration_cases, Hnone. reflexivity. }
  destruct (runMigration file w) as [w' [e|u]] eqn:E; cbn [fst snd].
  - destruct (runMigration_failed _ _ _ _ E) as [Hdb Hfs].
    split; [exact Hfs|]. split; [now intros|]. split; [discriminate|].
    split; [exact Hmissing | reflexivity].
  - destruct (runMigration_committed _ _ _ _ E)
      as (sql & tx & Hsql & _ & Hs & Hi & Hfs & _).
    split; [exact Hfs|]. split; [discriminate|].
    split; [intros _ _; now exists sql, tx|].
    split; [exact Hmissing | reflexivity].
Qed.

(** X11.  The applied set is the set of rows: on a table of this system
    [getMigrationsInDB] returns a map in which a name reads [true] exactly
    when it is a row, however often; on a database without the table it
    returns the driver's error. *)
Theorem applied_set_lookup w :
  (forall rows : list string,
      meta (db w) = Current rows ->
      exists existing : gmap string bool,
        getMigrationsInDB w
        = (mkWorld (db w) (fs w) (out w ++ [EvQuery Versions]), inr existing)
        /\ forall n : string, mapIndex existing n = true <-> n ∈ rows)
  /\ (meta (db w) = Absent ->
      getMigrationsInDB w
      = (mkWorld (db w) (fs w) (out w ++ [EvQuery Versions]),
         inl (Driver UndefinedTable))).
Proof.
  split.
  - intros rows Hm.
    destruct (getMigrationsInDB_current w rows Hm) as (existing & Hq & Hex).
    exists existing. split; [exact Hq|].
    intros n. rewrite Hex. apply bool_decide_eq_true.
  - intros Hm. unfold getMigrationsInDB, QueryRow. now rewrite Hm.
Qed.

(** X12.  An Albion table without rows cannot be switched over: its
    [max(version)] is NULL, which does not scan into an [int], so the run
    fails with the read error whatever the files are, even when there is
    no legacy file and the expected version is 0; nothing is written. *)
Theorem empty_legacy_table (dbName : string) files w :
  meta (db w) = Legacy [] ->
  runMigrationsOn dbName files w
  = (mkWorld (db w) (fs w)
             (out w ++ [EvQuery VerType;
                        EvPrint ("Switching " ++ dbName
                                   ++ " over from Albion migration system" ++ newline);
                        EvQuery MaxVersion]),
     inl (MaxVersionReadFailed NullIntoInt)).
Proof.
  intros Hm. rewrite runMigrationsOn_bootstrap. unfold bind.
  rewrite (bootstrap_legacy _ _ _ _ Hm).
  unfold switchoverFromAlbion, QueryRow, addEvents. unfold bind at 1.
  cbn [db fs out]. rewrite Hm. cbn [queryMaxVersion].
  now rewrite <- app_assoc.
Qed.

End StepFacts.

Lemma run_closes_connection_witness :
  let sys := @mkSystem testEnv {[ "postgres" := testDb Absent [] ]}
                       (list_to_map readmeContent) [] in
  exists evs : list Event,
    output (fst (runMigrations "postgres:localhost:0:newdb:u:p" readmeFiles sys))
    = (output (fst (connectOrCreate
                      (fst (parseDBConStr "postgres:localhost:0:newdb:u:p")) sys))
         ++ evs ++ [EvClose])%list.
Proof.
  intros sys.
  destruct (@run_closes_connection
              testEnv "postgres:localhost:0:newdb:u:p" readmeFiles sys
              (fst (connectOrCreate
                      (fst (parseDBConStr "postgres:localhost:0:newdb:u:p")) sys))
              (fst (parseDBConStr "postgres:localhost:0:newdb:u:p")) "newdb")
    as (evs & Hout & _).
  - reflexivity.
  - apply pair_of_snd. vm_compute. reflexivity.
  - exists evs. exact Hout.
Defined.

Lemma empty_legacy_table_witness :
  snd (runMigrationsOn "main" ["m/2018-01-15-a.sql"]
                       (testWorld (Legacy []) readmeContent))
  = inl (MaxVersionReadFailed NullIntoInt).
Proof.
  rewrite (@empty_legacy_table testEnv "main" ["m/2018-01-15-a.sql"]
             (testWorld (Legacy []) readmeContent) eq_refl).
  reflexivity.
Defined.

(** ** Runs from a fresh and from a legacy database *)

Section MoreRuns.

Context `{Env : Environment}.

Implicit Types (w : World) (file : string) (files : list string).

(** X13.  The table a fresh bootstrap creates is created outside any
    transaction: when a legacy migration then fails, the run ends with its
    error before the applied names are even asked for, and the database
    keeps the table with the names of the legacy files applied before, so
    that the next run finds a database of this system. *)
Theorem fresh_bootstrap_failure
        (dbName : string) files w (pre post : list string) file w1 w2 (e : Error) :
  ScriptsKeepMeta ->
  Forall (fun file => isSqlPath file = true) files ->
  meta (db w) = Absent ->
  filter (fun file => isLegacyFile file = true) files = (pre ++ file :: post)%list ->
  forEach runMigration pre
          (mkWorld (setMeta (Current []) (db w)) (fs w)
                   (out w ++ [EvQuery VerType; EvExec CreateMetaTable]))
    = (w1, inr tt) ->
  runMigration file w1 = (w2, inl e) ->
  runMigrationsOn dbName files w = (w2, inl e)
  /\ meta (db w2) = Current (map nameOf pre)
  /\ (forall files', bootstrap dbName files' w2
                     = (mkWorld (db w2) (fs w2) (out w2 ++ [EvQuery VerType]), inr tt)).
Proof.
  intros HK HF Hm Hleg Hpre Hfail.
  pose proof (fun Hm0 => forEach_runMigration_committed _ _ _ _ [] HK Hm0 Hpre) as H.
  destruct (H eq_refl) as (Hm1 & _). clear H. cbn [app] in Hm1.
  destruct (runMigration_failed _ _ _ _ Hfail) as [Hdb _].
  assert (meta (db w2) = Current (map nameOf pre)) as Hm2 by now rewrite Hdb.
  split; [|split; [exact Hm2|]].
  - rewrite runMigrationsOn_bootstrap. unfold bind.
    rewrite (bootstrap_fresh _ _ _ Hm), (runLegacyMigrations_filter _ _ HF), Hleg.
    now rewrite forEach_app, Hpre, forEach_cons, Hfail.
  - intros files'. now rewrite (bootstrap_current _ _ _ _ Hm2).
Qed.

(** X14.  The counter behind "Database is up to date" counts the main
    loop only: on a fresh database and a list of legacy files alone, a run
    that succeeds has applied every file and still prints that the
    database is up to date. *)
Theorem fresh_legacy_only_reports_up_to_date (dbName : string) files w w' (u : unit) :
  ScriptsKeepMeta ->
  Forall (fun file => isSqlPath file = true) files ->
  Forall (fun file => isLegacyFile file = true) files ->
  meta (db w) = Absent ->
  runMigrationsOn dbName files w = (w', inr u) ->
  meta (db w') = Current (map nameOf files)
  /\ out w' = (out w ++ [EvQuery VerType; EvExec CreateMetaTable]
                 ++ flat_map (appliedEvents (fs w)) files
                 ++ [EvQuery Versions; upToDate])%list.
Proof.
  intros HK HF HL Hm. rewrite runMigrationsOn_bootstrap. unfold bind at 1.
  rewrite (bootstrap_fresh _ _ _ Hm), (runLegacyMigrations_filter _ _ HF).
  rewrite filter_all by (intros x Hx; rewrite Forall_forall in HL; now apply HL).
  destruct (forEach runMigration files _) as [w1 [e|[]]] eqn:Hloop; [discriminate|].
  pose proof (fun Hm0 => forEach_runMigration_committed _ _ _ _ [] HK Hm0 Hloop) as H.
  destruct (H eq_refl) as (Hm1 & _ & _ & Hfs1 & Hout1). clear H. cbn [app] in Hm1.
  rewrite (applyMissing_current _ _ _ Hm1 HF).
  rewrite pending_nil by (intros f Hf; now apply (list_elem_of_fmap_2 nameOf)).
  rewrite forEach_nil, addEvents_app. intros [= <-].
  cbn [db out addEvents fs] in *. split; [exact Hm1|].
  rewrite Hout1. now rewrite <- !app_assoc.
Qed.

(** X15.  On an Albion database whose largest version matches the files,
    a run that succeeds has recorded the legacy files without reading or
    executing them and has applied the other files, in the order of the
    list; the table holds the legacy names followed by the other names. *)
Theorem legacy_database_run
        (dbName : string) files w (rows : list Z) (m : Z) w' (u : unit) :
  ScriptsKeepMeta ->
  Forall (fun file => isSqlPath file = true) files ->
  NoDup (map nameOf files) ->
  meta (db w) = Legacy rows ->
  queryMaxVersion (Legacy rows) = inr m ->
  maxLegacyMigrationVersion files = Some m ->
  runMigrationsOn dbName files w = (w', inr u) ->
  meta (db w') = Current (legacyNames files ++ map nameOf (standardFiles files))
  /\ out w' = (out w
                 ++ [EvQuery VerType;
                     EvPrint ("Switching " ++ dbName
                                ++ " over from Albion migration system" ++ newline);
                     EvQuery MaxVersion; EvBegin; EvTxExec DropAndCreateMetaTable]
                 ++ insertEvents (legacyNames files)
                 ++ [EvCommit; EvQuery Versions]
                 ++ flat_map (appliedEvents (fs w)) (standardFiles files)
                 ++ match standardFiles files with
                    | [] => [upToDate]
                    | _ => []
                    end)%list.
Proof.
  intros HK HF Hnd Hm Hq Hmax. rewrite runMigrationsOn_bootstrap. unfold bind at 1.
  rewrite (bootstrap_legacy _ _ _ _ Hm).
  set (w0 := addEvents _ w).
  rewrite (switchover_loop w0 files rows m HF Hm Hq Hmax).
  destruct (dropRefused (db w0)); [discriminate|].
  destruct (decide (NoDup (legacyNames files))) as [Hnl|Hdup].
  2:{ destruct (insertLoop_clash
                  (legacyNames files) [] (setMeta (Current []) (db w0))
                  (addEvents [EvQuery MaxVersion; EvBegin;
                              EvTxExec DropAndCreateMetaTable] w0) eq_refl)
        as (pre & n & post & _ & _ & Hloop).
      - intros [? _]. contradiction.
      - rewrite Hloop. discriminate. }
  rewrite (insertLoop_ok (legacyNames files) [] (setMeta (Current []) (db w0))
             _ eq_refl Hnl)
    by (apply Forall_forall; intros n _ Hn; now apply elem_of_nil in Hn).
  cbn [app].
  set (w1 := mkWorld _ _ _).
  assert (meta (db w1) = Current (legacyNames files)) as Hm1 by reflexivity.
  rewrite (applyMissing_current _ _ _ Hm1 HF).
  unfold legacyNames at 1 2. rewrite (pending_legacy _ Hnd).
  destruct (forEach runMigration (standardFiles files) _) as [w2 [e|[]]] eqn:Hloop;
    [discriminate|].
  pose proof (fun Hm0 => forEach_runMigration_committed
                          _ _ _ _ (legacyNames files) HK Hm0 Hloop) as H.
  destruct (H Hm1) as (Hm2 & _ & _ & _ & Hout2). clear H.
  cbn [fs out addEvents w1 w0 db] in Hout2.
  intros Hres.
  assert (db w' = db w2
          /\ out w' = (out w2 ++ match standardFiles files with
                                 | [] => [upToDate] | _ => [] end)%list)
    as [Hdb Hout].
  { destruct (standardFiles files); injection Hres as <-; cbn [db out addEvents];
      rewrite ?app_nil_r; now split. }
  rewrite Hdb, Hout, Hm2, Hout2. split; [reflexivity|].
  rewrite <- !app_assoc. reflexivity.
Qed.

End MoreRuns.

Lemma fresh_bootstrap_failure_witness :
  let files := ["m/0000-0000.sql"; "m/0000-0001.sql"; "m/2018-01-15-a.sql"] in
  let content := [("m/0000-0000.sql", "CREATE TABLE a ()");
                  ("m/0000-0001.sql", "SELEC 1");
                  ("m/2018-01-15-a.sql", "CREATE TABLE c ()")] in
  let w := testWorld Absent content in
  let w0 := mkWorld (setMeta (Current []) (db w)) (fs w)
                    (out w ++ [EvQuery VerType; EvExec CreateMetaTable]) in
  let w1 := fst (forEach runMigration ["m/0000-0000.sql"] w0) in
  let w2 := fst (runMigration "m/0000-0001.sql" w1) in
  runMigrationsOn "newdb" files w
  = (w2, inl (Driver (ScriptRejected "pq: syntax error at or near SELEC")))
  /\ meta (db w2) = Current (map (@nameOf testEnv) ["m/0000-0000.sql"]).
Proof.
  intros files content w w0 w1 w2.
  destruct (@fresh_bootstrap_failure
              testEnv "newdb" files w ["m/0000-0000.sql"] [] "m/0000-0001.sql" w1 w2
              (Driver (ScriptRejected "pq: syntax error at or near SELEC"))
              testEnv_keeps_meta) as (H1 & H2 & _).
  - repeat constructor.
  - reflexivity.
  - vm_compute. reflexivity.
  - apply pair_of_snd. vm_compute. reflexivity.
  - apply pair_of_snd. vm_compute. reflexivity.
  - split; [exact H1 | exact H2].
Defined.

Lemma fresh_legacy_only_reports_up_to_date_witness :
  let files := ["m/0000-0000.sql"; "m/0000-0001.sql"] in
  let r := runMigrationsOn "newdb" files (acceptingWorld Absent readmeContent) in
  meta (db (fst r)) = Current (map (@nameOf acceptingEnv) files).
Proof.
  intros files r.
  refine (proj1 (@fresh_legacy_only_reports_up_to_date
                   acceptingEnv "newdb" files (acceptingWorld Absent readmeContent)
                   (fst r) tt acceptingEnv_keeps_meta _ _ _ _)).
  - repeat constructor.
  - repeat constructor.
  - reflexivity.
  - apply pair_of_snd. vm_compute. reflexivity.
Defined.

Lemma legacy_database_run_witness :
  let r := runMigrationsOn "legacydb" readmeFiles
                           (acceptingWorld (Legacy [0; 1]) readmeContent) in
  meta (db (fst r))
  = Current (@legacyNames acceptingEnv readmeFiles
               ++ map (@nameOf acceptingEnv) (standardFiles readmeFiles)).
Proof.
  intros r.
  refine (proj1 (@legacy_database_run
                   acceptingEnv "legacydb" readmeFiles
                   (acceptingWorld (Legacy [0; 1]) readmeContent) [0; 1] 1
                   (fst r) tt acceptingEnv_keeps_meta _ _ _ _ _ _)).
  - repeat constructor.
  - apply (bool_decide_unpack (NoDup _)). vm_compute. exact I.
  - reflexivity.
  - reflexivity.
  - reflexivity.
  - apply pair_of_snd. vm_compute. reflexivity.
Defined.

(** ** The discipline of transactions *)

Section Brackets.

Context `{Env : Environment}.

Implicit Types (w : World) (file : string) (files : list string).

Lemma bracketed_app (inTx : bool) (a b : list Event) :
  bracketed inTx a = true -> bracketed false b = true ->
  bracketed inTx (a ++ b) = true.
Proof.
  revert inTx. induction a as [|e a IH]; intros inTx Ha Hb; cbn [app].
  - destruct inTx; [discriminate | exact Hb].
  - cbn [bracketed] in *.
    destruct e as [| | | |q|[]| |s| | | |]; try discriminate;
      try (apply andb_prop in Ha as [H1 H2]; rewrite H1; cbn [andb]);
      now apply IH.
Qed.

Lemma Balanced_ret {A} (a : A) : Balanced (ret a).
Proof. intros w. exists []. now rewrite app_nil_r. Qed.

Lemma Balanced_fail {A} (e : Error) : Balanced (@fail _ A e).
Proof. intros w. exists []. now rewrite app_nil_r. Qed.

Lemma Balanced_orPanic {A} (o : option A) : Balanced (orPanic o).
Proof. destruct o; [apply Balanced_ret | apply Balanced_fail]. Qed.

Lemma Balanced_bind {A B} (m : M A) (k : A -> M B) :
  Balanced m -> (forall a, Balanced (k a)) -> Balanced (bind m k).
Proof.
  intros Hm Hk w. unfold bind.
  destruct (Hm w) as (evs & Hout & Hb).
  destruct (m w) as [w1 [e|a]]; cbn [fst] in *; [now exists evs|].
  destruct (Hk a w1) as (evs' & Hout' & Hb').
  exists (evs ++ evs')%list. rewrite Hout', Hout, app_assoc.
  split; [reflexivity | now apply bracketed_app].
Qed.

Lemma Balanced_foldM {A S} (body : S -> A -> M S) (l : list A) (s : S) :
  (forall s x, x ∈ l -> Balanced (body s x)) -> Balanced (foldM body l s).
Proof.
  revert s. induction l as [|x l IH]; intros s Hb; cbn [foldM].
  - apply Balanced_ret.
  - apply Balanced_bind.
    + apply Hb, elem_of_cons. now left.
    + intros s'. apply IH. intros s'' y Hy. apply Hb, elem_of_cons. now right.
Qed.

Lemma Balanced_runMigration file :
  isSqlPath file = true -> Balanced (runMigration file).
Proof.
  intros Hf w. rewrite runMigration_cases, (sqlPath_name _ Hf).
  destruct (fs w !! file) as [sql|]; [|eexists; split; reflexivity].
  cbv zeta.
  destruct (pgExec (Script sql) (db w)) as [e|tx]; [eexists; split; reflexivity|].
  destruct (pgExec (InsertVersion (nameOf file)) tx) as [e|tx'];
    eexists; split; reflexivity.
Qed.

Lemma TxExec_cases (s : Stmt) (tx : Database Data) w :
  TxExec s tx w =
    match pgExec s tx with
    | inl e => (addEvents [EvTxExec s; EvRollback] w, inl (Driver e))
    | inr tx' => (addEvents [EvTxExec s] w, inr tx')
    end.
Proof.
  unfold TxExec, bind, emit, fail, ret, addEvents.
  destruct (pgExec s tx); cbn [db fs out]; [now rewrite <- app_assoc | reflexivity].
Qed.

(** Inside a transaction a loop of inserts adds statements of the
    transaction and, when one fails, the rollback. *)
Lemma insertLoop_events (names : list string) (tx : Database Data) w :
  exists evs,
    out (fst (foldM (fun tx n => TxExec (InsertVersion n) tx) names tx w))
    = (out w ++ evs)%list
    /\ match snd (foldM (fun tx n => TxExec (InsertVersion n) tx) names tx w) with
       | inr _ => forall rest, bracketed true rest = true ->
                               bracketed true (evs ++ rest) = true
       | inl _ => bracketed true evs = true
       end.
Proof.
  revert tx w. induction names as [|n names IH]; intros tx w; cbn [foldM].
  - exists []. rewrite app_nil_r. split; [reflexivity | now intros rest].
  - unfold bind. rewrite TxExec_cases.
    destruct (pgExec (InsertVersion n) tx) as [e|tx1]; cbn [fst snd out addEvents].
    + exists [EvTxExec (InsertVersion n); EvRollback]. split; reflexivity.
    + destruct (IH tx1 (addEvents [EvTxExec (InsertVersion n)] w))
        as (evs & Hout & Hb).
      exists (EvTxExec (InsertVersion n) :: evs).
      rewrite Hout. cbn [out addEvents]. rewrite <- app_assoc. split; [reflexivity|].
      destruct (snd _); [exact Hb|].
      intros rest Hrest. cbn [app bracketed andb]. now apply Hb.
Qed.

Lemma Balanced_switchoverFromAlbion files :
  Forall (fun file => isSqlPath file = true) files ->
  Balanced (switchoverFromAlbion files).
Proof.
  intros HF w. unfold switchoverFromAlbion, QueryRow. unfold bind at 1.
  destruct (queryMaxVersion (meta (db w))) as [e|maxDB];
    [exists [EvQuery MaxVersion]; split; reflexivity|].
  unfold bind at 1.
  destruct (maxLegacy_total files 0 HF) as [a Ha].
  unfold maxLegacyMigrationVersion. rewrite Ha. cbn [orPanic ret].
  destruct (negb (maxDB =? a)); [exists [EvQuery MaxVersion]; split; reflexivity|].
  unfold bind at 1. unfold Begin at 1. unfold bind at 1. unfold emit at 1.
  cbn [db fs out]. unfold bind at 1. rewrite TxExec_cases.
  destruct (pgExec DropAndCreateMetaTable (db w)) as [e|tx].
  - cbn [fst out addEvents]. rewrite <- !app_assoc.
    eexists. split; reflexivity.
  - unfold bind at 1. rewrite (switchoverLoop_names _ _ _ HF).
    match goal with
    | |- context [foldM _ _ tx ?w0] =>
        destruct (insertLoop_events (legacyNames files) tx w0) as (evs & Hout & Hb);
        destruct (foldM (fun tx n => TxExec (InsertVersion n) tx)
                        (legacyNames files) tx w0) as [w1 [e|tx1]]
    end; cbn [fst snd out addEvents] in *.
    + exists ([EvQuery MaxVersion; EvBegin; EvTxExec DropAndCreateMetaTable] ++ evs)%list.
      rewrite Hout, <- !app_assoc. split; [reflexivity | exact Hb].
    + unfold Commit, bind, emit. cbn [fst out].
      exists ([EvQuery MaxVersion; EvBegin; EvTxExec DropAndCreateMetaTable]
                ++ evs ++ [EvCommit])%list.
      rewrite Hout, <- !app_assoc. split; [reflexivity|].
      cbn [app bracketed negb andb]. now apply Hb.
Qed.

Lemma Balanced_runLegacyMigrations files :
  Forall (fun file => isSqlPath file = true) files ->
  Balanced (runLegacyMigrations files).
Proof.
  intros HF. unfold runLegacyMigrations, forEach. apply Balanced_foldM.
  intros _ file Hin. apply Balanced_bind; [apply Balanced_orPanic|]. intros r.
  destruct (snd r); [|apply Balanced_ret].
  apply Balanced_runMigration. rewrite Forall_forall in HF. now apply HF.
Qed.

Lemma Balanced_bootstrap (dbName : string) files :
  Forall (fun file => isSqlPath file = true) files ->
  Balanced (bootstrap dbName files).
Proof.
  intros HF w. unfold bootstrap, QueryRow.
  set (w1 := mkWorld (db w) (fs w) (out w ++ [EvQuery VerType])).
  assert (forall {A} (m : M A), Balanced m ->
            exists evs, out (fst (m w1)) = (out w ++ evs)%list
                        /\ bracketed false evs = true) as Hstep.
  { intros A m Hm. destruct (Hm w1) as (evs & Hout & Hb).
    exists (EvQuery VerType :: evs). rewrite Hout. subst w1. cbn [out].
    rewrite <- app_assoc. split; [reflexivity | exact Hb]. }
  destruct (queryVerType (meta (db w))) as [e|vertype].
  - destruct e; try (apply (Hstep _ (fail (VerTypeReadFailed _))), Balanced_fail).
    apply Hstep. apply Balanced_bind; [|intros _; now apply Balanced_runLegacyMigrations].
    intros w'. unfold Exec, bind, emit. cbn [db fs out].
    exists [EvExec CreateMetaTable].
    destruct (pgExec CreateMetaTable (db w')); split; reflexivity.
  - destruct (negb _).
    + apply (Hstep _ (ret tt)), Balanced_ret.
    + apply Hstep. apply Balanced_bind; [|intros _; now apply Balanced_switchoverFromAlbion].
      intros w'. eexists. split; reflexivity.
Qed.

Lemma Balanced_applyMissing files :
  Forall (fun file => isSqlPath file = true) files ->
  Balanced (applyMissing files).
Proof.
  intros HF. unfold applyMissing. apply Balanced_bind.
  { intros w. unfold getMigrationsInDB, QueryRow.
    exists [EvQuery Versions]. destruct (queryVersions _); split; reflexivity. }
  intros existing. apply Balanced_bind.
  { apply Balanced_foldM. intros nrun file Hin.
    apply Balanced_bind; [apply Balanced_orPanic|]. intros n.
    destruct (negb _); [|apply Balanced_ret].
    apply Balanced_bind; [|intros _; apply Balanced_ret].
    apply Balanced_runMigration. rewrite Forall_forall in HF. now apply HF. }
  intros nrun. destruct (nrun =? 0)%nat; [|apply Balanced_ret].
  intros w. eexists. split; reflexivity.
Qed.

(** X16.  Whatever the state of the database and whatever the outcome,
    the events of a run keep the discipline of transactions: every script
    and every insert is a statement of a transaction, no transaction is
    begun inside another, each is committed or rolled back before the run
    returns, and the only statement outside a transaction is the creation
    of the table. *)
Theorem run_keeps_transaction_discipline (dbName : string) files w :
  Forall (fun file => isSqlPath file = true) files ->
  exists evs : list Event,
    out (fst (runMigrationsOn dbName files w)) = (out w ++ evs)%list
    /\ bracketed false evs = true.
Proof.
  intros HF. rewrite runMigrationsOn_bootstrap.
  apply Balanced_bind; [now apply Balanced_bootstrap|].
  intros _. now apply Balanced_applyMissing.
Qed.

End Brackets.

Lemma run_keeps_transaction_discipline_witness :
  exists evs : list Event,
    out (fst (runMigrationsOn "main" threeFiles (testWorld (Current []) brokenContent)))
    = (out (testWorld (Current []) brokenContent) ++ evs)%list
    /\ bracketed false evs = true.
Proof.
  apply (@run_keeps_transaction_discipline testEnv "main" threeFiles).
  repeat constructor.
Defined.

(** ** Collecting the files *)

Section Collecting.

Context `{Env : Environment}.

Lemma Ext_is_suffix (path : string) : exists a, path = a ++ Filepath.Ext path.
Proof.
  induction path as [|c rest [a IH]]; [now exists ""|].
  cbn [Filepath.Ext].
  destruct (String.eqb_spec (Filepath.Ext rest) "") as [Hnil|Hne]; cbn [negb].
  - destruct (Go.hasSeparator rest).
    + exists (String c rest). now rewrite append_nil_r.
    + destruct (Ascii.eqb c ".").
      * now exists "".
      * exists (String c rest). now rewrite append_nil_r.
  - exists (String c a). cbn [String.append]. now rewrite <- IH.
Qed.

Lemma Ext_of_sql (a : string) : Filepath.Ext (a ++ ".sql") = ".sql".
Proof.
  induction a as [|c a IH]; [reflexivity|].
  cbn [String.append Filepath.Ext]. now rewrite IH.
Qed.

(** X17.  The test [filepath.Ext(path) == ".sql"] of the walker holds
    exactly for the paths that end in [.sql]; these are the paths on which
    the name functions of the engine do not panic. *)
Theorem Ext_sql_iff (path : string) :
  (Filepath.Ext path = ".sql" <-> isSqlPath path = true)
  /\ (isSqlPath path = true ->
      is_Some (migrationNameFromFile unicodeToLower path)
      /\ is_Some (legacyMigrationVersion path)).
Proof.
  split; [split|].
  - intros H. destruct (Ext_is_suffix path) as [a Ha]. rewrite H in Ha.
    rewrite Ha. apply HasSuffix_append.
  - intros H. apply HasSuffix_inv in H as [a ->]. apply Ext_of_sql.
  - intros H. split.
    + rewrite (sqlPath_name _ H). now eexists.
    + destruct (sqlPath_legacy _ H) as [v ->]. now eexists.
Qed.

Lemma Ext_sql_decide (path : string) :
  String.eqb (Filepath.Ext path) ".sql" = isSqlPath path.
Proof.
  destruct (String.eqb_spec (Filepath.Ext path) ".sql") as [H|H].
  - destruct (Ext_is_suffix path) as [a Ha]. rewrite H in Ha. rewrite Ha.
    symmetry. apply HasSuffix_append.
  - destruct (isSqlPath path) eqn:E; [|reflexivity].
    apply HasSuffix_inv in E as [a ->]. now rewrite Ext_of_sql in H.
Qed.

(** What the callback does with one entry of the directory. *)
Lemma walk_entry (sqlDir path : string) (info : Filepath.Node) (acc : list string) :
  path <> sqlDir ->
  Filepath.walk (collectSql sqlDir) path info acc
  = ((acc ++ filter (fun p => isSqlPath p = true) [path])%list,
     if Filepath.IsDir info then Filepath.SkipDir else Filepath.Continue).
Proof.
  intros Hne.
  assert (String.eqb path sqlDir = false) as Hb by now apply String.eqb_neq.
  rewrite filter_cons, filter_nil.
  destruct info as [|entries]; cbn [Filepath.walk Filepath.IsDir];
    unfold collectSql; rewrite Ext_sql_decide, ?Hb; cbn [negb andb];
    destruct (isSqlPath path);
    rewrite ?decide_True by reflexivity; rewrite ?decide_False by discriminate;
    rewrite ?app_nil_r; reflexivity.
Qed.

Lemma walk_entries (sqlDir : string) (entries : list (string * Filepath.Node))
      (acc : list string) :
  Forall (fun entry => fst entry <> sqlDir) entries ->
  (fix range (names : list (string * Filepath.Node)) (s : list string) {struct names}
     : list string * Filepath.Verdict string :=
     match names with
     | [] => (s, Filepath.Continue)
     | (filename, fileInfo) :: rest =>
         match Filepath.walk (collectSql sqlDir) filename fileInfo s with
         | (s2, Filepath.Continue) => range rest s2
         | (s2, Filepath.SkipDir) =>
             if Filepath.IsDir fileInfo then range rest s2 else (s2, Filepath.SkipDir)
         | (s2, Filepath.Stop err) => (s2, Filepath.Stop err)
         end
     end) entries acc
  = ((acc ++ filter (fun p => isSqlPath p = true) (map fst entries))%list,
     Filepath.Continue).
Proof.
  intros HF. revert acc. induction HF as [|[path info] entries Hne HF IH]; intros acc.
  - cbn. now rewrite app_nil_r.
  - cbn [fst] in Hne. rewrite (walk_entry _ _ _ _ Hne).
    cbn [map fst]. rewrite (filter_cons _ path).
    destruct (Filepath.IsDir info); rewrite IH, <- app_assoc; f_equal; f_equal;
      rewrite filter_cons, filter_nil; destruct (decide (isSqlPath path = true));
      reflexivity.
Qed.

(** The files [upgrade] finds in a directory. *)
Lemma Walk_directory (sqlDir : string) (entries : list (string * Filepath.Node)) :
  Forall (fun entry => fst entry <> sqlDir) entries ->
  Filepath.Walk (collectSql sqlDir) sqlDir (Some (Filepath.Dir entries)) []
  = (filter (fun p => isSqlPath p = true) (sqlDir :: map fst entries), None).
Proof.
  intros HF. unfold Filepath.Walk. cbn [Filepath.walk].
  unfold collectSql at 1. rewrite Ext_sql_decide, String.eqb_refl.
  cbn [negb andb]. rewrite (walk_entries _ _ _ HF), (filter_cons _ sqlDir).
  destruct (isSqlPath sqlDir).
  - now rewrite decide_True by reflexivity.
  - now rewrite decide_False by discriminate.
Qed.

(** X18.  In a directory, [upgrade] hands to [runMigrations] the entries
    of the directory whose path ends in [.sql], in the order of the
    listing, whether they are files or directories, and the directory
    itself if its own name ends in [.sql]; nothing below a sub-directory
    is looked at.  Every path handed over ends in [.sql].  The error of
    the run comes back with the database name of the descriptor in front. *)
Theorem upgrade_runs_collected
        (db sqlDir : string) (entries : list (string * Filepath.Node)) (sys : System) :
  Forall (fun entry => fst entry <> sqlDir) entries ->
  let sqlFiles := filter (fun p => isSqlPath p = true) (sqlDir :: map fst entries) in
  sqlFiles <> [] ->
  Forall (fun file => isSqlPath file = true) sqlFiles
  /\ upgrade db sqlDir (Some (Filepath.Dir entries)) sys
     = (fst (runMigrations db sqlFiles sys),
        match snd (runMigrations db sqlFiles sys) with
        | Some err => Some (MigrationsFailed (dbname (fst (parseDBConStr db))) err)
        | None => None
        end).
Proof.
  intros HF sqlFiles Hne. split.
  - apply Forall_forall. intros f Hf. now apply list_elem_of_filter in Hf as [Hf _].
  - unfold upgrade. rewrite (Walk_directory _ _ HF). fold sqlFiles.
    destruct sqlFiles as [|f fs']; [contradiction|]. cbn [length Nat.eqb].
    destruct (runMigrations db (f :: fs') sys) as [sys' [err|]]; reflexivity.
Qed.

(** X19.  Without a migration file nothing is touched: when the directory
    does not exist [upgrade] returns the scanning error, and when it holds
    no entry ending in [.sql] it returns "No SQL files found"; in both
    cases the system is as before, no connection having been opened. *)
Theorem upgrade_without_files (db sqlDir : string) (sys : System) :
  (upgrade db sqlDir None sys
   = (sys, Some (ScanFailed sqlDir ("Error scanning SQL files: lstat " ++ sqlDir
                                      ++ ": no such file or directory"))))
  /\ (forall entries : list (string * Filepath.Node),
         Forall (fun entry => fst entry <> sqlDir) entries ->
         filter (fun p => isSqlPath p = true) (sqlDir :: map fst entries) = [] ->
         upgrade db sqlDir (Some (Filepath.Dir entries)) sys
         = (sys, Some (NoSqlFiles sqlDir)))
  /\ upgradeMessage (NoSqlFiles sqlDir) = "No SQL files found in " ++ sqlDir.
Proof.
  split; [|split; [|reflexivity]].
  - reflexivity.
  - intros entries HF Hnil. unfold upgrade.
    now rewrite (Walk_directory _ _ HF), Hnil.
Qed.

(** X20.  The database name in front of an error of [upgrade] is taken
    from the descriptor even when the descriptor did not parse: it is the
    fourth part when there are six parts, whatever the driver, and empty
    when there are not, so that the text of the error then starts with a
    colon. *)
Theorem upgrade_error_prefix
        (db sqlDir : string) (tree : option Filepath.Node) (sys sys' : System)
        (name : string) (err : Error) :
  upgrade db sqlDir tree sys = (sys', Some (MigrationsFailed name err)) ->
  upgradeMessage (MigrationsFailed name err) = name ++ ": " ++ message err
  /\ (length (Go.Split ":" db) = 6%nat -> name = nth 3 (Go.Split ":" db) "")
  /\ (length (Go.Split ":" db) <> 6%nat ->
      name = "" /\ err = InvalidConStr (length (Go.Split ":" db)) /\ sys' = sys).
Proof.
  unfold upgrade.
  destruct (Filepath.Walk _ _ _ _) as [sqlFiles [cause|]]; [discriminate|].
  destruct (length sqlFiles =? 0)%nat; [discriminate|].
  destruct (runMigrations db sqlFiles sys) as [sys1 [e|]] eqn:Hrun; [|discriminate].
  intros [= <- <- <-]. split; [reflexivity|].
  revert Hrun. unfold runMigrations, parseDBConStr.
  destruct (Nat.eqb_spec (length (Go.Split ":" db)) 6) as [Hlen|Hlen]; cbn [negb fst].
  - intros _. split; [|contradiction]. intros _. cbv zeta. cbn [driver].
    destruct (negb _); reflexivity.
  - intros [= <- <-]. split; [contradiction|]. now intros _.
Qed.

End Collecting.

(** ** The name check of the service *)

Section ServiceNames.

Lemma allBytes_hasByte (f : ascii -> bool) (s : string) :
  allBytes f s = true <-> (forall c, hasByte c s = true -> f c = true).
Proof.
  induction s as [|x s IH]; cbn [allBytes hasByte].
  - split; [discriminate | reflexivity].
  - rewrite andb_true_iff, IH. split.
    + intros [Hx Hs] c Hc. apply orb_prop in Hc as [Hc|Hc]; [|now apply Hs].
      apply Ascii.eqb_eq in Hc. now subst.
    + intros H. split.
      * apply H. now rewrite Ascii.eqb_refl.
      * intros c Hc. apply H. rewrite Hc. apply orb_true_r.
Qed.

Lemma hasSeparator_hasByte (s : string) : Go.hasSeparator s = hasByte "/" s.
Proof. induction s as [|c s IH]; [reflexivity|]. cbn. now rewrite IH. Qed.

(** X21.  A database name that [validDBNameRegex] accepts is not empty and
    is made of letters, digits, underscores and dashes only; it holds no
    slash, dot, colon, blank, quote or semicolon, so it is its own base
    name and names an entry directly below the migrations root. *)
Theorem valid_name_is_plain (s : string) :
  validDBName s = true ->
  s <> ""
  /\ (forall c, hasByte c s = true -> nameClass c = true)
  /\ Forall (fun c => hasByte c s = false) ["/"; "."; ":"; " "; ";"; "'"; "\"]%char
  /\ Go.Base s = s.
Proof.
  unfold validDBName. intros H. apply andb_prop in H as [Hne Hall].
  apply negb_true_iff, String.eqb_neq in Hne.
  pose proof (proj1 (allBytes_hasByte nameClass s) Hall) as Hclass.
  assert (forall c, nameClass c = false -> hasByte c s = false) as Hout.
  { intros c Hc. destruct (hasByte c s) eqn:E; [|reflexivity].
    apply Hclass in E. congruence. }
  split; [exact Hne|]. split; [exact Hclass|]. split.
  - repeat constructor; now apply Hout.
  - assert (Go.hasSeparator s = false) as Hsep
        by (rewrite hasSeparator_hasByte; now apply Hout).
    unfold Go.Base.
    assert (String.eqb s "" = false) as Hb by now apply String.eqb_neq.
    now rewrite Hb, (strip_free _ Hsep), (lastElement_free _ Hsep), Hb.
Qed.

End ServiceNames.

Lemma upgrade_runs_collected_witness :
  let entries := [("migs/0000-0000.sql", Filepath.File);
                  ("migs/README.md", Filepath.File);
                  ("migs/old", Filepath.Dir [("migs/old/1999.sql", Filepath.File)]);
                  ("migs/2018-01-15-a.sql", Filepath.File)] in
  let sys := @mkSystem testEnv {[ "postgres" := testDb Absent [] ]}
                       (list_to_map readmeContent) [] in
  upgrade "postgres:localhost:0:main:u:p" "migs" (Some (Filepath.Dir entries)) sys
  = (fst (runMigrations "postgres:localhost:0:main:u:p"
                        ["migs/0000-0000.sql"; "migs/2018-01-15-a.sql"] sys),
     match snd (runMigrations "postgres:localhost:0:main:u:p"
                              ["migs/0000-0000.sql"; "migs/2018-01-15-a.sql"] sys) with
     | Some err => Some (MigrationsFailed "main" err)
     | None => None
     end).
Proof.
  intros entries sys.
  refine (proj2 (@upgrade_runs_collected
                   testEnv "postgres:localhost:0:main:u:p" "migs" entries sys _ _)).
  - repeat constructor; discriminate.
  - discriminate.
Defined.

Lemma upgrade_error_prefix_witness :
  upgradeMessage (MigrationsFailed "" (InvalidConStr 2))
  = ": Invalid db connection string. Expected 6 colon-separated parts, but only got 2 parts".
Proof.
  pose (sys := @mkSystem testEnv {[ "postgres" := testDb Absent [] ]}
                         (list_to_map readmeContent) []).
  destruct (@upgrade_error_prefix
              testEnv "postgres:main" "migs"
              (Some (Filepath.Dir [("migs/a.sql", Filepath.File)])) sys sys
              "" (InvalidConStr 2)) as [H _].
  - apply pair_of_snd. vm_compute. reflexivity.
  - rewrite H. reflexivity.
Defined.

Lemma valid_name_is_plain_witness : Go.Base "main-2_db" = "main-2_db".
Proof.
  destruct (valid_name_is_plain "main-2_db" eq_refl) as (_ & _ & _ & H). exact H.
Defined.

(** ** All databases *)

Section AllDatabases.

Context `{Env : Environment}.

Variable getDBConnection : string -> string + string.

Lemma upgradeEach_app (before rest : list (string * Filepath.Node)) (sys sys1 : System) :
  upgradeEach getDBConnection before sys = (sys1, None) ->
  upgradeEach getDBConnection (before ++ rest)%list sys
  = upgradeEach getDBConnection rest sys1.
Proof.
  revert sys. induction before as [|[name info] before IH]; intros sys; cbn [app upgradeEach].
  - now intros [= <-].
  - destruct (Filepath.IsDir info); [|apply IH].
    destruct (getDBConnection name) as [cause|conn]; [discriminate|].
    destruct (upgrade conn (migrationsDirOf name) (Some info) sys) as [sys' [e|]];
      [discriminate | apply IH].
Qed.

Lemma upgradeEach_files (entries : list (string * Filepath.Node)) (sys : System) :
  upgradeEach getDBConnection entries sys
  = upgradeEach getDBConnection
      (filter (fun entry => Filepath.IsDir (snd entry) = true) entries) sys.
Proof.
  revert sys. induction entries as [|[name info] entries IH]; intros sys; [reflexivity|].
  rewrite filter_cons. cbn [snd upgradeEach].
  destruct (Filepath.IsDir info) eqn:Hdir.
  - rewrite decide_True by reflexivity. cbn [upgradeEach]. rewrite Hdir.
    destruct (getDBConnection name) as [cause|conn]; [reflexivity|].
    destruct (upgrade conn (migrationsDirOf name) (Some info) sys) as [sys' [e|]];
      [reflexivity | apply IH].
  - rewrite decide_False by discriminate. apply IH.
Qed.

(** X22.  [upgradeAll] stops at the first database that fails.  Plain
    files in the migrations root are passed over.  When the directories
    before one have been upgraded and that one holds no entry ending in
    [.sql], [upgradeAll] returns "No SQL files found" for it, with the
    system as the earlier upgrades left it: no directory after it is
    looked at, whatever it holds, and the config service is not asked
    about it. *)
Theorem upgradeAll_stops_at_empty_directory
        (before after : list (string * Filepath.Node))
        (name conn : string) (sub : list (string * Filepath.Node))
        (sys sys1 : System) :
  upgradeAll getDBConnection (inr before) sys = (sys1, None) ->
  getDBConnection name = inr conn ->
  Forall (fun entry => fst entry <> migrationsDirOf name) sub ->
  filter (fun p => isSqlPath p = true) (migrationsDirOf name :: map fst sub) = [] ->
  upgradeAll getDBConnection (inr (before ++ (name, Filepath.Dir sub) :: after)%list) sys
  = (sys1, Some (UpgradeFailed (NoSqlFiles (migrationsDirOf name))))
  /\ upgradeAll getDBConnection (inr before) sys
     = upgradeAll getDBConnection
         (inr (filter (fun entry => Filepath.IsDir (snd entry) = true) before)) sys.
Proof.
  unfold upgradeAll. intros Hbefore Hconn HF Hnil. split; [|apply upgradeEach_files].
  rewrite (upgradeEach_app _ _ _ _ Hbefore). cbn [upgradeEach Filepath.IsDir].
  rewrite Hconn. unfold upgrade. now rewrite (Walk_directory _ _ HF), Hnil.
Qed.

End AllDatabases.

Lemma upgradeAll_stops_at_empty_directory_witness :
  let config := fun name : string =>
                  @inr string string ("postgres:localhost:0:" ++ name ++ ":u:p") in
  let sys := @mkSystem testEnv {[ "postgres" := testDb Absent [] ]}
                       (list_to_map readmeContent) [] in
  let before := [("README.md", Filepath.File)] in
  let after := [("main", Filepath.Dir
                           [("/dbschema/migrations/main/2018-01-15-a.sql",
                             Filepath.File)])] in
  upgradeAll config
             (inr (before
                     ++ ("empty", Filepath.Dir
                                    [("/dbschema/migrations/empty/notes.txt",
                                      Filepath.File)]) :: after)%list) sys
  = (sys, Some (UpgradeFailed (NoSqlFiles "/dbschema/migrations/empty"))).
Proof.
  intros config sys before after.
  refine (proj1 (@upgradeAll_stops_at_empty_directory
                   testEnv config before after "empty"
                   "postgres:localhost:0:empty:u:p" _ sys sys _ _ _ _)).
  - reflexivity.
  - reflexivity.
  - repeat constructor; discriminate.
  - reflexivity.
Defined.
